(** * nydus-test framework, [rafs.py]: runtime configuration, image builder
      driver and daemon mount loop.

    A shallow embedding of [contrib/nydus-test/framework/rafs.py].  Python
    objects whose attributes are set and read dynamically ([Namespace], [dict],
    keyword arguments) are trees of [pyval]; methods are state transformers in
    a small state-and-exception monad, so that the object as it stands when an
    exception is raised stays observable. *)

From stdpp Require Import gmap strings list.
From Stdlib Require Import ZArith Lia DecimalString Ascii.

Set Warnings "-register-all".
Local Open Scope string_scope.

(** ** Python values *)

(** [PObj] stands both for a [types.SimpleNamespace] and for a [dict] with
    string keys: an association list in insertion order, which is the order
    [json.dump] writes. *)
Inductive pyval : Type :=
| PNone
| PBool (b : bool)
| PInt (z : Z)
| PStr (s : string)
| PList (l : list pyval)
| PObj (kvs : list (string * pyval)).

(** The exceptions the module can raise.  [Failed] is the exception of
    [pytest.fail], with its message. *)
Inductive exn : Type :=
| AttributeError
| FileNotFoundError
| TypeError
| KeyError
| IndexError
| AssertionError
| JSONDecodeError
| Failed (msg : string).

Inductive res (A : Type) : Type :=
| Ok (a : A)
| Raise (e : exn).
Arguments Ok {A} a.
Arguments Raise {A} e.

(** ** State and exception monad *)

Module PyM.

Definition M (S A : Type) : Type := S -> res A * S.

Definition ret {S A} (a : A) : M S A := fun s => (Ok a, s).

Definition bind {S A B} (m : M S A) (k : A -> M S B) : M S B :=
  fun s => match m s with
           | (Ok a, s') => k a s'
           | (Raise e, s') => (Raise e, s')
           end.

Definition raise {S A} (e : exn) : M S A := fun s => (Raise e, s).

Definition gets {S A} (f : S -> A) : M S A := fun s => (Ok (f s), s).

Definition modify {S} (f : S -> S) : M S unit := fun s => (Ok tt, f s).

(** A pure computation that may raise, run without touching the state. *)
Definition lift {S A} (r : res A) : M S A := fun s => (r, s).

(** [try: m except <handled>: pass]: the exceptions selected by [handled]
    are swallowed; the state is the one reached when the exception was
    raised. *)
Definition try_pass {S} (m : M S unit) (handled : exn -> bool) : M S unit :=
  fun s => match m s with
           | (Ok tt, s') => (Ok tt, s')
           | (Raise e, s') => if handled e then (Ok tt, s') else (Raise e, s')
           end.

(** [if c: m] with no [else]. *)
Definition when {S} (c : bool) (m : M S unit) : M S unit :=
  if c then m else ret tt.

End PyM.
Import PyM.

Notation "x <- m ;; k" := (bind m (fun x => k))
  (at level 100, m at level 99, right associativity).
Notation "m ;; k" := (bind m (fun _ => k))
  (at level 100, right associativity).

(** ** Attribute access *)

Fixpoint assoc_get (k : string) (kvs : list (string * pyval)) : option pyval :=
  match kvs with
  | [] => None
  | (k', v) :: rest => if String.eqb k k' then Some v else assoc_get k rest
  end.

(** Assignment keeps the position of a key that is present and appends a new
    key, as [__dict__] does. *)
Fixpoint assoc_set (k : string) (v : pyval) (kvs : list (string * pyval))
  : list (string * pyval) :=
  match kvs with
  | [] => [(k, v)]
  | (k', v') :: rest =>
      if String.eqb k k' then (k', v) :: rest else (k', v') :: assoc_set k v rest
  end.

(** [o.k] *)
Definition getattr (o : pyval) (k : string) : res pyval :=
  match o with
  | PObj kvs => match assoc_get k kvs with
                | Some v => Ok v
                | None => Raise AttributeError
                end
  | _ => Raise AttributeError
  end.

(** [o.k = v] *)
Definition setattr (o : pyval) (k : string) (v : pyval) : res pyval :=
  match o with
  | PObj kvs => Ok (PObj (assoc_set k v kvs))
  | _ => Raise AttributeError
  end.

(** [d[k]] on a dict *)
Definition getitem (d : pyval) (k : string) : res pyval :=
  match d with
  | PObj kvs => match assoc_get k kvs with
                | Some v => Ok v
                | None => Raise KeyError
                end
  | _ => Raise TypeError
  end.

(** [o.k1.k2. ... .kn = v]: the attributes before the last are read, the
    last one is assigned. *)
Fixpoint set_path (o : pyval) (k : string) (rest : list string) (v : pyval)
  : res pyval :=
  match rest with
  | [] => setattr o k v
  | k' :: rest' =>
      match getattr o k with
      | Ok o' => match set_path o' k' rest' v with
                 | Ok o'' => setattr o k o''
                 | Raise e => Raise e
                 end
      | Raise e => Raise e
      end
  end.

(** [o.k1.k2. ... .kn] *)
Fixpoint get_path (o : pyval) (ks : list string) : res pyval :=
  match ks with
  | [] => Ok o
  | k :: rest => match getattr o k with
                 | Ok o' => get_path o' rest
                 | Raise e => Raise e
                 end
  end.

(** [s.split(sep)] for a separator of one character; [acc] is the piece
    being read. *)
Fixpoint split_on (sep : ascii) (acc : string) (s : string) : list string :=
  match s with
  | EmptyString => [acc]
  | String c s' =>
      if Ascii.eqb c sep then acc :: split_on sep "" s'
      else split_on sep (acc +:+ String c "") s'
  end.

(** The attribute names of a dotted path such as ["device.backend.type"]. *)
Definition split_dots (s : string) : list string := split_on "."%char "" s.

(** ** Strings of the standard library used by the module *)

Fixpoint ends_with_slash (s : string) : bool :=
  match s with
  | EmptyString => false
  | String c EmptyString => Ascii.eqb c "/"%char
  | String _ s' => ends_with_slash s'
  end.

Definition starts_with_slash (s : string) : bool :=
  match s with
  | String c _ => Ascii.eqb c "/"%char
  | EmptyString => false
  end.

(** [posixpath.join(a, b)] on two [str]. *)
Definition path_join (a b : string) : string :=
  if starts_with_slash b then b
  else if (String.eqb a "" || ends_with_slash a)%bool then a +:+ b
  else a +:+ "/" +:+ b.

(** [posixpath.join] on Python values: anything but [str] is a [TypeError]. *)
Definition posixpath_join (a b : pyval) : res pyval :=
  match a, b with
  | PStr a', PStr b' => Ok (PStr (path_join a' b'))
  | _, _ => Raise TypeError
  end.

Fixpoint join_with (sep : string) (l : list string) : string :=
  match l with
  | [] => ""
  | [x] => x
  | x :: rest => x +:+ sep +:+ join_with sep rest
  end.

(** One step of the loop over the components in [posixpath.normpath]. *)
Definition normpath_step (initial_slashes : nat) (new_comps : list string)
    (comp : string) : list string :=
  if (String.eqb comp "" || String.eqb comp ".")%bool then new_comps
  else if (negb (String.eqb comp "..")
           || (Nat.eqb initial_slashes 0 && Nat.eqb (length new_comps) 0)
           || match last new_comps with
              | Some l => String.eqb l ".."
              | None => false
              end)%bool
       then new_comps ++ [comp]
       else removelast new_comps.

Definition normpath (path : string) : string :=
  if String.eqb path "" then "."
  else
    let initial_slashes :=
      if starts_with_slash path then
        if (String.prefix "//" path && negb (String.prefix "///" path))%bool
        then 2 else 1
      else 0 in
    let comps := fold_left (normpath_step initial_slashes)
                           (split_on "/"%char "" path) [] in
    let p := join_with "/" (replicate initial_slashes "" ++ [join_with "/" comps]) in
    if String.eqb p "" then "." else p.

(** [os.path.abspath(path)] in the working directory [cwd]. *)
Definition abspath (cwd path : string) : string :=
  normpath (if starts_with_slash path then path else path_join cwd path).

(** *** [json.dumps] *)

Definition hex_digit (n : nat) : ascii :=
  match n with
  | 0 => "0" | 1 => "1" | 2 => "2" | 3 => "3" | 4 => "4" | 5 => "5"
  | 6 => "6" | 7 => "7" | 8 => "8" | 9 => "9" | 10 => "a" | 11 => "b"
  | 12 => "c" | 13 => "d" | 14 => "e" | _ => "f"
  end%char.

Definition dquote : string := String (ascii_of_nat 34) "".
Definition backslash : string := String (ascii_of_nat 92) "".

(** The escapes of [json.encoder.py_encode_basestring_ascii] on a string of
    bytes: short escapes for quote, backslash and the usual control
    characters, [\u00XX] for every other byte outside the printable ASCII
    range. *)
Definition json_escape_char (c : ascii) : string :=
  let n := nat_of_ascii c in
  if Nat.eqb n 34 then backslash +:+ dquote
  else if Nat.eqb n 92 then backslash +:+ backslash
  else if Nat.eqb n 10 then backslash +:+ "n"
  else if Nat.eqb n 13 then backslash +:+ "r"
  else if Nat.eqb n 9 then backslash +:+ "t"
  else if Nat.eqb n 8 then backslash +:+ "b"
  else if Nat.eqb n 12 then backslash +:+ "f"
  else if (Nat.ltb n 32 || Nat.ltb 126 n)%bool then
    backslash +:+ "u00" +:+ String (hex_digit (n / 16)) (String (hex_digit (n mod 16)) "")
  else String c "".

Fixpoint json_escape (s : string) : string :=
  match s with
  | EmptyString => ""
  | String c s' => json_escape_char c +:+ json_escape s'
  end.

Definition json_quote (s : string) : string :=
  dquote +:+ json_escape s +:+ dquote.

Definition string_of_Z (z : Z) : string :=
  NilZero.string_of_int (Z.to_int z).

(** [json.dumps(v)] with the default separators. *)
Fixpoint json_dumps (v : pyval) : string :=
  match v with
  | PNone => "null"
  | PBool true => "true"
  | PBool false => "false"
  | PInt z => string_of_Z z
  | PStr s => json_quote s
  | PList l => "[" +:+ join_with ", " (map json_dumps l) +:+ "]"
  | PObj kvs =>
      "{" +:+ join_with ", "
                (map (fun kv => json_quote (fst kv) +:+ ": " +:+ json_dumps (snd kv)) kvs)
          +:+ "}"
  end.

(** *** Text files *)

(** An open file object: what is stored and the position of the handle. *)
Record File : Type := mkFile {
  content : string;
  pos : nat;
}.

Fixpoint nul_bytes (n : nat) : string :=
  match n with
  | O => ""
  | S n' => String (ascii_of_nat 0) (nul_bytes n')
  end.

(** [f.truncate(0)]: the file is emptied, the position stays. *)
Definition file_truncate0 (f : File) : File :=
  {| content := ""; pos := pos f |}.

(** [f.seek(0)] *)
Definition file_seek0 (f : File) : File :=
  {| content := content f; pos := 0 |}.

(** [f.write(s)] followed by [f.flush()]: [s] replaces what is stored from
    the position on; a position past the end is reached by zero bytes. *)
Definition file_write (s : string) (f : File) : File :=
  let len := String.length (content f) in
  let before := String.substring 0 (pos f) (content f) +:+ nul_bytes (pos f - len) in
  let after_ := String.substring (pos f + String.length s)
                                 (len - (pos f + String.length s)) (content f) in
  {| content := before +:+ s +:+ after_; pos := pos f + String.length s |}.

(** ** The test anchor *)

Inductive Backend : Type := OSS | REGISTRY | LOCALFS | BACKEND_PROXY.

Definition Backend_eqb (a b : Backend) : bool :=
  match a, b with
  | OSS, OSS | REGISTRY, REGISTRY | LOCALFS, LOCALFS
  | BACKEND_PROXY, BACKEND_PROXY => true
  | _, _ => false
  end.

(** [Backend.__str__]: the value of the member. *)
Definition Backend_str (b : Backend) : string :=
  match b with
  | OSS => "oss"
  | REGISTRY => "registry"
  | LOCALFS => "localfs"
  | BACKEND_PROXY => "backend_proxy"
  end.

(** The attributes of [NydusAnchor] that [rafs.py] reads.  The class lives in
    another module; its attributes are taken as given, each an arbitrary
    Python value ([PNone] when the test environment leaves it unset), except
    [fs_version], which stands for [int(anchor.fs_version)]. *)
Record NydusAnchor : Type := mkAnchor {
  registry_namespace : pyval;
  registry_url : pyval;
  registry_auth : pyval;
  oss_endpoint : pyval;
  oss_ak_id : pyval;
  oss_ak_secret : pyval;
  oss_bucket : pyval;
  backend_proxy_url : pyval;
  backend_proxy_blobs_dir : pyval;
  localfs_workdir : pyval;
  blobcache_dir : pyval;
  fs_version : Z;
}.

(** ** [class RafsConf] *)

Inductive level : Type := INFO | WARNING | ERROR.

Definition LogRecord : Type := (level * string * list pyval)%type.

(** [_rafs_conf_default] is assigned once, in [__init__], from the
    environment variable [PREFERRED_MODE]; the record keeps that string and
    [_rafs_conf_default] rebuilds the dict.  [logging] collects the records
    the object's methods hand to the [logging] module, oldest first; a record
    keeps the format string and its arguments apart, as [logging] does. *)
Record RafsConf : Type := mkRafsConf {
  conf_file_wrapper : File;
  anchor : NydusAnchor;
  preferred_mode : string;
  _device_conf : pyval;
  device_conf : pyval;
  logging : list LogRecord;
}.

Definition with__device_conf (d : pyval) (c : RafsConf) : RafsConf :=
  {| conf_file_wrapper := conf_file_wrapper c; anchor := anchor c;
     preferred_mode := preferred_mode c; _device_conf := d;
     device_conf := device_conf c; logging := logging c |}.

Definition with_device_conf (d : pyval) (c : RafsConf) : RafsConf :=
  {| conf_file_wrapper := conf_file_wrapper c; anchor := anchor c;
     preferred_mode := preferred_mode c; _device_conf := _device_conf c;
     device_conf := d; logging := logging c |}.

Definition with_conf_file (f : File) (c : RafsConf) : RafsConf :=
  {| conf_file_wrapper := f; anchor := anchor c;
     preferred_mode := preferred_mode c; _device_conf := _device_conf c;
     device_conf := device_conf c; logging := logging c |}.

Definition with_logging (l : list LogRecord) (c : RafsConf) : RafsConf :=
  {| conf_file_wrapper := conf_file_wrapper c; anchor := anchor c;
     preferred_mode := preferred_mode c; _device_conf := _device_conf c;
     device_conf := device_conf c; logging := l |}.

Definition _rafs_conf_default (mode : string) : pyval :=
  PObj [("device", PObj [("backend", PObj [("type", PStr "oss");
                                           ("config", PObj [])])]);
        ("mode", PStr mode);
        ("iostats_files", PBool false);
        ("fs_prefetch", PObj [("enable", PBool false)])].

(** [utils.object_to_dict(copy.deepcopy(o))]: a [Namespace] tree becomes a
    tree of dicts with the same keys in the same order.  Both are [PObj]
    trees here and values are immutable, so nothing changes. *)
Definition object_to_dict (o : pyval) : pyval := o.

(** [RafsConf.__init__]; [getenv_mode] is [os.getenv("PREFERRED_MODE")]. *)
Definition RafsConf_init (a : NydusAnchor) (getenv_mode : option string) : RafsConf :=
  let mode := default "direct" getenv_mode in
  {| conf_file_wrapper := mkFile "" 0;
     anchor := a;
     preferred_mode := mode;
     _device_conf := _rafs_conf_default mode;
     device_conf := object_to_dict (_rafs_conf_default mode);
     logging := [] |}.

Definition log (lv : level) (msg : string) (args : list pyval) : M RafsConf unit :=
  modify (fun c => with_logging (logging c ++ [(lv, msg, args)]) c).

(** [exec("self._device_conf." + k + "=v")] *)
Definition _configure_rafs (k : string) (v : pyval) : M RafsConf unit :=
  fun c =>
    match split_dots k with
    | [] => (Raise AttributeError, c)
    | k0 :: rest =>
        match set_path (_device_conf c) k0 rest v with
        | Ok d => (Ok tt, with__device_conf d c)
        | Raise e => (Raise e, c)
        end
    end.

(** The keyword arguments [repo], [prefix] and [image] are popped where they
    are used; none is read again, so [kwargs] is not threaded. *)
Definition set_rafs_backend (backend_type : Backend) (kwargs : gmap string pyval)
  : M RafsConf unit :=
  let b := Backend_str backend_type in
  _configure_rafs "device.backend.type" (PStr b) ;;
  when (Backend_eqb backend_type REGISTRY)
    (match kwargs !! "repo" with
     | Some repo =>
         a <- gets anchor ;;
         r <- lift (posixpath_join (registry_namespace a) repo) ;;
         _configure_rafs "device.backend.config.repo" r
     | None => ret tt
     end ;;
     _configure_rafs "device.backend.config.scheme"
       (match kwargs !! "scheme" with Some s => s | None => PStr "http" end) ;;
     a <- gets anchor ;;
     _configure_rafs "device.backend.config.host" (registry_url a) ;;
     _configure_rafs "device.backend.config.auth" (registry_auth a)) ;;
  when (Backend_eqb backend_type OSS)
    (match kwargs !! "prefix" with
     | Some p => _configure_rafs "device.backend.config.object_prefix" p
     | None => ret tt
     end ;;
     a <- gets anchor ;;
     _configure_rafs "device.backend.config.endpoint" (oss_endpoint a) ;;
     _configure_rafs "device.backend.config.access_key_id" (oss_ak_id a) ;;
     _configure_rafs "device.backend.config.access_key_secret" (oss_ak_secret a) ;;
     _configure_rafs "device.backend.config.bucket_name" (oss_bucket a)) ;;
  when (Backend_eqb backend_type BACKEND_PROXY)
    (_configure_rafs "device.backend.type" (PStr "registry") ;;
     _configure_rafs "device.backend.config.scheme" (PStr "http") ;;
     _configure_rafs "device.backend.config.repo" (PStr "nydus") ;;
     a <- gets anchor ;;
     _configure_rafs "device.backend.config.host" (backend_proxy_url a)) ;;
  when (Backend_eqb backend_type LOCALFS)
    (match kwargs !! "image" with
     | Some image =>
         blob <- lift (getattr image "localfs_backing_blob") ;;
         _configure_rafs "device.backend.config.blob_file" blob
     | None =>
         a <- gets anchor ;;
         _configure_rafs "device.backend.config.dir" (localfs_workdir a)
     end).

Definition get_rafs_backend : M RafsConf pyval :=
  d <- gets _device_conf ;;
  lift (get_path d ["device"; "backend"; "type"]).

Definition set_registry_repo (repo : pyval) : M RafsConf unit :=
  _configure_rafs "device.backend.config.repo" repo.

(** [self._device_conf.k = v], written without [_configure_rafs]. *)
Definition set_conf_attr (k : string) (v : pyval) : M RafsConf unit :=
  fun c => match setattr (_device_conf c) k v with
           | Ok d => (Ok tt, with__device_conf d c)
           | Raise e => (Raise e, c)
           end.

Definition enable_files_iostats : M RafsConf unit :=
  set_conf_attr "iostats_files" (PBool true).

Definition enable_latest_read_files : M RafsConf unit :=
  set_conf_attr "latest_read_files" (PBool true).

Definition enable_access_pattern : M RafsConf unit :=
  set_conf_attr "access_pattern" (PBool true).

(** [work_dir] is [PNone] when the caller leaves the default [None]. *)
Definition blobcache_namespace (a : NydusAnchor) (is_compressed : bool)
    (work_dir : pyval) : pyval :=
  PObj [("type", PStr "blobcache");
        ("config", PObj [("work_dir",
                          match work_dir with
                          | PNone => blobcache_dir a
                          | _ => work_dir
                          end)]);
        ("compressed", PBool is_compressed)].

Definition enable_rafs_blobcache (is_compressed : bool) (work_dir : pyval)
  : M RafsConf unit :=
  fun c =>
    match set_path (_device_conf c) "device" ["cache"]
                   (blobcache_namespace (anchor c) is_compressed work_dir) with
    | Ok d => (Ok tt, with__device_conf d c)
    | Raise e => (Raise e, c)
    end.

Definition enable_fs_prefetch (threads_count merging_size bandwidth_rate : Z)
    (prefetch_all : bool) : M RafsConf unit :=
  _configure_rafs "fs_prefetch.enable" (PBool true) ;;
  _configure_rafs "fs_prefetch.threads_count" (PInt threads_count) ;;
  _configure_rafs "fs_prefetch.merging_size" (PInt merging_size) ;;
  _configure_rafs "fs_prefetch.bandwidth_rate" (PInt bandwidth_rate) ;;
  _configure_rafs "fs_prefetch.prefetch_all" (PBool prefetch_all).

Definition enable_validation : M RafsConf unit :=
  a <- gets anchor ;;
  if (fs_version a =? 6)%Z then ret tt
  else _configure_rafs "digest_validate" (PBool true).

Definition amplify_io (size : pyval) : M RafsConf unit :=
  _configure_rafs "amplify_io" size.

Definition rafs_mem_mode (v : pyval) : M RafsConf unit :=
  _configure_rafs "mode" v.

Definition enable_xattr : M RafsConf unit :=
  _configure_rafs "enable_xattr" (PBool true).

Definition dump_rafs_conf : M RafsConf unit :=
  a <- gets anchor ;;
  when (fs_version a =? 6)%Z
    (log WARNING "Rafs v6 must enable blobcache" [] ;;
     enable_rafs_blobcache false PNone) ;;
  modify (fun c => with_conf_file (file_truncate0 (conf_file_wrapper c)) c) ;;
  modify (fun c => with_conf_file (file_seek0 (conf_file_wrapper c)) c) ;;
  mode <- (fun c => (getitem (_rafs_conf_default (preferred_mode c)) "mode", c)) ;;
  log INFO "Current rafs metadata mode *%s*" [mode] ;;
  modify (fun c => with_device_conf (object_to_dict (_device_conf c)) c) ;;
  modify (fun c => with_conf_file
                     (file_write (json_dumps (device_conf c)) (conf_file_wrapper c)) c).

(** ** [class RafsImage] *)

(** What the external helpers were asked to do, in call order: the
    [OssHelper] of the [oss] module talks to the object store. *)
Inductive OssCall : Type :=
| OssUpload (src : pyval) (key : pyval)
| OssRm (key : pyval).

(** The arguments [OssHelper] is constructed with. *)
Record OssHelper : Type := mkOssHelper {
  helper_endpoint : pyval;
  helper_bucket : pyval;
  helper_ak_id : pyval;
  helper_ak_secret : pyval;
  helper_prefix : pyval;
}.

(** The attributes of a [RafsImage].  An attribute that some method tests
    with [hasattr], or reads under [except AttributeError], is an [option]:
    [None] when the attribute does not exist.  [command_param_dict] is the
    parameter dict of the base class [LinuxCommand], filled by [set_param]. *)
Record RafsImage : Type := mkRafsImage {
  bootstrap_name : string;
  blob_abs_path : option string;
  blob_id : pyval;
  test_dir : string;
  image_anchor : NydusAnchor;
  clear_from_oss : bool;
  created : bool;
  backend_type : option Backend;
  oss_uploader : option string;
  oss_helper : option OssHelper;
  bootstrap_path : option string;
  localfs_backing_blob : option string;
  oss_blob_abs_path : option string;
  parent_blob : option string;
  parent_bootstrap : option string;
  command_param_dict : list (string * pyval);
}.

(** The image object together with what its methods act on: the paths that
    exist in the file system, the working directory, the anchor's dustbin,
    the calls made to the object store and the [logging] records. *)
Record ImageState : Type := mkImageState {
  self : RafsImage;
  files : gset string;
  cwd : string;
  dustbin : list string;
  oss_calls : list OssCall;
  image_logging : list LogRecord;
}.

Definition with_self (f : RafsImage -> RafsImage) (st : ImageState) : ImageState :=
  {| self := f (self st); files := files st; cwd := cwd st;
     dustbin := dustbin st; oss_calls := oss_calls st;
     image_logging := image_logging st |}.

Definition with_files (f : gset string -> gset string) (st : ImageState)
  : ImageState :=
  {| self := self st; files := f (files st); cwd := cwd st;
     dustbin := dustbin st; oss_calls := oss_calls st;
     image_logging := image_logging st |}.

Definition with_dustbin (f : list string -> list string) (st : ImageState)
  : ImageState :=
  {| self := self st; files := files st; cwd := cwd st;
     dustbin := f (dustbin st); oss_calls := oss_calls st;
     image_logging := image_logging st |}.

Definition with_oss_calls (f : list OssCall -> list OssCall) (st : ImageState)
  : ImageState :=
  {| self := self st; files := files st; cwd := cwd st;
     dustbin := dustbin st; oss_calls := f (oss_calls st);
     image_logging := image_logging st |}.

Definition with_image_logging (f : list LogRecord -> list LogRecord)
    (st : ImageState) : ImageState :=
  {| self := self st; files := files st; cwd := cwd st;
     dustbin := dustbin st; oss_calls := oss_calls st;
     image_logging := f (image_logging st) |}.

Module Img.

Definition set_blob_id (v : pyval) (i : RafsImage) : RafsImage :=
  {| bootstrap_name := bootstrap_name i; blob_abs_path := blob_abs_path i;
     blob_id := v; test_dir := test_dir i; image_anchor := image_anchor i;
     clear_from_oss := clear_from_oss i; created := created i;
     backend_type := backend_type i; oss_uploader := oss_uploader i;
     oss_helper := oss_helper i; bootstrap_path := bootstrap_path i;
     localfs_backing_blob := localfs_backing_blob i;
     oss_blob_abs_path := oss_blob_abs_path i; parent_blob := parent_blob i;
     parent_bootstrap := parent_bootstrap i;
     command_param_dict := command_param_dict i |}.

Definition set_clear_from_oss (v : bool) (i : RafsImage) : RafsImage :=
  {| bootstrap_name := bootstrap_name i; blob_abs_path := blob_abs_path i;
     blob_id := blob_id i; test_dir := test_dir i; image_anchor := image_anchor i;
     clear_from_oss := v; created := created i;
     backend_type := backend_type i; oss_uploader := oss_uploader i;
     oss_helper := oss_helper i; bootstrap_path := bootstrap_path i;
     localfs_backing_blob := localfs_backing_blob i;
     oss_blob_abs_path := oss_blob_abs_path i; parent_blob := parent_blob i;
     parent_bootstrap := parent_bootstrap i;
     command_param_dict := command_param_dict i |}.

Definition set_created (v : bool) (i : RafsImage) : RafsImage :=
  {| bootstrap_name := bootstrap_name i; blob_abs_path := blob_abs_path i;
     blob_id := blob_id i; test_dir := test_dir i; image_anchor := image_anchor i;
     clear_from_oss := clear_from_oss i; created := v;
     backend_type := backend_type i; oss_uploader := oss_uploader i;
     oss_helper := oss_helper i; bootstrap_path := bootstrap_path i;
     localfs_backing_blob := localfs_backing_blob i;
     oss_blob_abs_path := oss_blob_abs_path i; parent_blob := parent_blob i;
     parent_bootstrap := parent_bootstrap i;
     command_param_dict := command_param_dict i |}.

Definition set_backend_type (v : option Backend) (i : RafsImage) : RafsImage :=
  {| bootstrap_name := bootstrap_name i; blob_abs_path := blob_abs_path i;
     blob_id := blob_id i; test_dir := test_dir i; image_anchor := image_anchor i;
     clear_from_oss := clear_from_oss i; created := created i;
     backend_type := v; oss_uploader := oss_uploader i;
     oss_helper := oss_helper i; bootstrap_path := bootstrap_path i;
     localfs_backing_blob := localfs_backing_blob i;
     oss_blob_abs_path := oss_blob_abs_path i; parent_blob := parent_blob i;
     parent_bootstrap := parent_bootstrap i;
     command_param_dict := command_param_dict i |}.

Definition set_oss_uploader (v : option string) (i : RafsImage) : RafsImage :=
  {| bootstrap_name := bootstrap_name i; blob_abs_path := blob_abs_path i;
     blob_id := blob_id i; test_dir := test_dir i; image_anchor := image_anchor i;
     clear_from_oss := clear_from_oss i; created := created i;
     backend_type := backend_type i; oss_uploader := v;
     oss_helper := oss_helper i; bootstrap_path := bootstrap_path i;
     localfs_backing_blob := localfs_backing_blob i;
     oss_blob_abs_path := oss_blob_abs_path i; parent_blob := parent_blob i;
     parent_bootstrap := parent_bootstrap i;
     command_param_dict := command_param_dict i |}.

Definition set_oss_helper (v : option OssHelper) (i : RafsImage) : RafsImage :=
  {| bootstrap_name := bootstrap_name i; blob_abs_path := blob_abs_path i;
     blob_id := blob_id i; test_dir := test_dir i; image_anchor := image_anchor i;
     clear_from_oss := clear_from_oss i; created := created i;
     backend_type := backend_type i; oss_uploader := oss_uploader i;
     oss_helper := v; bootstrap_path := bootstrap_path i;
     localfs_backing_blob := localfs_backing_blob i;
     oss_blob_abs_path := oss_blob_abs_path i; parent_blob := parent_blob i;
     parent_bootstrap := parent_bootstrap i;
     command_param_dict := command_param_dict i |}.

Definition set_bootstrap_path (v : option string) (i : RafsImage) : RafsImage :=
  {| bootstrap_name := bootstrap_name i; blob_abs_path := blob_abs_path i;
     blob_id := blob_id i; test_dir := test_dir i; image_anchor := image_anchor i;
     clear_from_oss := clear_from_oss i; created := created i;
     backend_type := backend_type i; oss_uploader := oss_uploader i;
     oss_helper := oss_helper i; bootstrap_path := v;
     localfs_backing_blob := localfs_backing_blob i;
     oss_blob_abs_path := oss_blob_abs_path i; parent_blob := parent_blob i;
     parent_bootstrap := parent_bootstrap i;
     command_param_dict := command_param_dict i |}.

Definition set_localfs_backing_blob (v : option string) (i : RafsImage) : RafsImage :=
  {| bootstrap_name := bootstrap_name i; blob_abs_path := blob_abs_path i;
     blob_id := blob_id i; test_dir := test_dir i; image_anchor := image_anchor i;
     clear_from_oss := clear_from_oss i; created := created i;
     backend_type := backend_type i; oss_uploader := oss_uploader i;
     oss_helper := oss_helper i; bootstrap_path := bootstrap_path i;
     localfs_backing_blob := v;
     oss_blob_abs_path := oss_blob_abs_path i; parent_blob := parent_blob i;
     parent_bootstrap := parent_bootstrap i;
     command_param_dict := command_param_dict i |}.

Definition set_command_param_dict (v : list (string * pyval)) (i : RafsImage)
  : RafsImage :=
  {| bootstrap_name := bootstrap_name i; blob_abs_path := blob_abs_path i;
     blob_id := blob_id i; test_dir := test_dir i; image_anchor := image_anchor i;
     clear_from_oss := clear_from_oss i; created := created i;
     backend_type := backend_type i; oss_uploader := oss_uploader i;
     oss_helper := oss_helper i; bootstrap_path := bootstrap_path i;
     localfs_backing_blob := localfs_backing_blob i;
     oss_blob_abs_path := oss_blob_abs_path i; parent_blob := parent_blob i;
     parent_bootstrap := parent_bootstrap i;
     command_param_dict := v |}.

End Img.

(** *** Helpers acting on an [ImageState] *)

(** Reading an attribute that may not exist. *)
Definition attr {A} (f : RafsImage -> option A) : M ImageState A :=
  fun st => match f (self st) with
            | Some a => (Ok a, st)
            | None => (Raise AttributeError, st)
            end.

(** [assert c] *)
Definition assert_ {S} (c : bool) : M S unit :=
  if c then ret tt else raise AssertionError.

Definition is_AttributeError (e : exn) : bool :=
  match e with AttributeError => true | _ => false end.

Definition is_FileNotFoundError (e : exn) : bool :=
  match e with FileNotFoundError => true | _ => false end.

Definition as_str (v : pyval) : res string :=
  match v with
  | PStr s => Ok s
  | _ => Raise TypeError
  end.

(** [os.path.exists(p)] *)
Definition os_path_exists (p : string) : M ImageState bool :=
  gets (fun st => bool_decide (p ∈ files st)).

(** [os.unlink(p)] on a path that, where it exists, is a file.  The set
    [files] does not tell files from directories: the error the call raises
    on a directory is outside this model. *)
Definition os_unlink (p : string) : M ImageState unit :=
  fun st => if bool_decide (p ∈ files st)
            then (Ok tt, with_files (fun fs => fs ∖ {[p]}) st)
            else (Raise FileNotFoundError, st).

(** [os.mkdir(p)], where the parent directory exists. *)
Definition os_mkdir (p : string) : M ImageState unit :=
  modify (with_files (fun fs => fs ∪ {[p]})).

(** [shutil.copy(src, dst)] of a file to a destination that names a file in
    a directory that exists.  A destination that is itself a directory, and
    one whose directory is missing, are outside this model, as [files] does
    not tell files from directories. *)
Definition shutil_copy (src dst : string) : M ImageState unit :=
  fun st => if bool_decide (src ∈ files st)
            then (Ok tt, with_files (fun fs => fs ∪ {[dst]}) st)
            else (Raise FileNotFoundError, st).

(** [self.anchor.put_dustbin(p)]: the anchor remembers the path for the
    teardown of the test session. *)
Definition put_dustbin (p : string) : M ImageState unit :=
  modify (with_dustbin (fun d => (d ++ [p])%list)).

(** [LinuxCommand.set_param(k, v)] *)
Definition set_param (k : string) (v : pyval) : M ImageState unit :=
  modify (with_self (fun i =>
    Img.set_command_param_dict (assoc_set k v (command_param_dict i)) i)).

Definition image_log (lv : level) (msg : string) (args : list pyval)
  : M ImageState unit :=
  modify (with_image_logging (fun l => (l ++ [(lv, msg, args)])%list)).

(** [v[k]] for a [str] key [k]. *)
Definition subscript_str (v : pyval) (k : string) : res pyval :=
  match v with
  | PObj kvs => match assoc_get k kvs with
                | Some x => Ok x
                | None => Raise KeyError
                end
  | _ => Raise TypeError
  end.

Fixpoint last_char (s : string) : option ascii :=
  match s with
  | EmptyString => None
  | String c EmptyString => Some c
  | String _ s' => last_char s'
  end.

(** [v[-1]]: the last element of a list, the last character of a [str]; a
    dict decoded from JSON has no key [-1]. *)
Definition subscript_last (v : pyval) : res pyval :=
  match v with
  | PList l => match last l with
               | Some x => Ok x
               | None => Raise IndexError
               end
  | PStr s => match last_char s with
              | Some c => Ok (PStr (String c ""))
              | None => Raise IndexError
              end
  | PObj _ => Raise KeyError
  | _ => Raise TypeError
  end.

(** [RafsImage.__init__]: [bootstrap] and [blob_tmp] are the names the
    constructor settles on (given, or fresh names of [tempfile]). *)
Definition RafsImage_init (a : NydusAnchor) (getcwd : string)
    (bootstrap blob_tmp : string) (clear : bool) : RafsImage :=
  {| bootstrap_name := bootstrap; blob_abs_path := Some blob_tmp;
     blob_id := PNone; test_dir := getcwd; image_anchor := a;
     clear_from_oss := clear; created := false; backend_type := None;
     oss_uploader := None; oss_helper := None; bootstrap_path := None;
     localfs_backing_blob := None; oss_blob_abs_path := None;
     parent_blob := None; parent_bootstrap := None;
     command_param_dict := [] |}.

(** [RafsImage.set_backend(type, **kwargs)] *)
Definition set_backend (type : Backend) (kwargs : gmap string pyval)
  : M ImageState unit :=
  modify (with_self (Img.set_backend_type (Some type))) ;;
  a <- gets (fun st => image_anchor (self st)) ;;
  match type with
  | LOCALFS =>
      w <- lift (as_str (localfs_workdir a)) ;;
      present <- os_path_exists w ;;
      when (negb present) (os_mkdir w) ;;
      set_param "blob-dir" (localfs_workdir a)
  | OSS =>
      p <- attr blob_abs_path ;;
      set_param "blob" (PStr p) ;;
      let prefix := default PNone (kwargs !! "prefix") in
      modify (with_self (Img.set_oss_helper
        (Some (mkOssHelper (oss_endpoint a) (oss_bucket a) (oss_ak_id a)
                           (oss_ak_secret a) prefix))))
  | BACKEND_PROXY =>
      p <- attr blob_abs_path ;;
      set_param "blob" (PStr p)
  | REGISTRY =>
      p <- attr blob_abs_path ;;
      set_param "blob" (PStr p)
  end.

(** What one run of the external image builder leaves behind: its exit
    status, the paths that exist once it has exited, and the text of the
    file named by [--output-json]. *)
Record BuilderRun : Type := mkBuilderRun {
  returncode : Z;
  files_after : gset string;
  output_json : string;
}.

Definition string_in (s : string) (l : list string) : bool :=
  existsb (String.eqb s) l.

Section CreateImage.

(** [json.load] on the text of a file: the decoded document, or
    [JSONDecodeError]. *)
Variable json_load : string -> res pyval.

(** The backend dispatch after the build: where the blob goes. *)
Definition persist_blob : M ImageState unit :=
  i <- gets self ;;
  match backend_type i with
  | Some OSS =>
      when (bool_decide (oss_uploader i = Some "util"))
        (_ <- attr oss_helper ;;
         p <- attr blob_abs_path ;;
         modify (with_oss_calls (fun l => (l ++ [OssUpload (PStr p) (blob_id i)])%list)))
  | Some BACKEND_PROXY =>
      src <- attr blob_abs_path ;;
      dst <- lift (posixpath_join (backend_proxy_blobs_dir (image_anchor i))
                                  (blob_id i)) ;;
      dst' <- lift (as_str dst) ;;
      shutil_copy src dst'
  | Some LOCALFS =>
      p <- lift (posixpath_join (localfs_workdir (image_anchor i)) (blob_id i)) ;;
      p' <- lift (as_str p) ;;
      modify (with_self (Img.set_localfs_backing_blob (Some p')))
  | _ => ret tt
  end.

(** [dump_image_summary] returns at once. *)
Definition dump_image_summary : M ImageState unit := ret tt.

(** [RafsImage.create_image].  The keyword arguments that only add options
    to the builder's command line ([prefetch_policy], [fs_version],
    [compressor], [chunk_size], [parent_image], [from_stargz],
    [disable_check], [image_bin]) are left out with the command line itself:
    the builder is an external program, and what it did is [run]. *)
Definition create_image (clear_from_oss_arg : bool) (oss_uploader_arg : string)
    (run : BuilderRun) : M ImageState unit :=
  modify (with_self (Img.set_clear_from_oss clear_from_oss_arg)) ;;
  modify (with_self (Img.set_oss_uploader (Some oss_uploader_arg))) ;;
  assert_ (string_in oss_uploader_arg ["util"; "builder"; "none"]) ;;
  modify (with_files (fun _ => files_after run)) ;;
  assert_ (returncode run =? 0)%Z ;;
  i <- gets self ;;
  present <- os_path_exists (path_join (test_dir i) (bootstrap_name i)) ;;
  assert_ present ;;
  modify (with_self (Img.set_created true)) ;;
  doc <- lift (json_load (output_json run)) ;;
  blobs <- lift (subscript_str doc "blobs") ;;
  last_blob <- lift (subscript_last blobs) ;;
  modify (with_self (Img.set_blob_id last_blob)) ;;
  image_log INFO "Generated blob id %s" [last_blob] ;;
  d <- gets cwd ;;
  modify (with_self (Img.set_bootstrap_path (Some (abspath d (bootstrap_name i))))) ;;
  persist_blob ;;
  put_dustbin (bootstrap_name i) ;;
  try_pass (p <- attr blob_abs_path ;; put_dustbin p) is_AttributeError ;;
  try_pass (p <- attr localfs_backing_blob ;; put_dustbin p) is_AttributeError ;;
  when (String.eqb oss_uploader_arg "util") dump_image_summary.

End CreateImage.

(** [self.backend_type == b], where [backend_type] may still be [None]. *)
Definition backend_is (t : option Backend) (b : Backend) : bool :=
  match t with
  | Some t' => Backend_eqb t' b
  | None => false
  end.

(** [RafsImage.clean_up] *)
Definition clean_up : M ImageState unit :=
  i <- gets self ;;
  match bootstrap_path i with
  | Some p => os_unlink p
  | None => ret tt
  end ;;
  match oss_blob_abs_path i with
  | Some _ => p <- attr blob_abs_path ;; os_unlink p
  | None => ret tt
  end ;;
  match localfs_backing_blob i with
  | Some p => try_pass (os_unlink p) is_FileNotFoundError
  | None => ret tt
  end ;;
  try_pass (p <- attr blob_abs_path ;; os_unlink p)
           (fun e => is_FileNotFoundError e || is_AttributeError e) ;;
  try_pass (p <- attr parent_blob ;; os_unlink p ;;
            q <- attr parent_bootstrap ;; os_unlink q)
           (fun e => is_FileNotFoundError e || is_AttributeError e) ;;
  try_pass
    (when (clear_from_oss i && backend_is (backend_type i) OSS)
       (_ <- attr oss_helper ;;
        modify (with_oss_calls (fun l => (l ++ [OssRm (blob_id i)])%list))))
    is_AttributeError.

(** ** [class NydusDaemon] *)

Section Daemon.

(** The world outside the test process: the daemon process and the mount
    table.  [run_daemon] is [utils.run] launching the daemon; [test_fn] is
    the readiness probe handed to [_wait_for_mount] ([os.path.ismount] by
    default); [poll] is [self.p.poll()], the exit status once the process
    has exited; [sleep] is [time.sleep(0.01)]. *)
Variable W : Type.
Variable run_daemon : W -> W.
Variable test_fn : string -> W -> bool * W.
Variable poll : W -> option Z * W.
Variable sleep : W -> W.

(** [has_p] tells whether the attribute [p] has been assigned. *)
Record DaemonState : Type := mkDaemonState {
  conf : option RafsConf;
  mountpoint : string;
  has_p : bool;
  world : W;
}.

Definition with_world (w : W) (st : DaemonState) : DaemonState :=
  {| conf := conf st; mountpoint := mountpoint st; has_p := has_p st;
     world := w |}.

Definition with_conf (c : option RafsConf) (st : DaemonState) : DaemonState :=
  {| conf := c; mountpoint := mountpoint st; has_p := has_p st;
     world := world st |}.

Definition with_p (st : DaemonState) : DaemonState :=
  {| conf := conf st; mountpoint := mountpoint st; has_p := true;
     world := world st |}.

(** The [while] loop of [_wait_for_mount], one test of the loop condition
    per unit of [fuel]; [None] when the fuel runs out before the loop is
    left. *)
Fixpoint wait_loop (fuel : nat) (elapsed : Z) (st : DaemonState)
  : option (res bool * DaemonState) :=
  match fuel with
  | O => None
  | S fuel' =>
      if (elapsed <? 300)%Z then
        let (ready, w1) := test_fn (mountpoint st) (world st) in
        if ready then Some (Ok true, with_world w1 st)
        else if negb (has_p st) then Some (Raise AttributeError, with_world w1 st)
        else
          let (status, w2) := poll w1 in
          match status with
          | Some _ =>
              Some (Raise (Failed "file system process terminated prematurely"),
                    with_world w2 st)
          | None => wait_loop fuel' (elapsed - 1) (with_world (sleep w2) st)
          end
      else Some (Raise (Failed "mountpoint failed to come up"), st)
  end.

Definition _wait_for_mount (fuel : nat) (st : DaemonState)
  : option (res bool * DaemonState) :=
  wait_loop fuel 0 st.

(** The statements of [NydusDaemon.mount(wait_mount=..., dump_config=...)]
    from the dump of the configuration on, with the default
    [limited_mem=False].  The command line is an argument of the external
    launch and is left out with it.  The assignment of
    [anchor.checker_sock] that comes before the dump is in
    [NydusDaemon.mount] below, which goes on with these statements. *)
Definition mount (fuel : nat) (wait_mount dump_config : bool) (st : DaemonState)
  : option (res unit * DaemonState) :=
  let dumped :=
    match conf st with
    | Some c =>
        if dump_config then
          let (r, c') := dump_rafs_conf c in (r, with_conf (Some c') st)
        else (Ok tt, st)
    | None => (Ok tt, st)
    end in
  match dumped with
  | (Raise e, st1) => Some (Raise e, st1)
  | (Ok _, st1) =>
      let st2 := with_p (with_world (run_daemon (world st1)) st1) in
      if wait_mount then
        match _wait_for_mount fuel st2 with
        | Some (Ok _, st3) => Some (Ok tt, st3)
        | Some (Raise e, st3) => Some (Raise e, st3)
        | None => None
        end
      else Some (Ok tt, st2)
  end.

End Daemon.

Arguments conf {W} _.
Arguments mountpoint {W} _.
Arguments has_p {W} _.
Arguments world {W} _.
Arguments mkDaemonState {W} _ _ _ _.

(** *** A scripted world

    The stubs a test hands to the daemon: the answer of the probe at its
    n-th call and the answer of [poll] at its n-th call (counting from 0),
    with counters of the calls made so far. *)
Record Script : Type := mkScript {
  probe_script : nat -> bool;
  poll_script : nat -> option Z;
  launches : nat;
  probes : nat;
  polls : nat;
  sleeps : nat;
}.

Definition script_run (w : Script) : Script :=
  {| probe_script := probe_script w; poll_script := poll_script w;
     launches := S (launches w); probes := probes w; polls := polls w;
     sleeps := sleeps w |}.

Definition script_test_fn (_ : string) (w : Script) : bool * Script :=
  (probe_script w (probes w),
   {| probe_script := probe_script w; poll_script := poll_script w;
      launches := launches w; probes := S (probes w); polls := polls w;
      sleeps := sleeps w |}).

Definition script_poll (w : Script) : option Z * Script :=
  (poll_script w (polls w),
   {| probe_script := probe_script w; poll_script := poll_script w;
      launches := launches w; probes := probes w; polls := S (polls w);
      sleeps := sleeps w |}).

Definition script_sleep (w : Script) : Script :=
  {| probe_script := probe_script w; poll_script := poll_script w;
     launches := launches w; probes := probes w; polls := polls w;
     sleeps := S (sleeps w) |}.

Definition script_wait (fuel : nat) (st : DaemonState Script) :=
  _wait_for_mount Script script_test_fn script_poll script_sleep fuel st.

Definition script_mount (fuel : nat) (wait_mount dump_config : bool)
    (st : DaemonState Script) :=
  mount Script script_run script_test_fn script_poll script_sleep
        fuel wait_mount dump_config st.

(** *** The daemon object

    [mount] begins by reading the private attribute [__apisock], which only
    [apisock] assigns, into [anchor.checker_sock]. *)
Module NydusDaemon.

Section Object.

Variable W : Type.
Variable run_daemon : W -> W.
Variable test_fn : string -> W -> bool * W.
Variable poll : W -> option Z * W.
Variable sleep : W -> W.

(** [__apisock] is [None] until the attribute has been assigned;
    [checker_sock] and [dustbin] are those of the anchor. *)
Record Daemon : Type := mkDaemon {
  base : DaemonState W;
  __apisock : option string;
  checker_sock : option string;
  dustbin : list string;
}.

Definition with_base (st : DaemonState W) (d : Daemon) : Daemon :=
  {| base := st; __apisock := __apisock d; checker_sock := checker_sock d;
     dustbin := dustbin d |}.

Definition with_checker_sock (s : option string) (d : Daemon) : Daemon :=
  {| base := base d; __apisock := __apisock d; checker_sock := s;
     dustbin := dustbin d |}.

(** [NydusDaemon.apisock(apisock)]; the parameter it adds to the command
    line is left out with the command line. *)
Definition apisock (s : string) (d : Daemon) : Daemon :=
  {| base := base d; __apisock := Some s; checker_sock := checker_sock d;
     dustbin := (dustbin d ++ [s])%list |}.

(** [NydusDaemon.get_apisock()] *)
Definition get_apisock (d : Daemon) : res string :=
  match __apisock d with
  | Some s => Ok s
  | None => Raise AttributeError
  end.

(** [NydusDaemon.mount(wait_mount=..., dump_config=...)] with the default
    [limited_mem=False]: the API socket is read and kept in the anchor,
    then the configuration is dumped, the daemon launched and the mount
    awaited. *)
Definition mount (fuel : nat) (wait_mount dump_config : bool) (d : Daemon)
  : option (res unit * Daemon) :=
  match get_apisock d with
  | Raise e => Some (Raise e, d)
  | Ok s =>
      let d1 := with_checker_sock (Some s) d in
      match mount W run_daemon test_fn poll sleep fuel wait_mount dump_config
                  (base d1) with
      | Some (r, st') => Some (r, with_base st' d1)
      | None => None
      end
  end.

End Object.

Arguments base {W} _.
Arguments __apisock {W} _.
Arguments checker_sock {W} _.
Arguments dustbin {W} _.
Arguments mkDaemon {W} _ _ _ _.

Definition script_mount (fuel : nat) (wait_mount dump_config : bool)
    (d : Daemon Script) :=
  mount Script script_run script_test_fn script_poll script_sleep
        fuel wait_mount dump_config d.

End NydusDaemon.

(** The world after [n] rounds of the loop that all went on to the next. *)
Definition script_after (n : nat) (w : Script) : Script :=
  {| probe_script := probe_script w; poll_script := poll_script w;
     launches := launches w; probes := n + probes w; polls := n + polls w;
     sleeps := n + sleeps w |}.

(** ** Shapes of a configuration *)

(** [obj_at o p]: the path [p] leads, from [o], to an object whose
    attributes can be assigned. *)
Definition obj_at (o : pyval) (p : list string) : bool :=
  match get_path o p with
  | Ok (PObj _) => true
  | _ => false
  end.

(** The shape [__init__] gives the configuration and every method keeps:
    the configuration itself, [device], [device.backend],
    [device.backend.config] and [fs_prefetch] are objects. *)
Definition shape_paths : list (list string) :=
  [[]; ["device"]; ["device"; "backend"]; ["device"; "backend"; "config"];
   ["fs_prefetch"]].

Definition conf_shape (c : RafsConf) : bool :=
  forallb (obj_at (_device_conf c)) shape_paths.

(** An assignment to [path] replaces none of the objects of the shape. *)
Definition keeps_shape (path : list string) : bool :=
  forallb (fun s => negb (bool_decide (path `prefix_of` s))) shape_paths.

(** Two attribute paths neither of which leads through the other. *)
Definition apart (p q : list string) : Prop :=
  ~ p `prefix_of` q /\ ~ q `prefix_of` p.

(** What [set_rafs_backend] has written once it returns: the backend type
    and, for each variant, the fields it takes from the anchor. *)
Definition backend_written (b : Backend) (kwargs : gmap string pyval)
    (a : NydusAnchor) (d : pyval) : Prop :=
  let field f := get_path d ["device"; "backend"; "config"; f] in
  match b with
  | REGISTRY =>
      get_path d ["device"; "backend"; "type"] = Ok (PStr "registry")
      /\ field "scheme" = Ok (default (PStr "http") (kwargs !! "scheme"))
      /\ field "host" = Ok (registry_url a)
      /\ field "auth" = Ok (registry_auth a)
  | OSS =>
      get_path d ["device"; "backend"; "type"] = Ok (PStr "oss")
      /\ field "endpoint" = Ok (oss_endpoint a)
      /\ field "access_key_id" = Ok (oss_ak_id a)
      /\ field "access_key_secret" = Ok (oss_ak_secret a)
      /\ field "bucket_name" = Ok (oss_bucket a)
  | BACKEND_PROXY =>
      get_path d ["device"; "backend"; "type"] = Ok (PStr "registry")
      /\ field "scheme" = Ok (PStr "http")
      /\ field "repo" = Ok (PStr "nydus")
      /\ field "host" = Ok (backend_proxy_url a)
  | LOCALFS =>
      get_path d ["device"; "backend"; "type"] = Ok (PStr "localfs")
      /\ (kwargs !! "image" = None -> field "dir" = Ok (localfs_workdir a))
  end.

(** ** [class BlobEntryConf] *)

Module BlobEntry.

Definition template_id : string :=
  "5a74e7f26a2970c36ffd8963a278ea11e1fd752705a13c2ec0cb20b40e2a6699".

(** [json.loads(BLOB_CONF_TEMPLATE, object_hook=...)]: the template as a
    tree of [Namespace] objects. *)
Definition BLOB_CONF_TEMPLATE : pyval :=
  PObj [("type", PStr "bootstrap");
        ("id", PStr template_id);
        ("domain_id", PStr template_id);
        ("config",
         PObj [("id", PStr template_id);
               ("backend_type", PStr "registry");
               ("backend_config",
                PObj [("readahead", PBool false);
                      ("host", PStr "hub.byted.org");
                      ("repo", PStr "gechangwei/java");
                      ("auth", PStr "");
                      ("scheme", PStr "http");
                      ("proxy", PObj [("fallback", PBool false)])]);
               ("cache_type", PStr "fscache");
               ("cache_config",
                PObj [("work_dir",
                       PStr "/var/lib/containerd-nydus-grpc/snapshots/3754/fs")]);
               ("metadata_path",
                PStr "/var/lib/containerd-nydus-grpc/snapshots/3754/fs/image/image.boot")]);
        ("fs_prefetch",
         PObj [("enable", PBool false);
               ("prefetch_all", PBool false);
               ("threads_count", PInt 0);
               ("merging_size", PInt 0);
               ("bandwidth_rate", PInt 0)])].

Record BlobEntryConf : Type := mkBlobEntryConf {
  conf_base : pyval;
  entry_anchor : NydusAnchor;
}.

(** [self.conf_base.k.rest = v] *)
Definition assign (k : string) (rest : list string) (v : pyval)
  : M BlobEntryConf unit :=
  fun b => match set_path (conf_base b) k rest v with
           | Ok d => (Ok tt, mkBlobEntryConf d (entry_anchor b))
           | Raise e => (Raise e, b)
           end.

(** [BlobEntryConf.__init__] *)
Definition init (a : NydusAnchor) : res unit * BlobEntryConf :=
  assign "config" ["cache_config"; "work_dir"] (blobcache_dir a)
         (mkBlobEntryConf BLOB_CONF_TEMPLATE a).

Definition set_type (t : pyval) : M BlobEntryConf unit :=
  assign "type" [] t.

Definition set_repo (repo : pyval) : M BlobEntryConf unit :=
  assign "config" ["repo"] repo.

Definition set_metadata_path (path : pyval) : M BlobEntryConf unit :=
  assign "config" ["metadata_path"] path.

Definition set_fsid (fsid : pyval) : M BlobEntryConf unit :=
  assign "id" [] fsid ;;
  assign "domain_id" [] fsid ;;
  assign "config" ["id"] fsid.

Definition set_backend : M BlobEntryConf unit :=
  a <- gets entry_anchor ;;
  assign "config" ["backend_config"; "host"] (backend_proxy_url a) ;;
  assign "config" ["backend_config"; "repo"] (PStr "nydus").

Definition set_prefetch (threads_cnt : pyval) : M BlobEntryConf unit :=
  assign "fs_prefetch" ["enable"] (PBool true) ;;
  assign "fs_prefetch" ["prefetch_all"] (PBool true) ;;
  assign "fs_prefetch" ["threads_count"] threads_cnt.

(** [json.dumps(self.conf_base, default=vars)]: every [Namespace] is
    written as the dict of its attributes. *)
Definition dumps (b : BlobEntryConf) : string := json_dumps (conf_base b).

(** The setters a test can call, with their arguments. *)
Inductive Call : Type :=
| SetType (t : pyval)
| SetRepo (repo : pyval)
| SetMetadataPath (path : pyval)
| SetFsid (fsid : pyval)
| SetBackend
| SetPrefetch (threads_cnt : pyval).

Definition run_call (call : Call) : M BlobEntryConf unit :=
  match call with
  | SetType t => set_type t
  | SetRepo repo => set_repo repo
  | SetMetadataPath path => set_metadata_path path
  | SetFsid fsid => set_fsid fsid
  | SetBackend => set_backend
  | SetPrefetch n => set_prefetch n
  end.

(** A chain of setter calls; it stops at the first call that raises. *)
Fixpoint run_calls (calls : list Call) : M BlobEntryConf unit :=
  match calls with
  | [] => ret tt
  | call :: rest => run_call call ;; run_calls rest
  end.

(** The objects a setter assigns into. *)
Definition shape_paths : list (list string) :=
  [[]; ["config"]; ["config"; "backend_config"]; ["config"; "cache_config"];
   ["fs_prefetch"]].

Definition shaped (o : pyval) : bool := forallb (obj_at o) shape_paths.

Definition keeps_shape (path : list string) : bool :=
  forallb (fun s => negb (bool_decide (path `prefix_of` s))) shape_paths.

(** The three identifiers of the entry are one value. *)
Definition ids_agree (o : pyval) : Prop :=
  exists v, get_path o ["id"] = Ok v
            /\ get_path o ["domain_id"] = Ok v
            /\ get_path o ["config"; "id"] = Ok v.

End BlobEntry.

(** ** Histories of a configuration *)

(** The calls a test can make on a [RafsConf], with their arguments. *)
Inductive ConfCall : Type :=
| CallSetRafsBackend (b : Backend) (kwargs : gmap string pyval)
| CallSetRegistryRepo (repo : pyval)
| CallEnableFilesIostats
| CallEnableLatestReadFiles
| CallEnableAccessPattern
| CallEnableRafsBlobcache (is_compressed : bool) (work_dir : pyval)
| CallEnableFsPrefetch (threads_count merging_size bandwidth_rate : Z)
                       (prefetch_all : bool)
| CallEnableValidation
| CallAmplifyIo (size : pyval)
| CallRafsMemMode (v : pyval)
| CallEnableXattr
| CallDumpRafsConf.

Definition run_call (call : ConfCall) : M RafsConf unit :=
  match call with
  | CallSetRafsBackend b kwargs => set_rafs_backend b kwargs
  | CallSetRegistryRepo repo => set_registry_repo repo
  | CallEnableFilesIostats => enable_files_iostats
  | CallEnableLatestReadFiles => enable_latest_read_files
  | CallEnableAccessPattern => enable_access_pattern
  | CallEnableRafsBlobcache ic wd => enable_rafs_blobcache ic wd
  | CallEnableFsPrefetch t m b a => enable_fs_prefetch t m b a
  | CallEnableValidation => enable_validation
  | CallAmplifyIo size => amplify_io size
  | CallRafsMemMode v => rafs_mem_mode v
  | CallEnableXattr => enable_xattr
  | CallDumpRafsConf => dump_rafs_conf
  end.

(** The object after a sequence of calls; a call that raised leaves the
    object as it was when the exception left the method. *)
Definition run_calls (calls : list ConfCall) (c : RafsConf) : RafsConf :=
  fold_left (fun c call => snd (run_call call c)) calls c.

(** ** Vocabulary of the statements *)

(** The object [dump_rafs_conf] leaves when it comes to write [d]. *)
Definition dumped (d : pyval) (records : list LogRecord) (c : RafsConf) : RafsConf :=
  {| conf_file_wrapper := mkFile (json_dumps d) (String.length (json_dumps d));
     anchor := anchor c;
     preferred_mode := preferred_mode c;
     _device_conf := d;
     device_conf := d;
     logging := (logging c ++ records)%list |}.

Definition v6_warning : LogRecord := (WARNING, "Rafs v6 must enable blobcache", []).

Definition mode_info (c : RafsConf) : LogRecord :=
  (INFO, "Current rafs metadata mode *%s*", [PStr (preferred_mode c)]).

(** [preserved P m]: [P] holds of the state [m] leaves, returning or
    raising, when it held of the state [m] started in. *)
Definition preserved {S A} (P : S -> Prop) (m : M S A) : Prop :=
  forall s, P s -> P (snd (m s)).

(** The methods of [RafsConf] that keep the shape of the configuration. *)
Definition keeps {A} (m : M RafsConf A) : Prop :=
  preserved (fun c => conf_shape c = true) m.

(** [post_ok m Q]: [Q] holds of every state in which [m] returns. *)
Definition post_ok {S A} (m : M S A) (Q : S -> Prop) : Prop :=
  forall s a s', m s = (Ok a, s') -> Q s'.


(** ** Fixtures *)

(** An anchor of a test environment in which nothing has been filled in. *)
Definition bare_anchor : NydusAnchor :=
  {| registry_namespace := PNone; registry_url := PNone; registry_auth := PNone;
     oss_endpoint := PNone; oss_ak_id := PNone; oss_ak_secret := PNone;
     oss_bucket := PNone; backend_proxy_url := PNone;
     backend_proxy_blobs_dir := PNone; localfs_workdir := PNone;
     blobcache_dir := PNone; fs_version := 5 |}.

Definition anchor_v6 : NydusAnchor :=
  {| registry_namespace := PStr "nydus"; registry_url := PStr "localhost:5000";
     registry_auth := PNone;
     oss_endpoint := PStr "oss.example.com"; oss_ak_id := PStr "id";
     oss_ak_secret := PStr "secret"; oss_bucket := PStr "bucket";
     backend_proxy_url := PStr "127.0.0.1:8000";
     backend_proxy_blobs_dir := PStr "/work/proxy_blobs";
     localfs_workdir := PStr "/work/localfs";
     blobcache_dir := PStr "/work/blobcache"; fs_version := 6 |}.

Definition conf_bare : RafsConf := RafsConf_init bare_anchor None.
Definition conf_v6 : RafsConf := RafsConf_init anchor_v6 None.

(** A version 6 configuration on which the caller has set a compressed
    cache in a directory of their own. *)
Definition conf_v6_custom_cache : RafsConf :=
  snd (enable_rafs_blobcache true (PStr "/custom/cache") conf_v6).

(** A builder's output document with two blobs, its text, and a decoder
    that knows this text and the text of a document with no blob. *)
Definition two_blobs_doc : pyval :=
  PObj [("blobs", PList [PStr "blob-a"; PStr "blob-b"])].

Definition no_blob_doc : pyval := PObj [("blobs", PList [])].

Definition json_load_fixture (text : string) : res pyval :=
  if String.eqb text (json_dumps two_blobs_doc) then Ok two_blobs_doc
  else if String.eqb text (json_dumps no_blob_doc) then Ok no_blob_doc
  else Raise JSONDecodeError.

(** A builder's output document whose ["blobs"] entry is a string instead
    of a list, and a decoder that knows its text. *)
Definition string_blobs_doc : pyval := PObj [("blobs", PStr "xyz")].

Definition json_load_string_blobs (text : string) : res pyval :=
  if String.eqb text (json_dumps string_blobs_doc) then Ok string_blobs_doc
  else Raise JSONDecodeError.

(** A fresh image in the working directory [/work] with its backend set,
    and builder runs on it:
    one that succeeds, one that exits with status 1, one that leaves no
    bootstrap, one that writes no blob. *)
Definition image_new (a : NydusAnchor) : ImageState :=
  {| self := RafsImage_init a "/work" "bootstrap" "/work/blob-tmp" true;
     files := {["/work/src"]};
     cwd := "/work";
     dustbin := [];
     oss_calls := [];
     image_logging := [] |}.

Definition image_fresh (b : Backend) : ImageState :=
  snd (set_backend b ∅ (image_new anchor_v6)).

Definition builder_ok : BuilderRun :=
  {| returncode := 0;
     files_after := {["/work/src"; "/work/bootstrap"; "/work/blob-tmp"]};
     output_json := json_dumps two_blobs_doc |}.

Definition builder_exit_1 : BuilderRun :=
  {| returncode := 1;
     files_after := {["/work/src"; "/work/bootstrap"; "/work/blob-tmp"]};
     output_json := json_dumps two_blobs_doc |}.

Definition builder_no_bootstrap : BuilderRun :=
  {| returncode := 0;
     files_after := {["/work/src"; "/work/blob-tmp"]};
     output_json := json_dumps two_blobs_doc |}.

Definition builder_no_blob : BuilderRun :=
  {| returncode := 0;
     files_after := {["/work/src"; "/work/bootstrap"; "/work/blob-tmp"]};
     output_json := json_dumps no_blob_doc |}.

(** A builder run that succeeds and writes the document whose ["blobs"]
    entry is a string. *)
Definition builder_string_blobs : BuilderRun :=
  {| returncode := 0;
     files_after := {["/work/src"; "/work/bootstrap"; "/work/blob-tmp"]};
     output_json := json_dumps string_blobs_doc |}.

(** The image after a successful build. *)
Definition image_built (b : Backend) : ImageState :=
  snd (create_image json_load_fixture true "util" builder_ok (image_fresh b)).

(** A daemon that stays alive and never mounts, one that mounts at the
    third probe, and one that has exited before the first [poll]. *)
Definition world_never_ready : Script :=
  mkScript (fun _ => false) (fun _ => None) 0 0 0 0.

Definition world_ready_at_2 : Script :=
  mkScript (fun n => Nat.eqb n 2) (fun _ => None) 0 0 0 0.

Definition world_exits_at_once : Script :=
  mkScript (fun _ => false) (fun _ => Some 1%Z) 0 0 0 0.

Definition daemon_on (c : option RafsConf) (w : Script) : DaemonState Script :=
  mkDaemonState c "/mnt/nydus" false w.

(** ** Further vocabulary *)

(** [readable o p]: the attribute path [p] can be read from [o]. *)
Definition readable (o : pyval) (p : list string) : bool :=
  match get_path o p with
  | Ok _ => true
  | Raise _ => false
  end.

(** The path of a field of the backend's [config] object. *)
Definition backend_field (f : string) : list string :=
  ["device"; "backend"; "config"; f].

(** The field [f] of the backend's [config] object is there. *)
Definition field_set (f : string) (c : RafsConf) : Prop :=
  readable (_device_conf c) (backend_field f) = true.

(** What [get_rafs_backend] reads after [set_rafs_backend b]. *)
Definition backend_type_written (b : Backend) : string :=
  match b with
  | BACKEND_PROXY => "registry"
  | _ => Backend_str b
  end.

(** A configuration with the object-store backend set, and a history that
    moves it to the registry and dumps it. *)
Definition conf_v6_oss : RafsConf := snd (set_rafs_backend OSS ∅ conf_v6).

Definition to_registry_and_dump : list ConfCall :=
  [CallSetRafsBackend REGISTRY ∅; CallDumpRafsConf].

(** A version 5 anchor with the same addresses as [anchor_v6]. *)
Definition anchor_v5 : NydusAnchor :=
  {| registry_namespace := registry_namespace anchor_v6;
     registry_url := registry_url anchor_v6;
     registry_auth := registry_auth anchor_v6;
     oss_endpoint := oss_endpoint anchor_v6; oss_ak_id := oss_ak_id anchor_v6;
     oss_ak_secret := oss_ak_secret anchor_v6; oss_bucket := oss_bucket anchor_v6;
     backend_proxy_url := backend_proxy_url anchor_v6;
     backend_proxy_blobs_dir := backend_proxy_blobs_dir anchor_v6;
     localfs_workdir := localfs_workdir anchor_v6;
     blobcache_dir := blobcache_dir anchor_v6; fs_version := 5 |}.

Definition conf_v5 : RafsConf := RafsConf_init anchor_v5 None.

(** *** Stations of [create_image]

    The states [create_image] goes through, as functions of the state it
    started in: after the two attribute assignments, once the builder has
    exited, once the image is marked created, and once the blob identifier
    and the bootstrap path are recorded. *)
Definition launched_state (clear_from_oss_arg : bool) (oss_uploader_arg : string)
    (st : ImageState) : ImageState :=
  with_self (Img.set_oss_uploader (Some oss_uploader_arg))
    (with_self (Img.set_clear_from_oss clear_from_oss_arg) st).

Definition exited_state (clear_from_oss_arg : bool) (oss_uploader_arg : string)
    (run : BuilderRun) (st : ImageState) : ImageState :=
  with_files (fun _ => files_after run)
    (launched_state clear_from_oss_arg oss_uploader_arg st).

Definition checked_state (clear_from_oss_arg : bool) (oss_uploader_arg : string)
    (run : BuilderRun) (st : ImageState) : ImageState :=
  with_self (Img.set_created true)
    (exited_state clear_from_oss_arg oss_uploader_arg run st).

Definition recorded_state (clear_from_oss_arg : bool) (oss_uploader_arg : string)
    (run : BuilderRun) (last_blob : pyval) (st : ImageState) : ImageState :=
  with_self (Img.set_bootstrap_path
               (Some (abspath (cwd st) (bootstrap_name (self st)))))
    (with_image_logging
       (fun l => (l ++ [(INFO, "Generated blob id %s", [last_blob])])%list)
       (with_self (Img.set_blob_id last_blob)
          (checked_state clear_from_oss_arg oss_uploader_arg run st))).

(** The paths [create_image] hands to the dustbin at its end. *)
Definition dustbin_entries (i : RafsImage) : list string :=
  (bootstrap_name i :: option_list (blob_abs_path i)
   ++ option_list (localfs_backing_blob i))%list.

Definition registered_state (st : ImageState) : ImageState :=
  with_dustbin (fun d => (d ++ dustbin_entries (self st))%list) st.


(** [json.load(f)["blobs"][-1]] on the builder's output. *)
Definition last_blob_of (json_load : string -> res pyval) (run : BuilderRun)
  : res pyval :=
  match json_load (output_json run) with
  | Ok doc =>
      match subscript_str doc "blobs" with
      | Ok blobs => subscript_last blobs
      | Raise e => Raise e
      end
  | Raise e => Raise e
  end.

(** The builder has passed the checks [create_image] makes on it. *)
Definition build_checked (oss_uploader_arg : string) (run : BuilderRun)
    (st : ImageState) : bool :=
  string_in oss_uploader_arg ["util"; "builder"; "none"]
  && (returncode run =? 0)%Z
  && bool_decide (path_join (test_dir (self st)) (bootstrap_name (self st))
                  ∈ files_after run).

(** [hoare P m Q]: from a state with [P], [m] ends, returning or raising,
    in a state with [Q]. *)
Definition hoare {S A} (P : S -> Prop) (m : M S A) (Q : S -> Prop) : Prop :=
  forall s, P s -> Q (snd (m s)).

(** [raises_only m h]: every exception [m] raises is one of [h]. *)
Definition raises_only {S A} (m : M S A) (h : exn -> bool) : Prop :=
  forall s e, fst (m s) = Raise e -> h e = true.

(** [never_raises m]: [m] returns in every state. *)
Definition never_raises {S A} (m : M S A) : Prop :=
  forall s, exists a, fst (m s) = Ok a.

(** A chain of setter calls on a blob entry that names a repository. *)
Definition entry_calls : list BlobEntry.Call :=
  [BlobEntry.SetRepo (PStr "library/busybox");
   BlobEntry.SetFsid (PStr "fs-1");
   BlobEntry.SetPrefetch (PInt 4)].


(** A daemon object on which nothing has been called, as the constructor
    leaves it with [with_defaults=False], and one as the constructor leaves
    it by default: [_set_default_mount_param] has called
    [apisock] with the name [api_sock]. *)
Definition daemon_bare (c : option RafsConf) (w : Script)
  : NydusDaemon.Daemon Script :=
  NydusDaemon.mkDaemon (daemon_on c w) None None [].



(** * Properties *)

Example normpath_examples :
  normpath "/tmp//a/./b/../c" = "/tmp/a/c" /\ normpath "a/.." = "."
  /\ normpath "//x" = "//x" /\ normpath "///x/" = "/x" /\ normpath "../a" = "../a"
  /\ normpath "/.." = "/" /\ abspath "/work" "bs/boot" = "/work/bs/boot".
Proof. repeat split; reflexivity. Qed.

(** ** Attribute paths *)

Lemma setattr_raises o k v e : setattr o k v = Raise e -> e = AttributeError.
Proof. destruct o; simpl; congruence. Qed.

Lemma getattr_raises o k e : getattr o k = Raise e -> e = AttributeError.
Proof.
  destruct o; simpl; try congruence.
  destruct (assoc_get k kvs); congruence.
Qed.

(** An assignment through a path fails only with [AttributeError]. *)
Lemma set_path_raises rest : forall o k v e,
  set_path o k rest v = Raise e -> e = AttributeError.
Proof.
  induction rest as [|k' rest IH]; intros o k v e; simpl.
  - apply setattr_raises.
  - destruct (getattr o k) as [o'|e1] eqn:Hg.
    + destruct (set_path o' k' rest v) as [o''|e2] eqn:Hs.
      * apply setattr_raises.
      * intros [= <-]. eapply IH, Hs.
    + intros [= <-]. eapply getattr_raises, Hg.
Qed.

Lemma assoc_get_set_eq k v kvs : assoc_get k (assoc_set k v kvs) = Some v.
Proof.
  induction kvs as [|[k' v'] kvs IH]; simpl.
  - now rewrite String.eqb_refl.
  - destruct (String.eqb k k') eqn:E; simpl; rewrite E; auto.
Qed.

Lemma assoc_get_set_ne k k' v kvs :
  k <> k' -> assoc_get k' (assoc_set k v kvs) = assoc_get k' kvs.
Proof.
  intros Hne. induction kvs as [|[k0 v0] kvs IH]; simpl.
  - destruct (String.eqb_spec k' k); congruence.
  - destruct (String.eqb_spec k k0) as [->|]; simpl.
    + destruct (String.eqb_spec k' k0); congruence.
    + now rewrite IH.
Qed.

Lemma assoc_set_set k v1 v2 kvs :
  assoc_set k v2 (assoc_set k v1 kvs) = assoc_set k v2 kvs.
Proof.
  induction kvs as [|[k' v'] kvs IH]; simpl.
  - now rewrite String.eqb_refl.
  - destruct (String.eqb k k') eqn:E; simpl; rewrite E; congruence.
Qed.

(** After a successful assignment through a path, the same assignment is
    the identity. *)
Lemma set_path_idem rest : forall o k v o',
  set_path o k rest v = Ok o' -> set_path o' k rest v = Ok o'.
Proof.
  induction rest as [|k' rest IH]; intros o k v o'; simpl.
  - destruct o; simpl; try discriminate. intros [= <-].
    simpl. now rewrite assoc_set_set.
  - destruct o as [| | | | |kvs]; simpl; try discriminate.
    destruct (assoc_get k kvs) as [child|] eqn:Hg; [|discriminate].
    destruct (set_path child k' rest v) as [child'|] eqn:Hs; [|discriminate].
    intros [= <-]. simpl. rewrite assoc_get_set_eq.
    rewrite (IH _ _ _ _ Hs). simpl. now rewrite assoc_set_set.
Qed.

(** What is read through a path after a successful assignment to it. *)
Lemma get_set_path rest : forall o k v o',
  set_path o k rest v = Ok o' -> get_path o' (k :: rest) = Ok v.
Proof.
  induction rest as [|k' rest IH]; intros o k v o'; simpl.
  - destruct o; simpl; try discriminate. intros [= <-]. simpl.
    now rewrite assoc_get_set_eq.
  - destruct o as [| | | | |kvs]; simpl; try discriminate.
    destruct (assoc_get k kvs) as [child|] eqn:Hg; [|discriminate].
    destruct (set_path child k' rest v) as [child'|] eqn:Hs; [|discriminate].
    intros [= <-]. simpl. rewrite assoc_get_set_eq.
    apply (IH _ _ _ _ Hs).
Qed.

Lemma obj_at_nil o : obj_at o [] = true -> exists kvs, o = PObj kvs.
Proof. unfold obj_at; simpl. destruct o; try discriminate. eauto. Qed.

Lemma obj_at_cons o k p :
  obj_at o (k :: p) = true ->
  exists kvs child, o = PObj kvs /\ assoc_get k kvs = Some child
                    /\ obj_at child p = true.
Proof.
  unfold obj_at; simpl. destruct o as [| | | | |kvs]; simpl; try discriminate.
  destruct (assoc_get k kvs) as [child|] eqn:Hg; [|discriminate].
  intros H. exists kvs, child. auto.
Qed.

(** An assignment succeeds as soon as the path before its last attribute
    leads to an object. *)
Lemma set_path_ok rest : forall o k v,
  obj_at o (removelast (k :: rest)) = true ->
  exists o', set_path o k rest v = Ok o'.
Proof.
  induction rest as [|k' rest IH]; intros o k v H.
  - apply obj_at_nil in H as [kvs ->]. simpl. eauto.
  - change (removelast (k :: k' :: rest)) with (k :: removelast (k' :: rest)) in H.
    apply obj_at_cons in H as (kvs & child & -> & Hg & Hc).
    destruct (IH child k' v Hc) as [child' Hs].
    simpl. rewrite Hg, Hs. simpl. eauto.
Qed.

Lemma set_path_result_obj rest : forall o k v o',
  set_path o k rest v = Ok o' -> exists kvs, o' = PObj kvs.
Proof.
  destruct rest as [|k' rest]; intros o k v o'; simpl.
  - destruct o; simpl; try discriminate. intros [= <-]. eauto.
  - destruct (getattr o k) as [child|]; [|discriminate].
    destruct (set_path child k' rest v); [|discriminate].
    destruct o; simpl; try discriminate. intros [= <-]. eauto.
Qed.

(** The objects the assignment went through are objects afterwards. *)
Lemma set_path_obj_prefix rest : forall o k v o' p q,
  set_path o k rest v = Ok o' ->
  k :: rest = (p ++ q)%list -> q <> [] ->
  obj_at o' p = true.
Proof.
  induction rest as [|k' rest IH]; intros o k v o' p q Hs Hp Hq.
  - destruct p as [|k1 p].
    + destruct (set_path_result_obj _ _ _ _ _ Hs) as [kvs ->]. reflexivity.
    + simpl in Hp. injection Hp as _ Hp.
      destruct p; simpl in Hp; [subst q; contradiction|discriminate].
  - destruct p as [|k1 p].
    + destruct (set_path_result_obj _ _ _ _ _ Hs) as [kvs ->]. reflexivity.
    + simpl in Hp. injection Hp as <- Hp.
      simpl in Hs.
      destruct o as [| | | | |kvs]; simpl in Hs; try discriminate.
      destruct (assoc_get k kvs) as [child|] eqn:Hg; [|discriminate].
      destruct (set_path child k' rest v) as [child'|] eqn:Hc; [|discriminate].
      injection Hs as <-.
      unfold obj_at. simpl. rewrite assoc_get_set_eq.
      apply (IH _ _ _ _ _ _ Hc Hp Hq).
Qed.

(** Frame: a path apart from the assigned one reads what it read before. *)
Lemma set_path_frame rest : forall o k v o' p,
  set_path o k rest v = Ok o' ->
  apart p (k :: rest) ->
  get_path o' p = get_path o p.
Proof.
  induction rest as [|k' rest IH]; intros o k v o' p Hs [Hpq Hqp].
  - destruct p as [|k1 p]; [exfalso; apply Hpq, prefix_nil|].
    destruct o as [| | | | |kvs]; simpl in Hs; try discriminate.
    injection Hs as <-. simpl.
    destruct (decide (k = k1)) as [->|Hne].
    + exfalso. apply Hqp. apply prefix_cons, prefix_nil.
    + now rewrite assoc_get_set_ne.
  - destruct p as [|k1 p]; [exfalso; apply Hpq, prefix_nil|].
    simpl in Hs.
    destruct o as [| | | | |kvs]; simpl in Hs; try discriminate.
    destruct (assoc_get k kvs) as [child|] eqn:Hg; [|discriminate].
    destruct (set_path child k' rest v) as [child'|] eqn:Hc; [|discriminate].
    injection Hs as <-. simpl.
    destruct (decide (k = k1)) as [->|Hne].
    + rewrite assoc_get_set_eq, Hg.
      apply (IH _ _ _ _ _ Hc). split; intros Hp.
      * apply Hpq. now apply prefix_cons.
      * apply Hqp. now apply prefix_cons.
    + now rewrite assoc_get_set_ne.
Qed.

Lemma obj_at_frame rest o k v o' p :
  set_path o k rest v = Ok o' -> apart p (k :: rest) ->
  obj_at o' p = obj_at o p.
Proof. intros Hs Ha. unfold obj_at. now rewrite (set_path_frame _ _ _ _ _ _ Hs Ha). Qed.

(** ** The configuration file *)

Local Arguments set_path : simpl never.

Lemma append_empty_r (s : string) : s +:+ "" = s.
Proof.
  induction s as [|c s IH]; [reflexivity|].
  change (String c (s +:+ "") = String c s). now rewrite IH.
Qed.

Lemma substring_of_empty n m : String.substring n m "" = "".
Proof. destruct n, m; reflexivity. Qed.

(** Written after [truncate(0)] and [seek(0)], the text is all the file
    holds, whatever it held before and wherever the handle stood. *)
Lemma file_write_fresh s f :
  file_write s (file_seek0 (file_truncate0 f)) = mkFile s (String.length s).
Proof.
  unfold file_write, file_seek0, file_truncate0; cbn [content pos].
  rewrite !substring_of_empty.
  change (("" +:+ nul_bytes (0 - String.length "")) +:+ s +:+ "") with (s +:+ "").
  now rewrite append_empty_r.
Qed.

Lemma dump_rafs_conf_not_v6 c :
  fs_version (anchor c) <> 6%Z ->
  dump_rafs_conf c = (Ok tt, dumped (_device_conf c) [mode_info c] c).
Proof.
  intros Hv. unfold dump_rafs_conf, bind, gets, when, modify, log; simpl.
  destruct (Z.eqb_spec (fs_version (anchor c)) 6) as [|_]; [contradiction|].
  simpl. unfold dumped, with_conf_file, with_device_conf, with_logging; simpl.
  rewrite file_write_fresh. reflexivity.
Qed.

Lemma dump_rafs_conf_v6 c d :
  fs_version (anchor c) = 6%Z ->
  set_path (_device_conf c) "device" ["cache"]
           (blobcache_namespace (anchor c) false PNone) = Ok d ->
  dump_rafs_conf c = (Ok tt, dumped d [v6_warning; mode_info c] c).
Proof.
  intros Hv Hs.
  unfold dump_rafs_conf, bind, gets, when, modify, log, enable_rafs_blobcache.
  simpl. rewrite Hv. simpl. rewrite Hs.
  unfold dumped, with_conf_file, with_device_conf, with_logging, with__device_conf;
    simpl.
  rewrite file_write_fresh, <- app_assoc. reflexivity.
Qed.

Lemma dump_rafs_conf_v6_raise c e :
  fs_version (anchor c) = 6%Z ->
  set_path (_device_conf c) "device" ["cache"]
           (blobcache_namespace (anchor c) false PNone) = Raise e ->
  dump_rafs_conf c
  = (Raise AttributeError, with_logging (logging c ++ [v6_warning]) c).
Proof.
  intros Hv Hs. pose proof (set_path_raises _ _ _ _ _ Hs) as ->.
  unfold dump_rafs_conf, bind, gets, when, modify, log, enable_rafs_blobcache.
  simpl. rewrite Hv. simpl. rewrite Hs. reflexivity.
Qed.

Lemma conf_shape_at c s :
  conf_shape c = true -> In s shape_paths -> obj_at (_device_conf c) s = true.
Proof. unfold conf_shape. rewrite forallb_forall. auto. Qed.

Lemma conf_shape_device c :
  conf_shape c = true -> obj_at (_device_conf c) ["device"] = true.
Proof. intros H. apply (conf_shape_at c _ H). simpl. auto. Qed.

Ltac in_shape := simpl; auto 7.

Lemma apart_decide (p q : list string) :
  bool_decide (p `prefix_of` q) = false ->
  bool_decide (q `prefix_of` p) = false ->
  apart p q.
Proof. rewrite !bool_decide_eq_false. split; assumption. Qed.

Ltac apart_paths := apply apart_decide; reflexivity.

(** Under version 6 a configuration whose [device] is an object is dumped
    with the default blob cache in place. *)
Lemma dump_rafs_conf_v6_shape c :
  fs_version (anchor c) = 6%Z ->
  obj_at (_device_conf c) ["device"] = true ->
  exists d,
    set_path (_device_conf c) "device" ["cache"]
             (blobcache_namespace (anchor c) false PNone) = Ok d
    /\ dump_rafs_conf c = (Ok tt, dumped d [v6_warning; mode_info c] c).
Proof.
  intros Hv Hd.
  destruct (set_path_ok ["cache"] (_device_conf c) "device"
              (blobcache_namespace (anchor c) false PNone) Hd) as [d Hs].
  exists d. split; [exact Hs|]. now apply dump_rafs_conf_v6.
Qed.

(** C5: for every configuration whose format version is 6 and in which no
    cache has been configured, [dump_rafs_conf] returns normally, logs the
    warning, and the document it writes has [device.cache.type] equal to
    ["blobcache"]; the file holds the serialization of that document. *)
Theorem dump_v6_without_cache_writes_blobcache (c : RafsConf) :
  fs_version (anchor c) = 6%Z ->
  obj_at (_device_conf c) ["device"] = true ->
  get_path (_device_conf c) ["device"; "cache"] = Raise AttributeError ->
  exists c',
    dump_rafs_conf c = (Ok tt, c')
    /\ get_path (device_conf c') ["device"; "cache"; "type"] = Ok (PStr "blobcache")
    /\ get_path (device_conf c') ["device"; "cache"; "type"] <> Ok (PStr "none")
    /\ content (conf_file_wrapper c') = json_dumps (device_conf c')
    /\ logging c' = (logging c ++ [v6_warning; mode_info c])%list.
Proof.
  intros Hv Hd _.
  destruct (dump_rafs_conf_v6_shape c Hv Hd) as (d & Hs & Hdump).
  exists (dumped d [v6_warning; mode_info c] c). split; [exact Hdump|].
  pose proof (get_set_path _ _ _ _ _ Hs) as Hg.
  assert (Ht : get_path d ["device"; "cache"; "type"] = Ok (PStr "blobcache")).
  { simpl in Hg |- *. destruct (getattr d "device") as [dev|]; [|discriminate].
    destruct (getattr dev "cache") as [cache|]; [|discriminate].
    injection Hg as ->. reflexivity. }
  unfold dumped; cbn [device_conf conf_file_wrapper content logging].
  rewrite Ht. repeat split; congruence.
Qed.

(** C6: dumping twice in a row leaves the file as the first dump left it.
    When the first dump returns, the file holds exactly one serialization of
    the document (whatever the file held before, it was truncated), the
    second dump returns as well and rewrites the same bytes; when the first
    dump raises, it raises before the file is touched, and so does the
    second. *)
Theorem dump_rafs_conf_twice (c : RafsConf) :
  match dump_rafs_conf c with
  | (Ok _, c1) =>
      content (conf_file_wrapper c1) = json_dumps (device_conf c1)
      /\ exists c2, dump_rafs_conf c1 = (Ok tt, c2)
                    /\ conf_file_wrapper c2 = conf_file_wrapper c1
                    /\ device_conf c2 = device_conf c1
                    /\ _device_conf c2 = _device_conf c1
  | (Raise e, c1) =>
      conf_file_wrapper c1 = conf_file_wrapper c
      /\ exists c2, dump_rafs_conf c1 = (Raise e, c2)
                    /\ conf_file_wrapper c2 = conf_file_wrapper c1
  end.
Proof.
  destruct (Z.eq_dec (fs_version (anchor c)) 6) as [Hv|Hv].
  - destruct (set_path (_device_conf c) "device" ["cache"]
                (blobcache_namespace (anchor c) false PNone)) as [d|e] eqn:Hs.
    + rewrite (dump_rafs_conf_v6 c d Hv Hs). split; [reflexivity|].
      pose proof (dump_rafs_conf_v6 (dumped d [v6_warning; mode_info c] c) d Hv
                    (set_path_idem _ _ _ _ _ Hs)) as H2.
      eexists. split; [exact H2|]. repeat split.
    + rewrite (dump_rafs_conf_v6_raise c e Hv Hs). split; [reflexivity|].
      pose proof (dump_rafs_conf_v6_raise
                    (with_logging (logging c ++ [v6_warning]) c) e Hv Hs) as H2.
      eexists. split; [exact H2|]. reflexivity.
  - rewrite (dump_rafs_conf_not_v6 c Hv). split; [reflexivity|].
    pose proof (dump_rafs_conf_not_v6
                  (dumped (_device_conf c) [mode_info c] c) Hv) as H2.
    eexists. split; [exact H2|]. repeat split.
Qed.

(** C10: under format version 6 every dump puts the default blob cache at
    [device.cache] (work directory [anchor.blobcache_dir], not compressed),
    whatever cache the caller had configured, and every attribute path apart
    from [device.cache] reads in the written document what it read in the
    configuration before the dump. *)
Theorem dump_v6_resets_cache (c : RafsConf) :
  fs_version (anchor c) = 6%Z ->
  obj_at (_device_conf c) ["device"] = true ->
  exists c',
    dump_rafs_conf c = (Ok tt, c')
    /\ get_path (device_conf c') ["device"; "cache"]
       = Ok (PObj [("type", PStr "blobcache");
                   ("config", PObj [("work_dir", blobcache_dir (anchor c))]);
                   ("compressed", PBool false)])
    /\ content (conf_file_wrapper c') = json_dumps (device_conf c')
    /\ _device_conf c' = device_conf c'
    /\ forall p, apart p ["device"; "cache"] ->
                 get_path (device_conf c') p = get_path (_device_conf c) p.
Proof.
  intros Hv Hd.
  destruct (dump_rafs_conf_v6_shape c Hv Hd) as (d & Hs & Hdump).
  exists (dumped d [v6_warning; mode_info c] c). split; [exact Hdump|].
  unfold dumped; cbn [device_conf _device_conf conf_file_wrapper content].
  split; [exact (get_set_path _ _ _ _ _ Hs)|].
  split; [reflexivity|]. split; [reflexivity|].
  intros p Hp. exact (set_path_frame _ _ _ _ _ _ Hs Hp).
Qed.

(** ** Assignments through [_configure_rafs] *)

Lemma obj_at_after_set rest o k v o' s :
  set_path o k rest v = Ok o' ->
  obj_at o s = true ->
  ~ (k :: rest) `prefix_of` s ->
  obj_at o' s = true.
Proof.
  intros Hs Ho Hn.
  destruct (decide (s `prefix_of` (k :: rest))) as [[q Hq]|Hp].
  - apply (set_path_obj_prefix _ _ _ _ _ _ q Hs Hq).
    intros ->. apply Hn. rewrite Hq, app_nil_r. reflexivity.
  - rewrite (obj_at_frame _ _ _ _ _ _ Hs); [exact Ho|]. split; assumption.
Qed.

Lemma conf_shape_set c k rest v d :
  conf_shape c = true ->
  keeps_shape (k :: rest) = true ->
  set_path (_device_conf c) k rest v = Ok d ->
  conf_shape (with__device_conf d c) = true.
Proof.
  unfold conf_shape, keeps_shape. rewrite !forallb_forall.
  intros Hc Hk Hs s Hin. cbn [with__device_conf _device_conf].
  apply (obj_at_after_set _ _ _ _ _ _ Hs (Hc s Hin)).
  specialize (Hk s Hin). apply negb_true_iff, bool_decide_eq_false in Hk.
  exact Hk.
Qed.

(** An assignment whose parent path leads to an object returns normally;
    the configuration is the only thing it changes. *)
Lemma configure_rafs_spec k v c k0 rest :
  split_dots k = k0 :: rest ->
  obj_at (_device_conf c) (removelast (k0 :: rest)) = true ->
  exists d,
    set_path (_device_conf c) k0 rest v = Ok d
    /\ _configure_rafs k v c = (Ok tt, with__device_conf d c).
Proof.
  intros Hk Hp. destruct (set_path_ok rest (_device_conf c) k0 v Hp) as [d Hs].
  exists d. split; [exact Hs|]. unfold _configure_rafs. now rewrite Hk, Hs.
Qed.

Lemma bind_ok {S A B} (m : M S A) (k : A -> M S B) s a s' :
  m s = (Ok a, s') -> bind m k s = k a s'.
Proof. unfold bind. now intros ->. Qed.

(** One assignment on a configuration of the usual shape. *)
Lemma configure_step k v c k0 rest :
  split_dots k = k0 :: rest ->
  keeps_shape (k0 :: rest) = true ->
  In (removelast (k0 :: rest)) shape_paths ->
  conf_shape c = true ->
  exists c',
    _configure_rafs k v c = (Ok tt, c')
    /\ conf_shape c' = true
    /\ anchor c' = anchor c
    /\ get_path (_device_conf c') (k0 :: rest) = Ok v
    /\ forall p, apart p (k0 :: rest) ->
                 get_path (_device_conf c') p = get_path (_device_conf c) p.
Proof.
  intros Hk Hkeep Hin Hc.
  destruct (configure_rafs_spec k v c k0 rest Hk (conf_shape_at c _ Hc Hin))
    as (d & Hs & Hr).
  exists (with__device_conf d c). split; [exact Hr|].
  split; [exact (conf_shape_set c k0 rest v d Hc Hkeep Hs)|].
  split; [reflexivity|].
  split; [exact (get_set_path _ _ _ _ _ Hs)|].
  intros p Hp. exact (set_path_frame _ _ _ _ _ _ Hs Hp).
Qed.

(** ** Backends *)

Ltac conf_step k v c k0 rest Hc c' :=
  let R := fresh "R" in
  let Hc' := fresh "Hc" in
  let A := fresh "A" in
  let G := fresh "G" in
  let F := fresh "F" in
  destruct (configure_step k v c k0 rest eq_refl eq_refl ltac:(in_shape) Hc)
    as (c' & R & Hc' & A & G & F).

Ltac run_ret :=
  repeat match goal with
         | |- context [bind (ret tt) ?k ?s] =>
             change (bind (ret tt) k s) with (k tt s); cbv beta
         | |- context [bind (gets ?f) ?k ?s] =>
             change (bind (gets f) k s) with (k (f s) s); cbv beta
         end.

Lemma set_rafs_backend_proxy (c : RafsConf) (kwargs : gmap string pyval) :
  conf_shape c = true ->
  exists c',
    set_rafs_backend BACKEND_PROXY kwargs c = (Ok tt, c')
    /\ conf_shape c' = true
    /\ anchor c' = anchor c
    /\ get_path (_device_conf c') ["device"; "backend"; "type"]
       = Ok (PStr "registry")
    /\ get_path (_device_conf c') ["device"; "backend"; "config"; "scheme"]
       = Ok (PStr "http")
    /\ get_path (_device_conf c') ["device"; "backend"; "config"; "repo"]
       = Ok (PStr "nydus")
    /\ get_path (_device_conf c') ["device"; "backend"; "config"; "host"]
       = Ok (backend_proxy_url (anchor c)).
Proof.
  intros Hc.
  conf_step "device.backend.type" (PStr "backend_proxy") c
            "device" ["backend"; "type"] Hc c1.
  conf_step "device.backend.type" (PStr "registry") c1
            "device" ["backend"; "type"] Hc0 c2.
  conf_step "device.backend.config.scheme" (PStr "http") c2
            "device" ["backend"; "config"; "scheme"] Hc1 c3.
  conf_step "device.backend.config.repo" (PStr "nydus") c3
            "device" ["backend"; "config"; "repo"] Hc2 c4.
  conf_step "device.backend.config.host" (backend_proxy_url (anchor c4)) c4
            "device" ["backend"; "config"; "host"] Hc3 c5.
  exists c5. split.
  { unfold set_rafs_backend. cbn [Backend_eqb Backend_str when].
    rewrite (bind_ok _ _ _ _ _ R). run_ret. unfold bind at 1.
    rewrite (bind_ok _ _ _ _ _ R0), (bind_ok _ _ _ _ _ R1), (bind_ok _ _ _ _ _ R2).
    run_ret. rewrite R3. reflexivity. }
  split; [assumption|]. split; [congruence|].
  split; [rewrite F3, F2, F1 by apart_paths; exact G0|].
  split; [rewrite F3, F2 by apart_paths; exact G1|].
  split; [rewrite F3 by apart_paths; exact G2|].
  rewrite G3. congruence.
Qed.

Lemma set_rafs_backend_oss (c : RafsConf) (kwargs : gmap string pyval) :
  conf_shape c = true ->
  exists c',
    set_rafs_backend OSS kwargs c = (Ok tt, c')
    /\ conf_shape c' = true
    /\ anchor c' = anchor c
    /\ get_path (_device_conf c') ["device"; "backend"; "type"] = Ok (PStr "oss")
    /\ get_path (_device_conf c') ["device"; "backend"; "config"; "endpoint"]
       = Ok (oss_endpoint (anchor c))
    /\ get_path (_device_conf c') ["device"; "backend"; "config"; "access_key_id"]
       = Ok (oss_ak_id (anchor c))
    /\ get_path (_device_conf c') ["device"; "backend"; "config"; "access_key_secret"]
       = Ok (oss_ak_secret (anchor c))
    /\ get_path (_device_conf c') ["device"; "backend"; "config"; "bucket_name"]
       = Ok (oss_bucket (anchor c)).
Proof.
  intros Hc.
  conf_step "device.backend.type" (PStr "oss") c
            "device" ["backend"; "type"] Hc c1.
  assert (Hpre : exists c2,
    match kwargs !! "prefix" with
    | Some p => _configure_rafs "device.backend.config.object_prefix" p
    | None => ret tt
    end c1 = (Ok tt, c2)
    /\ conf_shape c2 = true /\ anchor c2 = anchor c1
    /\ get_path (_device_conf c2) ["device"; "backend"; "type"]
       = get_path (_device_conf c1) ["device"; "backend"; "type"]).
  { destruct (kwargs !! "prefix") as [pre|].
    - conf_step "device.backend.config.object_prefix" pre c1
                "device" ["backend"; "config"; "object_prefix"] Hc0 c2.
      exists c2. repeat split; try assumption. apply F0. apart_paths.
    - exists c1. repeat split; assumption. }
  destruct Hpre as (c2 & R0 & Hc2 & A0 & T0).
  conf_step "device.backend.config.endpoint" (oss_endpoint (anchor c2)) c2
            "device" ["backend"; "config"; "endpoint"] Hc2 c3.
  conf_step "device.backend.config.access_key_id" (oss_ak_id (anchor c2)) c3
            "device" ["backend"; "config"; "access_key_id"] Hc1 c4.
  conf_step "device.backend.config.access_key_secret" (oss_ak_secret (anchor c2)) c4
            "device" ["backend"; "config"; "access_key_secret"] Hc3 c5.
  conf_step "device.backend.config.bucket_name" (oss_bucket (anchor c2)) c5
            "device" ["backend"; "config"; "bucket_name"] Hc4 c6.
  exists c6. split.
  { unfold set_rafs_backend. cbn [Backend_eqb Backend_str when].
    rewrite (bind_ok _ _ _ _ _ R). run_ret. unfold bind at 1.
    rewrite (bind_ok _ _ _ _ _ R0). run_ret.
    rewrite (bind_ok _ _ _ _ _ R1), (bind_ok _ _ _ _ _ R2), (bind_ok _ _ _ _ _ R3).
    rewrite R4. reflexivity. }
  split; [assumption|]. split; [congruence|].
  split; [rewrite F3, F2, F1, F0 by apart_paths; rewrite T0; exact G|].
  split; [rewrite F3, F2, F1 by apart_paths; rewrite G0; congruence|].
  split; [rewrite F3, F2 by apart_paths; rewrite G1; congruence|].
  split; [rewrite F3 by apart_paths; rewrite G2; congruence|].
  rewrite G3. congruence.
Qed.

Lemma posixpath_join_raises a b e : posixpath_join a b = Raise e -> e = TypeError.
Proof. destruct a, b; simpl; congruence. Qed.

Lemma set_rafs_backend_registry (c : RafsConf) (kwargs : gmap string pyval) :
  conf_shape c = true ->
  (forall repo, kwargs !! "repo" = Some repo ->
     exists j, posixpath_join (registry_namespace (anchor c)) repo = Ok j) ->
  exists c',
    set_rafs_backend REGISTRY kwargs c = (Ok tt, c')
    /\ conf_shape c' = true
    /\ anchor c' = anchor c
    /\ get_path (_device_conf c') ["device"; "backend"; "type"]
       = Ok (PStr "registry")
    /\ get_path (_device_conf c') ["device"; "backend"; "config"; "scheme"]
       = Ok (default (PStr "http") (kwargs !! "scheme"))
    /\ get_path (_device_conf c') ["device"; "backend"; "config"; "host"]
       = Ok (registry_url (anchor c))
    /\ get_path (_device_conf c') ["device"; "backend"; "config"; "auth"]
       = Ok (registry_auth (anchor c)).
Proof.
  intros Hc Hrepo.
  conf_step "device.backend.type" (PStr "registry") c
            "device" ["backend"; "type"] Hc c1.
  assert (Hpre : exists c2,
    match kwargs !! "repo" with
    | Some repo =>
        a <- gets anchor ;;
        r <- lift (posixpath_join (registry_namespace a) repo) ;;
        _configure_rafs "device.backend.config.repo" r
    | None => ret tt
    end c1 = (Ok tt, c2)
    /\ conf_shape c2 = true /\ anchor c2 = anchor c1
    /\ get_path (_device_conf c2) ["device"; "backend"; "type"]
       = get_path (_device_conf c1) ["device"; "backend"; "type"]).
  { destruct (kwargs !! "repo") as [repo|] eqn:Hk.
    - destruct (Hrepo repo eq_refl) as [j Hj].
      conf_step "device.backend.config.repo" j c1
                "device" ["backend"; "config"; "repo"] Hc0 c2.
      exists c2. split.
      + run_ret. unfold bind, lift. rewrite A, Hj. exact R0.
      + repeat split; try assumption. apply F0. apart_paths.
    - exists c1. repeat split; assumption. }
  destruct Hpre as (c2 & R0 & Hc2 & A0 & T0).
  conf_step "device.backend.config.scheme"
            (match kwargs !! "scheme" with Some s => s | None => PStr "http" end) c2
            "device" ["backend"; "config"; "scheme"] Hc2 c3.
  conf_step "device.backend.config.host" (registry_url (anchor c3)) c3
            "device" ["backend"; "config"; "host"] Hc1 c4.
  conf_step "device.backend.config.auth" (registry_auth (anchor c3)) c4
            "device" ["backend"; "config"; "auth"] Hc3 c5.
  exists c5. split.
  { unfold set_rafs_backend. cbn [Backend_eqb Backend_str when].
    rewrite (bind_ok _ _ _ _ _ R). unfold bind at 1. unfold bind at 1.
    rewrite R0. rewrite (bind_ok _ _ _ _ _ R1). run_ret.
    rewrite (bind_ok _ _ _ _ _ R2). rewrite R3. reflexivity. }
  split; [assumption|]. split; [congruence|].
  split; [rewrite F2, F1, F0 by apart_paths; rewrite T0; exact G|].
  split; [rewrite F2, F1 by apart_paths; rewrite G0;
          destruct (kwargs !! "scheme"); reflexivity|].
  split; [rewrite F2 by apart_paths; rewrite G1; congruence|].
  rewrite G2. congruence.
Qed.

Lemma set_rafs_backend_registry_raise (c : RafsConf) (kwargs : gmap string pyval)
    repo e :
  conf_shape c = true ->
  kwargs !! "repo" = Some repo ->
  posixpath_join (registry_namespace (anchor c)) repo = Raise e ->
  exists c', set_rafs_backend REGISTRY kwargs c = (Raise TypeError, c').
Proof.
  intros Hc Hk Hj. pose proof (posixpath_join_raises _ _ _ Hj) as ->.
  conf_step "device.backend.type" (PStr "registry") c
            "device" ["backend"; "type"] Hc c1.
  exists c1.
  unfold set_rafs_backend. cbn [Backend_eqb Backend_str when].
  rewrite (bind_ok _ _ _ _ _ R). rewrite Hk.
  assert (Hr : (a <- gets anchor ;;
                r <- lift (posixpath_join (registry_namespace a) repo) ;;
                _configure_rafs "device.backend.config.repo" r) c1
               = (Raise TypeError, c1)).
  { run_ret. unfold bind, lift. rewrite A, Hj. reflexivity. }
  unfold bind at 1. unfold bind at 1. rewrite Hr. reflexivity.
Qed.

Lemma set_rafs_backend_localfs (c : RafsConf) (kwargs : gmap string pyval) :
  conf_shape c = true ->
  (forall image, kwargs !! "image" = Some image ->
     exists blob, getattr image "localfs_backing_blob" = Ok blob) ->
  exists c',
    set_rafs_backend LOCALFS kwargs c = (Ok tt, c')
    /\ conf_shape c' = true
    /\ anchor c' = anchor c
    /\ get_path (_device_conf c') ["device"; "backend"; "type"]
       = Ok (PStr "localfs")
    /\ (kwargs !! "image" = None ->
        get_path (_device_conf c') ["device"; "backend"; "config"; "dir"]
        = Ok (localfs_workdir (anchor c))).
Proof.
  intros Hc Himage.
  conf_step "device.backend.type" (PStr "localfs") c
            "device" ["backend"; "type"] Hc c1.
  destruct (kwargs !! "image") as [image|] eqn:Hk.
  - destruct (Himage image eq_refl) as [blob Hb].
    conf_step "device.backend.config.blob_file" blob c1
              "device" ["backend"; "config"; "blob_file"] Hc0 c2.
    exists c2. split.
    { unfold set_rafs_backend. cbn [Backend_eqb Backend_str when].
      rewrite (bind_ok _ _ _ _ _ R). run_ret. rewrite Hk.
      unfold bind, lift. rewrite Hb. exact R0. }
    split; [assumption|]. split; [congruence|].
    split; [rewrite F0 by apart_paths; exact G|]. discriminate.
  - conf_step "device.backend.config.dir" (localfs_workdir (anchor c1)) c1
              "device" ["backend"; "config"; "dir"] Hc0 c2.
    exists c2. split.
    { unfold set_rafs_backend. cbn [Backend_eqb Backend_str when].
      rewrite (bind_ok _ _ _ _ _ R). run_ret. rewrite Hk. run_ret. exact R0. }
    split; [assumption|]. split; [congruence|].
    split; [rewrite F0 by apart_paths; exact G|].
    intros _. rewrite G0. congruence.
Qed.

Lemma set_rafs_backend_localfs_raise (c : RafsConf) (kwargs : gmap string pyval)
    image e :
  conf_shape c = true ->
  kwargs !! "image" = Some image ->
  getattr image "localfs_backing_blob" = Raise e ->
  exists c', set_rafs_backend LOCALFS kwargs c = (Raise AttributeError, c').
Proof.
  intros Hc Hk Hb. pose proof (getattr_raises _ _ _ Hb) as ->.
  conf_step "device.backend.type" (PStr "localfs") c
            "device" ["backend"; "type"] Hc c1.
  exists c1.
  unfold set_rafs_backend. cbn [Backend_eqb Backend_str when].
  rewrite (bind_ok _ _ _ _ _ R). run_ret. rewrite Hk.
  unfold bind, lift. rewrite Hb. reflexivity.
Qed.

(** ** The proxied backend *)

(** C9: configuring the [BACKEND_PROXY] backend leaves a configuration whose
    backend has type ["registry"], scheme ["http"], repository ["nydus"] and
    the proxy's address as host; the document a following dump writes has
    backend type ["registry"], not ["backend_proxy"]. *)
Theorem proxy_backend_is_registry (c : RafsConf) (kwargs : gmap string pyval) :
  conf_shape c = true ->
  exists c1,
    set_rafs_backend BACKEND_PROXY kwargs c = (Ok tt, c1)
    /\ get_path (_device_conf c1) ["device"; "backend"; "type"]
       = Ok (PStr "registry")
    /\ get_path (_device_conf c1) ["device"; "backend"; "config"; "scheme"]
       = Ok (PStr "http")
    /\ get_path (_device_conf c1) ["device"; "backend"; "config"; "repo"]
       = Ok (PStr "nydus")
    /\ get_path (_device_conf c1) ["device"; "backend"; "config"; "host"]
       = Ok (backend_proxy_url (anchor c))
    /\ exists c2,
         dump_rafs_conf c1 = (Ok tt, c2)
         /\ get_path (device_conf c2) ["device"; "backend"; "type"]
            = Ok (PStr "registry")
         /\ get_path (device_conf c2) ["device"; "backend"; "type"]
            <> Ok (PStr "backend_proxy")
         /\ content (conf_file_wrapper c2) = json_dumps (device_conf c2).
Proof.
  intros Hc.
  destruct (set_rafs_backend_proxy c kwargs Hc)
    as (c1 & R & Hc1 & A & Htype & Hscheme & Hrepo & Hhost).
  exists c1. repeat (split; [assumption|]).
  destruct (Z.eq_dec (fs_version (anchor c1)) 6) as [Hv|Hv].
  - destruct (dump_rafs_conf_v6_shape c1 Hv (conf_shape_device c1 Hc1))
      as (d & Hs & Hd).
    eexists. split; [exact Hd|].
    unfold dumped; cbn [device_conf conf_file_wrapper content].
    rewrite (set_path_frame _ _ _ _ _ _ Hs) by apart_paths.
    rewrite Htype. repeat split; congruence.
  - eexists. split; [exact (dump_rafs_conf_not_v6 c1 Hv)|].
    unfold dumped; cbn [device_conf conf_file_wrapper content].
    rewrite Htype. repeat split; congruence.
Qed.

(** ** No validation of the backend's fields *)

(** C3, as the code has it: [set_rafs_backend] checks no field.  On a
    configuration of the usual shape it returns normally for every backend
    and writes the anchor's values, whatever they are, into the backend
    object.  It raises in two cases only: [TypeError] when a [repo] is given
    for the registry and cannot be joined to the anchor's namespace, and
    [AttributeError] when the [image] given for the local backend has no
    [localfs_backing_blob]. *)
Theorem set_rafs_backend_unchecked (b : Backend) (kwargs : gmap string pyval)
    (c : RafsConf) :
  conf_shape c = true ->
  match set_rafs_backend b kwargs c with
  | (Ok _, c') =>
      conf_shape c' = true /\ anchor c' = anchor c
      /\ backend_written b kwargs (anchor c) (_device_conf c')
  | (Raise e, _) =>
      (b = REGISTRY /\ e = TypeError
       /\ exists repo, kwargs !! "repo" = Some repo
                       /\ posixpath_join (registry_namespace (anchor c)) repo
                          = Raise TypeError)
      \/ (b = LOCALFS /\ e = AttributeError
          /\ exists image, kwargs !! "image" = Some image
                           /\ getattr image "localfs_backing_blob"
                              = Raise AttributeError)
  end.
Proof.
  intros Hc. destruct b.
  - destruct (set_rafs_backend_oss c kwargs Hc) as (c' & -> & H). simpl. tauto.
  - destruct (kwargs !! "repo") as [repo|] eqn:Hk.
    + destruct (posixpath_join (registry_namespace (anchor c)) repo) as [j|e] eqn:Hj.
      * destruct (set_rafs_backend_registry c kwargs Hc) as (c' & -> & H).
        { intros repo' Hr. rewrite Hk in Hr. injection Hr as <-. eauto. }
        simpl. tauto.
      * pose proof (posixpath_join_raises _ _ _ Hj) as ->.
        destruct (set_rafs_backend_registry_raise c kwargs repo _ Hc Hk Hj)
          as (c' & ->).
        left. eauto.
    + destruct (set_rafs_backend_registry c kwargs Hc) as (c' & -> & H).
      { intros repo' Hr. rewrite Hk in Hr. discriminate. }
      simpl. tauto.
  - destruct (kwargs !! "image") as [image|] eqn:Hk.
    + destruct (getattr image "localfs_backing_blob") as [blob|e] eqn:Hb.
      * destruct (set_rafs_backend_localfs c kwargs Hc) as (c' & -> & H).
        { intros image' Hr. rewrite Hk in Hr. injection Hr as <-. eauto. }
        simpl. rewrite Hk. intuition congruence.
      * pose proof (getattr_raises _ _ _ Hb) as ->.
        destruct (set_rafs_backend_localfs_raise c kwargs image _ Hc Hk Hb)
          as (c' & ->).
        right. eauto.
    + destruct (set_rafs_backend_localfs c kwargs Hc) as (c' & -> & H).
      { intros image' Hr. rewrite Hk in Hr. discriminate. }
      simpl. rewrite Hk. tauto.
  - destruct (set_rafs_backend_proxy c kwargs Hc) as (c' & -> & H). simpl. tauto.
Qed.

(** The registry backend configured from an anchor that has no registry
    address, with no keyword argument: the call returns normally, and the
    host it has written is [None]. *)
Lemma registry_without_host_is_accepted :
  exists c',
    set_rafs_backend REGISTRY ∅ conf_bare = (Ok tt, c')
    /\ registry_url (anchor conf_bare) = PNone
    /\ get_path (_device_conf c') ["device"; "backend"; "config"; "host"] = Ok PNone
    /\ get_path (_device_conf c') ["device"; "backend"; "config"; "repo"]
       = Raise AttributeError.
Proof. eexists. split; [vm_compute; reflexivity|]. repeat split. Qed.

Lemma set_rafs_backend_unchecked_witness :
  match set_rafs_backend OSS ∅ conf_bare with
  | (Ok _, c') =>
      conf_shape c' = true /\ anchor c' = anchor conf_bare
      /\ backend_written OSS ∅ (anchor conf_bare) (_device_conf c')
  | (Raise e, _) =>
      (OSS = REGISTRY /\ e = TypeError
       /\ exists repo, (∅ : gmap string pyval) !! "repo" = Some repo
                       /\ posixpath_join (registry_namespace (anchor conf_bare)) repo
                          = Raise TypeError)
      \/ (OSS = LOCALFS /\ e = AttributeError
          /\ exists image, (∅ : gmap string pyval) !! "image" = Some image
                           /\ getattr image "localfs_backing_blob"
                              = Raise AttributeError)
  end.
Proof. apply (set_rafs_backend_unchecked OSS ∅ conf_bare). reflexivity. Defined.

Lemma proxy_backend_is_registry_witness :
  exists c1,
    set_rafs_backend BACKEND_PROXY ∅ conf_v6 = (Ok tt, c1)
    /\ get_path (_device_conf c1) ["device"; "backend"; "type"]
       = Ok (PStr "registry")
    /\ get_path (_device_conf c1) ["device"; "backend"; "config"; "scheme"]
       = Ok (PStr "http")
    /\ get_path (_device_conf c1) ["device"; "backend"; "config"; "repo"]
       = Ok (PStr "nydus")
    /\ get_path (_device_conf c1) ["device"; "backend"; "config"; "host"]
       = Ok (backend_proxy_url (anchor conf_v6))
    /\ exists c2,
         dump_rafs_conf c1 = (Ok tt, c2)
         /\ get_path (device_conf c2) ["device"; "backend"; "type"]
            = Ok (PStr "registry")
         /\ get_path (device_conf c2) ["device"; "backend"; "type"]
            <> Ok (PStr "backend_proxy")
         /\ content (conf_file_wrapper c2) = json_dumps (device_conf c2).
Proof. apply (proxy_backend_is_registry conf_v6 ∅). reflexivity. Defined.

Lemma dump_v6_without_cache_writes_blobcache_witness :
  exists c',
    dump_rafs_conf conf_v6 = (Ok tt, c')
    /\ get_path (device_conf c') ["device"; "cache"; "type"] = Ok (PStr "blobcache")
    /\ get_path (device_conf c') ["device"; "cache"; "type"] <> Ok (PStr "none")
    /\ content (conf_file_wrapper c') = json_dumps (device_conf c')
    /\ logging c' = (logging conf_v6 ++ [v6_warning; mode_info conf_v6])%list.
Proof.
  apply (dump_v6_without_cache_writes_blobcache conf_v6); reflexivity.
Defined.

Lemma dump_v6_resets_cache_witness :
  exists c',
    dump_rafs_conf conf_v6_custom_cache = (Ok tt, c')
    /\ get_path (device_conf c') ["device"; "cache"]
       = Ok (PObj [("type", PStr "blobcache");
                   ("config", PObj [("work_dir",
                                     blobcache_dir (anchor conf_v6_custom_cache))]);
                   ("compressed", PBool false)])
    /\ content (conf_file_wrapper c') = json_dumps (device_conf c')
    /\ _device_conf c' = device_conf c'
    /\ forall p, apart p ["device"; "cache"] ->
                 get_path (device_conf c') p
                 = get_path (_device_conf conf_v6_custom_cache) p.
Proof. apply (dump_v6_resets_cache conf_v6_custom_cache); reflexivity. Defined.

Example dump_conf_v6_bytes :
  content (conf_file_wrapper (snd (dump_rafs_conf conf_v6_custom_cache)))
  = json_dumps
      (PObj [("device",
              PObj [("backend", PObj [("type", PStr "oss"); ("config", PObj [])]);
                    ("cache",
                     PObj [("type", PStr "blobcache");
                           ("config", PObj [("work_dir", PStr "/work/blobcache")]);
                           ("compressed", PBool false)])]);
             ("mode", PStr "direct");
             ("iostats_files", PBool false);
             ("fs_prefetch", PObj [("enable", PBool false)])]).
Proof. vm_compute. reflexivity. Qed.

(** ** Invariants of monadic code *)

Section Preserved.

Context {S : Type} (P : S -> Prop).

Lemma preserved_bind {A B} (m : M S A) (k : A -> M S B) :
  preserved P m -> (forall a, preserved P (k a)) -> preserved P (bind m k).
Proof.
  intros Hm Hk s Hs. specialize (Hm s Hs). unfold bind.
  destruct (m s) as [[a|e] s']; simpl in *; [now apply Hk|assumption].
Qed.

Lemma preserved_ret {A} (a : A) : preserved P (ret a).
Proof. intros s Hs. exact Hs. Qed.

Lemma preserved_raise {A} (e : exn) : preserved P (@raise S A e).
Proof. intros s Hs. exact Hs. Qed.

Lemma preserved_gets {A} (f : S -> A) : preserved P (gets f).
Proof. intros s Hs. exact Hs. Qed.

Lemma preserved_lift {A} (r : res A) : preserved P (lift r).
Proof. intros s Hs. exact Hs. Qed.

Lemma preserved_when b (m : M S unit) : preserved P m -> preserved P (when b m).
Proof. destruct b; [auto|]. intros _. apply preserved_ret. Qed.

Lemma preserved_modify (f : S -> S) :
  (forall s, P s -> P (f s)) -> preserved P (modify f).
Proof. intros Hf s Hs. now apply Hf. Qed.

Lemma preserved_try_pass (m : M S unit) handled :
  preserved P m -> preserved P (try_pass m handled).
Proof.
  intros Hm s Hs. specialize (Hm s Hs). unfold try_pass.
  destruct (m s) as [[[]|e] s']; simpl in *; [assumption|].
  destruct (handled e); assumption.
Qed.

Lemma preserved_assert b : preserved P (assert_ b).
Proof. destruct b; [apply preserved_ret|apply preserved_raise]. Qed.

End Preserved.

(** ** The shape is an invariant *)

Lemma keeps_bind {A B} (m : M RafsConf A) (k : A -> M RafsConf B) :
  keeps m -> (forall a, keeps (k a)) -> keeps (bind m k).
Proof. apply preserved_bind. Qed.

Lemma keeps_ret {A} (a : A) : keeps (ret a).
Proof. apply preserved_ret. Qed.

Lemma keeps_gets {A} (f : RafsConf -> A) : keeps (gets f).
Proof. apply preserved_gets. Qed.

Lemma keeps_lift {A} (r : res A) : keeps (lift r).
Proof. apply preserved_lift. Qed.

Lemma keeps_when b (m : M RafsConf unit) : keeps m -> keeps (when b m).
Proof. apply preserved_when. Qed.

Lemma keeps_modify (f : RafsConf -> RafsConf) :
  (forall c, _device_conf (f c) = _device_conf c) -> keeps (modify f).
Proof.
  intros Hf. apply preserved_modify. intros c Hc.
  unfold conf_shape in *. now rewrite Hf.
Qed.

Lemma keeps_log lv msg args : keeps (log lv msg args).
Proof. apply keeps_modify. reflexivity. Qed.

Lemma keeps_configure k v :
  keeps_shape (split_dots k) = true -> keeps (_configure_rafs k v).
Proof.
  intros Hk c Hc. unfold _configure_rafs.
  destruct (split_dots k) as [|k0 rest]; [exact Hc|].
  destruct (set_path (_device_conf c) k0 rest v) as [d|e] eqn:Hs; [|exact Hc].
  exact (conf_shape_set c k0 rest v d Hc Hk Hs).
Qed.

Lemma keeps_set_conf_attr k v :
  keeps_shape [k] = true -> keeps (set_conf_attr k v).
Proof.
  intros Hk c Hc. unfold set_conf_attr.
  destruct (setattr (_device_conf c) k v) as [d|e] eqn:Hs; [|exact Hc].
  exact (conf_shape_set c k [] v d Hc Hk Hs).
Qed.

Lemma keeps_enable_rafs_blobcache ic wd : keeps (enable_rafs_blobcache ic wd).
Proof.
  intros c Hc. unfold enable_rafs_blobcache.
  destruct (set_path _ _ _ _) as [d|e] eqn:Hs; [|exact Hc].
  exact (conf_shape_set c "device" ["cache"] _ d Hc eq_refl Hs).
Qed.

Ltac keeps_tac :=
  repeat first
    [ apply keeps_bind; [|intros ?]
    | apply keeps_when
    | apply keeps_ret
    | apply keeps_gets
    | apply keeps_lift
    | apply keeps_log
    | apply keeps_enable_rafs_blobcache
    | apply keeps_configure; reflexivity
    | apply keeps_set_conf_attr; reflexivity
    | apply keeps_modify; reflexivity ].

Lemma keeps_set_rafs_backend b kwargs : keeps (set_rafs_backend b kwargs).
Proof.
  unfold set_rafs_backend. keeps_tac.
  - destruct (kwargs !! "repo"); keeps_tac.
  - destruct (kwargs !! "prefix"); keeps_tac.
  - destruct (kwargs !! "image"); keeps_tac.
Qed.

Lemma keeps_dump_rafs_conf : keeps dump_rafs_conf.
Proof.
  unfold dump_rafs_conf. keeps_tac.
Qed.

(** The constructor gives the configuration its shape. *)
Lemma conf_shape_init a getenv_mode : conf_shape (RafsConf_init a getenv_mode) = true.
Proof. reflexivity. Qed.

(** Every method keeps the shape, whether it returns or raises. *)
Lemma keeps_run_call call : keeps (run_call call).
Proof.
  destruct call; simpl;
    [ apply keeps_set_rafs_backend | .. | apply keeps_dump_rafs_conf ];
    unfold set_registry_repo, enable_files_iostats, enable_latest_read_files,
      enable_access_pattern, enable_fs_prefetch, enable_validation, amplify_io,
      rafs_mem_mode, enable_xattr; keeps_tac.
  destruct (fs_version a =? 6)%Z; keeps_tac.
Qed.

(** X1: the shape of the configuration is an invariant of the class: the
    constructor gives it, and every method keeps it whether it returns or
    raises, so every configuration a test can reach has [device],
    [device.backend], [device.backend.config] and [fs_prefetch] as
    objects. *)
Theorem conf_shape_reachable a getenv_mode calls :
  conf_shape (run_calls calls (RafsConf_init a getenv_mode)) = true.
Proof.
  unfold run_calls.
  generalize (conf_shape_init a getenv_mode).
  generalize (RafsConf_init a getenv_mode).
  induction calls as [|call calls IH]; intros c Hc; simpl; [exact Hc|].
  apply IH. now apply keeps_run_call.
Qed.

(** ** The mount loop *)

Section DaemonFacts.

Variable W : Type.
Variable run_daemon : W -> W.
Variable test_fn : string -> W -> bool * W.
Variable poll : W -> option Z * W.
Variable sleep : W -> W.

(** [elapsed] starts at 0 and only decreases, so the loop is never left
    through its condition: no run reports the time-out. *)
Lemma wait_loop_no_timeout fuel : forall elapsed st st',
  (elapsed <= 0)%Z ->
  wait_loop W test_fn poll sleep fuel elapsed st
  <> Some (Raise (Failed "mountpoint failed to come up"), st').
Proof.
  induction fuel as [|fuel IH]; intros elapsed st st' Hle; simpl; [discriminate|].
  destruct (Z.ltb_spec elapsed 300) as [_|Hge]; [|lia].
  destruct (test_fn (mountpoint st) (world st)) as [ready w1].
  destruct ready; [discriminate|].
  destruct (has_p st); simpl; [|discriminate].
  destruct (poll w1) as [[code|] w2]; [discriminate|].
  apply IH. lia.
Qed.

End DaemonFacts.

Lemma dump_rafs_conf_ok c :
  conf_shape c = true -> exists c', dump_rafs_conf c = (Ok tt, c').
Proof.
  intros Hc. destruct (Z.eq_dec (fs_version (anchor c)) 6) as [Hv|Hv].
  - destruct (dump_rafs_conf_v6_shape c Hv (conf_shape_device c Hc)) as (d & _ & H).
    eauto.
  - rewrite (dump_rafs_conf_not_v6 c Hv). eauto.
Qed.

Lemma script_after_0 w : script_after 0 w = w.
Proof. destruct w; reflexivity. Qed.

Lemma with_world_same {W} (st : DaemonState W) : with_world W (world st) st = st.
Proof. destruct st; reflexivity. Qed.

(** [n] rounds in which the probe says no and the process is alive. *)
Lemma script_rounds n : forall fuel elapsed (st : DaemonState Script),
  (elapsed < 300)%Z ->
  has_p st = true ->
  (forall j, j < n -> probe_script (world st) (j + probes (world st)) = false) ->
  (forall j, j < n -> poll_script (world st) (j + polls (world st)) = None) ->
  wait_loop Script script_test_fn script_poll script_sleep (n + fuel) elapsed st
  = wait_loop Script script_test_fn script_poll script_sleep fuel
              (elapsed - Z.of_nat n)
              (with_world Script (script_after n (world st)) st).
Proof.
  induction n as [|n IH]; intros fuel elapsed st He Hp Hprobe Hpoll.
  - rewrite script_after_0, with_world_same. simpl. f_equal. lia.
  - change (S n + fuel) with (S (n + fuel)). cbn [wait_loop].
    destruct (Z.ltb_spec elapsed 300) as [_|]; [|lia].
    pose proof (Hprobe 0 ltac:(lia)) as H0. pose proof (Hpoll 0 ltac:(lia)) as H1.
    simpl in H0, H1.
    unfold script_test_fn at 1. rewrite H0, Hp. cbn [negb].
    unfold script_poll at 1. cbn [probes polls poll_script]. rewrite H1.
    rewrite IH; cbn [world with_world has_p script_sleep probe_script poll_script
                     probes polls];
      [ | lia | exact Hp
        | intros j Hj; rewrite <- Nat.add_succ_comm; apply Hprobe; lia
        | intros j Hj; rewrite <- Nat.add_succ_comm; apply Hpoll; lia ].
    f_equal; [lia|].
    unfold with_world, script_after; cbn. f_equal. f_equal; lia.
Qed.

(** What [mount] has done when it reaches the loop: the configuration is
    dumped, the daemon is launched, [p] is assigned. *)
Lemma mount_reaches_loop fuel dump_config (st : DaemonState Script) :
  (forall c, conf st = Some c -> conf_shape c = true) ->
  exists st2,
    script_mount fuel true dump_config st
    = match script_wait fuel st2 with
      | Some (Ok _, st3) => Some (Ok tt, st3)
      | Some (Raise e, st3) => Some (Raise e, st3)
      | None => None
      end
    /\ has_p st2 = true
    /\ mountpoint st2 = mountpoint st
    /\ world st2 = script_run (world st).
Proof.
  intros Hc. unfold script_mount, mount.
  destruct (conf st) as [c|] eqn:Hconf.
  - destruct dump_config.
    + destruct (dump_rafs_conf_ok c (Hc c eq_refl)) as [c' ->].
      eexists. split; [reflexivity|]. repeat split.
    + eexists. split; [reflexivity|]. repeat split.
  - eexists. split; [reflexivity|]. repeat split.
Qed.



(** C4: when the daemon has exited by the poll of round [n], and no probe
    up to that round has seen the mountpoint, [mount] fails with "file
    system process terminated prematurely" in that very round; any [n] will
    do, so also one long before 300 rounds. *)
Theorem mount_process_terminated (n : nat) (code : Z) (fuel : nat)
    (dump_config : bool) (st : DaemonState Script) :
  (forall c, conf st = Some c -> conf_shape c = true) ->
  (forall j, j <= n -> probe_script (world st) (j + probes (world st)) = false) ->
  (forall j, j < n -> poll_script (world st) (j + polls (world st)) = None) ->
  poll_script (world st) (n + polls (world st)) = Some code ->
  n < fuel ->
  exists st',
    script_mount fuel true dump_config st
    = Some (Raise (Failed "file system process terminated prematurely"), st')
    /\ script_mount fuel true dump_config st
       <> Some (Raise (Failed "mountpoint failed to come up"), st')
    /\ probes (world st') = S n + probes (world st)
    /\ polls (world st') = S n + polls (world st).
Proof.
  intros Hc Hprobe Hpoll Hexit Hfuel.
  cut (exists st',
         script_mount fuel true dump_config st
         = Some (Raise (Failed "file system process terminated prematurely"), st')
         /\ probes (world st') = S n + probes (world st)
         /\ polls (world st') = S n + polls (world st)).
  { intros (st' & -> & H). exists st'. split; [reflexivity|].
    split; [discriminate|exact H]. }
  destruct (mount_reaches_loop fuel dump_config st Hc) as (st2 & -> & Hp & _ & Hw).
  unfold script_wait, _wait_for_mount.
  replace fuel with (n + S (fuel - S n)) by lia.
  rewrite (script_rounds n); rewrite ?Hw; try assumption;
    [|lia|intros j Hj; apply Hprobe; lia].
  cbn [wait_loop].
  destruct (Z.ltb_spec (0 - Z.of_nat n) 300) as [_|]; [|lia].
  unfold script_test_fn at 1.
  cbn [world with_world script_after probe_script probes script_run].
  pose proof (Hprobe n (le_n n)) as Hno.
  cbn [script_run probe_script probes] in Hno. rewrite Hno.
  cbn [has_p with_world]. rewrite Hp. cbn [negb].
  unfold script_poll at 1.
  cbn [world with_world script_after script_run poll_script polls].
  rewrite Hexit.
  eexists. split; [reflexivity|]. split; reflexivity.
Qed.

Lemma mount_process_terminated_witness :
  exists st',
    script_mount 1 true true (daemon_on (Some conf_v6) world_exits_at_once)
    = Some (Raise (Failed "file system process terminated prematurely"), st')
    /\ script_mount 1 true true (daemon_on (Some conf_v6) world_exits_at_once)
       <> Some (Raise (Failed "mountpoint failed to come up"), st')
    /\ probes (world st')
       = 1 + probes (world (daemon_on (Some conf_v6) world_exits_at_once))
    /\ polls (world st')
       = 1 + polls (world (daemon_on (Some conf_v6) world_exits_at_once)).
Proof.
  apply (mount_process_terminated 0 1 1 true
           (daemon_on (Some conf_v6) world_exits_at_once)).
  - intros c [= <-]. reflexivity.
  - intros j _. reflexivity.
  - intros j Hj. lia.
  - reflexivity.
  - lia.
Defined.

(** With the probe that first says yes at its call number 2, [mount]
    returns after three probes and two polls. *)
Example mount_ready_at_2 :
  exists st',
    script_mount 3 true true (daemon_on (Some conf_v6) world_ready_at_2)
    = Some (Ok tt, st')
    /\ probes (world st') = 3 /\ polls (world st') = 2 /\ sleeps (world st') = 2.
Proof. eexists. split; [vm_compute; reflexivity|]. repeat split. Qed.

(** A daemon that stays alive under a probe that never says yes keeps the
    loop going for ever. *)
Lemma script_wait_never fuel (st : DaemonState Script) :
  has_p st = true ->
  (forall j, probe_script (world st) j = false) ->
  (forall j, poll_script (world st) j = None) ->
  script_wait fuel st = None.
Proof.
  intros Hp Hprobe Hpoll. unfold script_wait, _wait_for_mount.
  pose proof (script_rounds fuel 0 0 st ltac:(lia) Hp
                (fun j _ => Hprobe _) (fun j _ => Hpoll _)) as H.
  rewrite Nat.add_0_r in H. rewrite H. reflexivity.
Qed.

(** C1 asks that [mount] fail with a time-out once the probe has said no
    for the whole budget of 300.  The code does not: with a daemon that
    stays alive and a probe that never says yes, [mount] is still in the
    loop after any number of rounds; it neither returns nor fails. *)
Theorem mount_never_ready_diverges (fuel : nat) :
  script_mount fuel true true (daemon_on None world_never_ready) = None.
Proof.
  destruct (mount_reaches_loop fuel true (daemon_on None world_never_ready))
    as (st2 & -> & Hp & _ & Hw); [discriminate|].
  rewrite (script_wait_never fuel st2 Hp); [reflexivity| |];
    intros j; rewrite Hw; reflexivity.
Qed.

Lemma dump_rafs_conf_raises c e c' :
  dump_rafs_conf c = (Raise e, c') -> e = AttributeError.
Proof.
  destruct (Z.eq_dec (fs_version (anchor c)) 6) as [Hv|Hv].
  - destruct (set_path (_device_conf c) "device" ["cache"]
                (blobcache_namespace (anchor c) false PNone)) as [d|e0] eqn:Hs.
    + rewrite (dump_rafs_conf_v6 c d Hv Hs). discriminate.
    + rewrite (dump_rafs_conf_v6_raise c e0 Hv Hs). congruence.
  - rewrite (dump_rafs_conf_not_v6 c Hv). discriminate.
Qed.

(** X9: no run of [mount], in any world, with any probe and any
    configuration, ends in the failure "mountpoint failed to come up": the
    statement after the loop is never reached. *)
Lemma mount_no_timeout (W : Type) (run_daemon : W -> W)
    (test_fn : string -> W -> bool * W) (poll : W -> option Z * W)
    (sleep : W -> W) fuel wait_mount dump_config (st st' : DaemonState W) :
  mount W run_daemon test_fn poll sleep fuel wait_mount dump_config st
  <> Some (Raise (Failed "mountpoint failed to come up"), st').
Proof.
  unfold mount.
  assert (Hwait : forall st2,
    match _wait_for_mount W test_fn poll sleep fuel st2 with
    | Some (Ok _, st3) => Some (Ok tt, st3)
    | Some (Raise e, st3) => Some (Raise e, st3)
    | None => None
    end <> Some (Raise (Failed "mountpoint failed to come up"), st')).
  { intros st2. unfold _wait_for_mount.
    destruct (wait_loop W test_fn poll sleep fuel 0 st2) as [[[b|e] st3]|] eqn:Hw;
      try discriminate.
    intros [= -> ->].
    exact (wait_loop_no_timeout W test_fn poll sleep fuel 0 st2 st' ltac:(lia) Hw). }
  destruct (conf st) as [c|].
  - destruct dump_config.
    + destruct (dump_rafs_conf c) as [[[]|e] c'] eqn:Hd.
      * destruct wait_mount; [apply Hwait|discriminate].
      * apply dump_rafs_conf_raises in Hd as ->. discriminate.
    + destruct wait_mount; [apply Hwait|discriminate].
  - destruct wait_mount; [apply Hwait|discriminate].
Qed.

(** ** Building an image *)

(** Running the first steps of a method on a given state. *)
Ltac run_step :=
  match goal with
  | |- context [bind (ret tt) ?k ?s] =>
      change (bind (ret tt) k s) with (k tt s); cbv beta
  | |- context [bind (gets ?f) ?k ?s] =>
      change (bind (gets f) k s) with (k (f s) s); cbv beta
  | |- context [bind (modify ?f) ?k ?s] =>
      change (bind (modify f) k s) with (k tt (f s)); cbv beta
  | |- context [bind (os_path_exists ?p) ?k ?s] =>
      change (bind (os_path_exists p) k s)
        with (k (bool_decide (p ∈ files s)) s); cbv beta
  | |- context [bind (assert_ true) ?k ?s] =>
      change (bind (assert_ true) k s) with (k tt s); cbv beta
  | |- context [bind (assert_ false) ?k ?s] =>
      change (bind (assert_ false) k s) with (@Raise unit AssertionError, s)
  end.

(** A property of the image object alone is kept by everything that acts
    on the world around it. *)
Section SelfOnly.

Variable Q : RafsImage -> Prop.

Lemma preserved_attr {A} (f : RafsImage -> option A) :
  preserved (fun st : ImageState => Q (self st)) (attr f).
Proof. intros st H. unfold attr. destruct (f (self st)); exact H. Qed.

Lemma preserved_os_unlink p :
  preserved (fun st : ImageState => Q (self st)) (os_unlink p).
Proof. intros st H. unfold os_unlink. destruct (bool_decide _); exact H. Qed.

Lemma preserved_shutil_copy a b :
  preserved (fun st : ImageState => Q (self st)) (shutil_copy a b).
Proof. intros st H. unfold shutil_copy. destruct (bool_decide _); exact H. Qed.

Lemma preserved_put_dustbin p :
  preserved (fun st : ImageState => Q (self st)) (put_dustbin p).
Proof. intros st H. exact H. Qed.

Lemma preserved_image_log lv msg args :
  preserved (fun st : ImageState => Q (self st)) (image_log lv msg args).
Proof. intros st H. exact H. Qed.

Lemma preserved_oss_call f :
  preserved (fun st : ImageState => Q (self st)) (modify (with_oss_calls f)).
Proof. intros st H. exact H. Qed.

Lemma preserved_with_self f :
  (forall i, Q i -> Q (f i)) ->
  preserved (fun st : ImageState => Q (self st)) (modify (with_self f)).
Proof. intros Hf st H. apply Hf, H. Qed.

End SelfOnly.

Ltac self_only Q :=
  repeat first
    [ apply preserved_bind; [|intros ?]
    | apply preserved_when
    | apply preserved_try_pass
    | apply preserved_ret
    | apply preserved_gets
    | apply preserved_lift
    | apply (preserved_attr Q)
    | apply (preserved_os_unlink Q)
    | apply (preserved_shutil_copy Q)
    | apply (preserved_put_dustbin Q)
    | apply (preserved_image_log Q)
    | apply (preserved_oss_call Q)
    | apply (preserved_with_self Q); intros ? ?; assumption
    | match goal with
      | |- preserved _ (match ?x with _ => _ end) => destruct x
      end ].

(** [RafsImage.set_backend] checks nothing either: for the remote backends
    it returns whatever the anchor holds. *)
Lemma set_backend_unchecked (type : Backend) (kwargs : gmap string pyval)
    (st : ImageState) :
  is_Some (blob_abs_path (self st)) -> type <> LOCALFS ->
  exists st',
    set_backend type kwargs st = (Ok tt, st')
    /\ backend_type (self st') = Some type.
Proof.
  intros [blob Hb] Hty. unfold set_backend. do 2 run_step.
  destruct type; [| |contradiction|]; unfold bind, attr, set_param, modify;
    cbn [self with_self Img.set_backend_type blob_abs_path]; rewrite Hb;
    eexists; (split; [reflexivity|reflexivity]).
Qed.

Example set_backend_oss_without_fields :
  fst (set_backend OSS ∅ (image_new bare_anchor)) = Ok tt
  /\ oss_helper (self (snd (set_backend OSS ∅ (image_new bare_anchor))))
     = Some (mkOssHelper PNone PNone PNone PNone PNone).
Proof. split; vm_compute; reflexivity. Qed.

(** C8: [create_image] marks the image created exactly when the uploader is
    one of the three allowed, the builder has exited with status 0 and the
    bootstrap exists afterwards; otherwise it fails with [AssertionError]
    and [created] is what it was. *)
Theorem create_image_checks (json_load : string -> res pyval)
    (clear_from_oss_arg : bool) (oss_uploader_arg : string) (run : BuilderRun)
    (st : ImageState) :
  let result := create_image json_load clear_from_oss_arg oss_uploader_arg run st in
  if string_in oss_uploader_arg ["util"; "builder"; "none"]
     && (returncode run =? 0)%Z
     && bool_decide (path_join (test_dir (self st)) (bootstrap_name (self st))
                     ∈ files_after run)
  then created (self (snd result)) = true
  else fst result = Raise AssertionError
       /\ created (self (snd result)) = created (self st).
Proof.
  cbv zeta. unfold create_image. do 2 run_step.
  destruct (string_in oss_uploader_arg ["util"; "builder"; "none"]);
    [|run_step; split; reflexivity].
  do 2 run_step.
  destruct (returncode run =? 0)%Z; [|run_step; split; reflexivity].
  do 3 run_step. cbn [files with_files with_self self test_dir bootstrap_name
                      Img.set_oss_uploader Img.set_clear_from_oss].
  destruct (bool_decide _); [|run_step; split; reflexivity].
  do 2 run_step. cbn [andb].
  match goal with
  | |- created (self (snd (?m ?s))) = true =>
      apply (fun H : preserved (fun st => created (self st) = true) m => H s)
  end; [|reflexivity].
  self_only (fun i => created i = true).
Qed.

Ltac run_lift :=
  match goal with
  | |- context [bind (lift (Ok ?a)) ?k ?s] =>
      change (bind (lift (Ok a)) k s) with (k a s); cbv beta
  | |- context [bind (@lift ?S ?A (Raise ?e)) ?k ?s] =>
      change (bind (@lift S A (Raise e)) k s) with (@Raise unit e, s)
  end.

(** C7, as the code has it: once the builder has passed the two checks,
    [blob_id] is [json.load(output)["blobs"][-1]], read without any check of
    the document.  [create_image] fails with the decoder's exception when
    the output does not decode, with the exception of the subscript when the
    document has no ["blobs"] entry, and with [IndexError] when the entry is
    an empty list; when the entry is a non-empty list its last element is
    kept, whatever happens to the blob afterwards.  An entry that is not a
    list is subscripted all the same: of a non-empty string the last
    character is kept, and the build goes on. *)
Theorem create_image_blob_id (json_load : string -> res pyval)
    (clear_from_oss_arg : bool) (oss_uploader_arg : string) (run : BuilderRun)
    (st : ImageState) :
  string_in oss_uploader_arg ["util"; "builder"; "none"] = true ->
  returncode run = 0%Z ->
  path_join (test_dir (self st)) (bootstrap_name (self st)) ∈ files_after run ->
  let result := create_image json_load clear_from_oss_arg oss_uploader_arg run st in
  match json_load (output_json run) with
  | Raise e => fst result = Raise e
  | Ok doc =>
      match subscript_str doc "blobs" with
      | Raise e => fst result = Raise e
      | Ok (PList l) =>
          match last l with
          | Some b => blob_id (self (snd result)) = b
          | None => fst result = Raise IndexError
          end
      | Ok blobs =>
          match subscript_last blobs with
          | Ok b => blob_id (self (snd result)) = b
          | Raise e => fst result = Raise e
          end
      end
  end.
Proof.
  intros Hup Hrc Hboot. cbv zeta. unfold create_image. do 2 run_step.
  rewrite Hup. do 2 run_step. rewrite Hrc. change (0 =? 0)%Z with true.
  do 3 run_step.
  cbn [files with_files with_self self test_dir bootstrap_name
       Img.set_oss_uploader Img.set_clear_from_oss].
  rewrite (bool_decide_eq_true_2 _ Hboot). do 2 run_step.
  assert (Hkept : forall b (m : M ImageState unit) s,
            blob_id (self s) = b ->
            preserved (fun st => blob_id (self st) = b) m ->
            blob_id (self (snd (m s))) = b).
  { intros b m s Hs Hm. exact (Hm s Hs). }
  destruct (json_load (output_json run)) as [doc|e]; run_lift; [|reflexivity].
  destruct (subscript_str doc "blobs") as [blobs|e]; run_lift; [|reflexivity].
  destruct blobs as [| | | |l|kvs];
    try (cbn [subscript_last]; run_lift; reflexivity).
  - cbn [subscript_last].
    destruct (last_char s) as [c|]; run_lift; [|reflexivity].
    run_step. apply Hkept; [reflexivity|].
    self_only (fun i => blob_id i = PStr (String c "")).
  - cbn [subscript_last].
    destruct (last l) as [b|]; run_lift; [|reflexivity].
    run_step. apply Hkept; [reflexivity|].
    self_only (fun i => blob_id i = b).
Qed.

Lemma create_image_blob_id_witness :
  blob_id (self (snd (create_image json_load_fixture true "util" builder_ok
                                   (image_fresh LOCALFS))))
  = PStr "blob-b".
Proof.
  apply (create_image_blob_id json_load_fixture true "util" builder_ok
           (image_fresh LOCALFS)).
  - reflexivity.
  - reflexivity.
  - apply (bool_decide_unpack _). vm_compute. exact I.
Defined.

(** C7 asks that the build fail when the builder's output is malformed.
    The code does not check the document: with an output that decodes to an
    object whose ["blobs"] entry is the string ["xyz"] instead of a list,
    [create_image] returns normally and keeps ["z"] as the identifier. *)
Lemma create_image_accepts_string_blobs :
  json_load_string_blobs (output_json builder_string_blobs)
  = Ok (PObj [("blobs", PStr "xyz")])
  /\ fst (create_image json_load_string_blobs true "util" builder_string_blobs
                       (image_fresh REGISTRY)) = Ok tt
  /\ blob_id (self (snd (create_image json_load_string_blobs true "util"
                                      builder_string_blobs
                                      (image_fresh REGISTRY))))
     = PStr "z".
Proof. repeat split; vm_compute; reflexivity. Qed.

(** The three ways the fixture builders fail, and the document without a
    blob. *)
Example create_image_failures :
  fst (create_image json_load_fixture true "util" builder_exit_1
                    (image_fresh OSS)) = Raise AssertionError
  /\ fst (create_image json_load_fixture true "util" builder_no_bootstrap
                       (image_fresh OSS)) = Raise AssertionError
  /\ fst (create_image json_load_fixture true "util" builder_no_blob
                       (image_fresh OSS)) = Raise IndexError
  /\ fst (create_image json_load_fixture true "util"
                       (mkBuilderRun 0 (files_after builder_ok) "not json")
                       (image_fresh OSS)) = Raise JSONDecodeError.
Proof. repeat split; vm_compute; reflexivity. Qed.

(** ** Cleaning up *)

Lemma post_ok_bind {S A B} (m : M S A) (k : A -> M S B) (Q : S -> Prop) :
  (forall a, post_ok (k a) Q) -> post_ok (bind m k) Q.
Proof.
  intros Hk s b s'. unfold bind.
  destruct (m s) as [[a|e] s1]; [apply Hk|discriminate].
Qed.

Lemma post_ok_establish {S} (f : S -> S) (k : M S unit) (Q : S -> Prop) :
  (forall s, Q (f s)) -> preserved Q k ->
  post_ok (bind (modify f) (fun _ => k)) Q.
Proof.
  intros Hf Hk s a s' H.
  change (bind (modify f) (fun _ => k) s) with (k (f s)) in H.
  specialize (Hk (f s) (Hf s)). now rewrite H in Hk.
Qed.

(** A build that returns has assigned [bootstrap_path]. *)
Lemma create_image_sets_bootstrap_path json_load clear up run :
  post_ok (create_image json_load clear up run)
          (fun st => is_Some (bootstrap_path (self st))).
Proof.
  unfold create_image.
  repeat first
    [ apply post_ok_establish; [solve [intros ?; cbn; eauto]|]
    | apply post_ok_bind; intros ? ].
  self_only (fun i => is_Some (bootstrap_path i)).
Qed.

(** [clean_up] assigns no attribute. *)
Lemma clean_up_leaves_self st : self (snd (clean_up st)) = self st.
Proof.
  apply (fun H : preserved (fun s => self s = self st) clean_up => H st eq_refl).
  unfold clean_up. self_only (fun i => i = self st).
Qed.

(** Files only go away during [clean_up]. *)
Section Absent.

Variable p : string.

Lemma absent_os_unlink q :
  preserved (fun st : ImageState => p ∉ files st) (os_unlink q).
Proof.
  intros st H. unfold os_unlink. destruct (bool_decide _); [|exact H].
  simpl. apply not_elem_of_difference. now left.
Qed.

Lemma absent_attr {A} (f : RafsImage -> option A) :
  preserved (fun st : ImageState => p ∉ files st) (attr f).
Proof. intros st H. unfold attr. destruct (f (self st)); exact H. Qed.

Lemma absent_oss_call f :
  preserved (fun st : ImageState => p ∉ files st) (modify (with_oss_calls f)).
Proof. intros st H. exact H. Qed.

Lemma absent_clean_up_tail (i : RafsImage) :
  preserved (fun st : ImageState => p ∉ files st)
    (match oss_blob_abs_path i with
     | Some _ => q <- attr blob_abs_path ;; os_unlink q
     | None => ret tt
     end ;;
     match localfs_backing_blob i with
     | Some q => try_pass (os_unlink q) is_FileNotFoundError
     | None => ret tt
     end ;;
     try_pass (q <- attr blob_abs_path ;; os_unlink q)
              (fun e => is_FileNotFoundError e || is_AttributeError e) ;;
     try_pass (q <- attr parent_blob ;; os_unlink q ;;
               r <- attr parent_bootstrap ;; os_unlink r)
              (fun e => is_FileNotFoundError e || is_AttributeError e) ;;
     try_pass
       (when (clear_from_oss i && backend_is (backend_type i) OSS)
          (_ <- attr oss_helper ;;
           modify (with_oss_calls (fun l => (l ++ [OssRm (blob_id i)])%list))))
       is_AttributeError).
Proof.
  repeat first
    [ apply preserved_bind; [|intros ?]
    | apply preserved_when
    | apply preserved_try_pass
    | apply preserved_ret
    | apply absent_attr
    | apply absent_os_unlink
    | apply absent_oss_call
    | match goal with
      | |- preserved _ (match ?x with _ => _ end) => destruct x
      end ].
Qed.

End Absent.

(** After [clean_up], returned or raised, the bootstrap is not there. *)
Lemma clean_up_removes_bootstrap st p :
  bootstrap_path (self st) = Some p -> p ∉ files (snd (clean_up st)).
Proof.
  intros Hp. unfold clean_up. run_step. rewrite Hp.
  unfold bind at 1. unfold os_unlink at 1.
  destruct (bool_decide (p ∈ files st)) eqn:Hin.
  - apply (absent_clean_up_tail p (self st)). simpl.
    apply not_elem_of_difference. right. now apply elem_of_singleton.
  - simpl. now apply bool_decide_eq_false in Hin.
Qed.

(** With [bootstrap_path] assigned and the file gone, [clean_up] raises at
    its first statement. *)
Lemma clean_up_absent st p :
  bootstrap_path (self st) = Some p -> p ∉ files st ->
  clean_up st = (Raise FileNotFoundError, st).
Proof.
  intros Hp Hout. unfold clean_up. run_step. rewrite Hp.
  unfold bind at 1. unfold os_unlink at 1.
  now rewrite (bool_decide_eq_false_2 _ Hout).
Qed.

(** C2 asks that a second [clean_up] in a row never raise.  The code does
    not keep to it: on every image that [create_image] has built, whatever
    the first [clean_up] did, the second one raises [FileNotFoundError] on
    the bootstrap that the first removed, and leaves the state as it was. *)
Theorem clean_up_twice_raises (json_load : string -> res pyval)
    (clear_from_oss_arg : bool) (oss_uploader_arg : string) (run : BuilderRun)
    (st st1 : ImageState) :
  create_image json_load clear_from_oss_arg oss_uploader_arg run st = (Ok tt, st1) ->
  clean_up (snd (clean_up st1)) = (Raise FileNotFoundError, snd (clean_up st1)).
Proof.
  intros Hbuilt.
  destruct (create_image_sets_bootstrap_path _ _ _ _ _ _ _ Hbuilt) as [p Hp].
  apply (clean_up_absent _ p).
  - now rewrite clean_up_leaves_self.
  - now apply clean_up_removes_bootstrap.
Qed.

Lemma clean_up_twice_raises_witness :
  clean_up (snd (clean_up (image_built REGISTRY)))
  = (Raise FileNotFoundError, snd (clean_up (image_built REGISTRY))).
Proof.
  apply (clean_up_twice_raises json_load_fixture true "util" builder_ok
           (image_fresh REGISTRY) (image_built REGISTRY)).
  vm_compute. reflexivity.
Defined.

(** On that image the first [clean_up] returns and removes the bootstrap
    and the blob; the second raises. *)
Example clean_up_built_image :
  fst (clean_up (image_built REGISTRY)) = Ok tt
  /\ elements (files (snd (clean_up (image_built REGISTRY)))) = ["/work/src"]
  /\ fst (clean_up (snd (clean_up (image_built REGISTRY))))
     = Raise FileNotFoundError.
Proof. repeat split; vm_compute; reflexivity. Qed.

(** * Further properties of [RafsConf] *)

(** Reading survives an assignment that does not go through the path read. *)
Lemma set_path_readable rest o k v o' p :
  set_path o k rest v = Ok o' ->
  readable o p = true ->
  (forall q, q <> [] -> p <> ((k :: rest) ++ q)%list) ->
  readable o' p = true.
Proof.
  intros Hs Hr Hn. unfold readable in *.
  destruct (decide (p `prefix_of` (k :: rest))) as [[q Hq]|Hp].
  - destruct q as [|x q].
    + rewrite app_nil_r in Hq. subst p.
      now rewrite (get_set_path _ _ _ _ _ Hs).
    + assert (Ho : obj_at o' p = true)
        by (apply (set_path_obj_prefix _ _ _ _ _ _ (x :: q) Hs Hq); discriminate).
      unfold obj_at in Ho. destruct (get_path o' p); [reflexivity|discriminate].
  - destruct (decide ((k :: rest) `prefix_of` p)) as [[q Hq]|Hp'].
    + destruct q as [|x q].
      * exfalso. apply Hp. rewrite Hq, app_nil_r. reflexivity.
      * exfalso. apply (Hn (x :: q)); [discriminate|exact Hq].
    + rewrite (set_path_frame _ _ _ _ _ _ Hs); [exact Hr|]. split; assumption.
Qed.

(** An assigned path that leads through [base ++ [f]] without being it is
    a prefix of [base]. *)
Lemma through_field (q base r : list string) (f : string) :
  r <> [] -> (base ++ [f] = q ++ r)%list -> q `prefix_of` base.
Proof.
  intros Hr Heq. destruct (exists_last Hr) as (r' & x & ->).
  rewrite app_assoc in Heq. apply app_inj_tail in Heq as [-> _].
  now exists r'.
Qed.

Section FieldsStay.

Variable f : string.

Lemma field_set_after_set c k rest v d :
  (field_set f) c ->
  bool_decide ((k :: rest) `prefix_of` ["device"; "backend"; "config"]) = false ->
  set_path (_device_conf c) k rest v = Ok d ->
  (field_set f) (with__device_conf d c).
Proof.
  intros Hc Hk Hs. unfold field_set in *. cbn [with__device_conf _device_conf].
  apply (set_path_readable _ _ _ _ _ _ Hs Hc).
  intros q Hq Heq. apply bool_decide_eq_false in Hk. apply Hk.
  exact (through_field _ ["device"; "backend"; "config"] q f Hq Heq).
Qed.

Lemma field_set_configure k v :
  match split_dots k with
  | [] => true
  | q => negb (bool_decide (q `prefix_of` ["device"; "backend"; "config"]))
  end = true ->
  preserved (field_set f) (_configure_rafs k v).
Proof.
  intros Hk c Hc. unfold _configure_rafs.
  destruct (split_dots k) as [|k0 rest]; [exact Hc|].
  destruct (set_path (_device_conf c) k0 rest v) as [d|e] eqn:Hs; [|exact Hc].
  apply negb_true_iff in Hk.
  exact (field_set_after_set c k0 rest v d Hc Hk Hs).
Qed.

Lemma field_set_set_conf_attr k v :
  String.eqb k "device" = false -> preserved (field_set f) (set_conf_attr k v).
Proof.
  intros Hk c Hc. unfold set_conf_attr.
  destruct (setattr (_device_conf c) k v) as [d|e] eqn:Hs; [|exact Hc].
  apply (field_set_after_set c k [] v d Hc); [|exact Hs].
  apply bool_decide_eq_false. intros Hp.
  apply prefix_cons_inv_1 in Hp. subst k. discriminate.
Qed.

Lemma field_set_enable_rafs_blobcache ic wd :
  preserved (field_set f) (enable_rafs_blobcache ic wd).
Proof.
  intros c Hc. unfold enable_rafs_blobcache.
  destruct (set_path _ _ _ _) as [d|e] eqn:Hs; [|exact Hc].
  exact (field_set_after_set c "device" ["cache"] _ d Hc eq_refl Hs).
Qed.

Lemma field_set_modify (g : RafsConf -> RafsConf) :
  (forall c, _device_conf (g c) = _device_conf c) -> preserved (field_set f) (modify g).
Proof.
  intros Hg. apply preserved_modify. intros c Hc.
  unfold field_set in *. now rewrite Hg.
Qed.

Ltac field_tac :=
  repeat first
    [ apply preserved_bind; [|intros ?]
    | apply preserved_when
    | apply preserved_ret
    | apply preserved_gets
    | apply preserved_lift
    | apply field_set_enable_rafs_blobcache
    | apply field_set_configure; reflexivity
    | apply field_set_set_conf_attr; reflexivity
    | apply field_set_modify; reflexivity ].

Lemma field_set_run_call call : preserved (field_set f) (run_call call).
Proof.
  destruct call; simpl;
    unfold set_rafs_backend, set_registry_repo, enable_files_iostats,
      enable_latest_read_files, enable_access_pattern, enable_fs_prefetch,
      enable_validation, amplify_io, rafs_mem_mode, enable_xattr, dump_rafs_conf,
      log;
    field_tac.
  - destruct (kwargs !! "repo"); field_tac.
  - destruct (kwargs !! "prefix"); field_tac.
  - destruct (kwargs !! "image"); field_tac.
  - destruct (fs_version a =? 6)%Z; field_tac.
Qed.

(** X3: no method of [RafsConf] removes a field of the backend's [config]
    object.  A field that can be read stays readable through any sequence of
    calls: moving to another backend adds and overwrites fields, and the
    fields of the backend that was configured before stay in the object,
    and so in the document that is dumped. *)
Theorem backend_fields_never_removed (calls : list ConfCall) (c : RafsConf) :
  readable (_device_conf c) (backend_field f) = true ->
  readable (_device_conf (run_calls calls c)) (backend_field f) = true.
Proof.
  unfold run_calls. revert c.
  induction calls as [|call calls IH]; intros c Hc; simpl; [exact Hc|].
  apply IH. exact (field_set_run_call call c Hc).
Qed.

End FieldsStay.

Lemma backend_fields_never_removed_witness :
  readable (_device_conf (run_calls to_registry_and_dump conf_v6_oss))
           (backend_field "endpoint") = true.
Proof.
  apply (backend_fields_never_removed "endpoint" to_registry_and_dump conf_v6_oss).
  reflexivity.
Defined.

(** The document dumped after the move from the object store to the
    registry: type ["registry"], with the object store's fields beside the
    registry's. *)
Example registry_after_oss_document :
  device_conf (run_calls to_registry_and_dump conf_v6_oss)
  = PObj [("device",
           PObj [("backend",
                  PObj [("type", PStr "registry");
                        ("config",
                         PObj [("endpoint", PStr "oss.example.com");
                               ("access_key_id", PStr "id");
                               ("access_key_secret", PStr "secret");
                               ("bucket_name", PStr "bucket");
                               ("scheme", PStr "http");
                               ("host", PStr "localhost:5000");
                               ("auth", PNone)])]);
                 ("cache",
                  PObj [("type", PStr "blobcache");
                        ("config", PObj [("work_dir", PStr "/work/blobcache")]);
                        ("compressed", PBool false)])]);
          ("mode", PStr "direct");
          ("iostats_files", PBool false);
          ("fs_prefetch", PObj [("enable", PBool false)])].
Proof. vm_compute. reflexivity. Qed.

(** X4: what [set_rafs_backend] wrote is what [get_rafs_backend] reads:
    after a call that returned, the backend type read back is the value of
    the enum member, except for [BACKEND_PROXY], which reads back as
    ["registry"]. *)
Theorem get_after_set_rafs_backend (b : Backend) (kwargs : gmap string pyval)
    (c c' : RafsConf) :
  conf_shape c = true ->
  set_rafs_backend b kwargs c = (Ok tt, c') ->
  get_rafs_backend c' = (Ok (PStr (backend_type_written b)), c').
Proof.
  intros Hc Hset.
  assert (Ht : get_path (_device_conf c') ["device"; "backend"; "type"]
               = Ok (PStr (backend_type_written b))).
  { destruct b.
    - destruct (set_rafs_backend_oss c kwargs Hc) as (c2 & R & _ & _ & T & _).
      rewrite R in Hset. injection Hset as <-. exact T.
    - destruct (kwargs !! "repo") as [repo|] eqn:Hk.
      + destruct (posixpath_join (registry_namespace (anchor c)) repo)
          as [j|e] eqn:Hj.
        * destruct (set_rafs_backend_registry c kwargs Hc)
            as (c2 & R & _ & _ & T & _).
          { intros repo' Hr. rewrite Hk in Hr. injection Hr as <-. eauto. }
          rewrite R in Hset. injection Hset as <-. exact T.
        * destruct (set_rafs_backend_registry_raise c kwargs repo e Hc Hk Hj)
            as (c2 & R).
          rewrite R in Hset. discriminate.
      + destruct (set_rafs_backend_registry c kwargs Hc)
          as (c2 & R & _ & _ & T & _).
        { intros repo' Hr. rewrite Hk in Hr. discriminate. }
        rewrite R in Hset. injection Hset as <-. exact T.
    - destruct (kwargs !! "image") as [image|] eqn:Hk.
      + destruct (getattr image "localfs_backing_blob") as [blob|e] eqn:Hb.
        * destruct (set_rafs_backend_localfs c kwargs Hc)
            as (c2 & R & _ & _ & T & _).
          { intros image' Hr. rewrite Hk in Hr. injection Hr as <-. eauto. }
          rewrite R in Hset. injection Hset as <-. exact T.
        * destruct (set_rafs_backend_localfs_raise c kwargs image e Hc Hk Hb)
            as (c2 & R).
          rewrite R in Hset. discriminate.
      + destruct (set_rafs_backend_localfs c kwargs Hc)
          as (c2 & R & _ & _ & T & _).
        { intros image' Hr. rewrite Hk in Hr. discriminate. }
        rewrite R in Hset. injection Hset as <-. exact T.
    - destruct (set_rafs_backend_proxy c kwargs Hc) as (c2 & R & _ & _ & T & _).
      rewrite R in Hset. injection Hset as <-. exact T. }
  unfold get_rafs_backend. run_ret. unfold lift. now rewrite Ht.
Qed.

Lemma get_after_set_rafs_backend_witness :
  get_rafs_backend (snd (set_rafs_backend BACKEND_PROXY ∅ conf_v6))
  = (Ok (PStr "registry"), snd (set_rafs_backend BACKEND_PROXY ∅ conf_v6)).
Proof.
  apply (get_after_set_rafs_backend BACKEND_PROXY ∅ conf_v6); reflexivity.
Defined.

(** X5: [enable_validation] does nothing at all under format version 6;
    under any other version it sets [digest_validate] to [True] and changes
    nothing apart from it. *)
Theorem enable_validation_unless_v6 (c : RafsConf) :
  conf_shape c = true ->
  if (fs_version (anchor c) =? 6)%Z
  then enable_validation c = (Ok tt, c)
  else exists c',
         enable_validation c = (Ok tt, c')
         /\ get_path (_device_conf c') ["digest_validate"] = Ok (PBool true)
         /\ anchor c' = anchor c
         /\ forall p, apart p ["digest_validate"] ->
                      get_path (_device_conf c') p = get_path (_device_conf c) p.
Proof.
  intros Hc. unfold enable_validation. run_ret.
  destruct (fs_version (anchor c) =? 6)%Z; [reflexivity|].
  conf_step "digest_validate" (PBool true) c "digest_validate" (@nil string) Hc c1.
  exists c1. auto.
Qed.

Lemma enable_validation_unless_v6_witness :
  exists c',
    enable_validation conf_v5 = (Ok tt, c')
    /\ get_path (_device_conf c') ["digest_validate"] = Ok (PBool true)
    /\ anchor c' = anchor conf_v5
    /\ forall p, apart p ["digest_validate"] ->
                 get_path (_device_conf c') p = get_path (_device_conf conf_v5) p.
Proof. apply (enable_validation_unless_v6 conf_v5). reflexivity. Defined.

Lemma apart_below (p q r : list string) : apart p q -> apart p (q ++ r).
Proof.
  intros [Hpq Hqp]. split; intros H.
  - destruct (prefix_weak_total p q (q ++ r) H (prefix_app_r q q r (reflexivity q)));
      contradiction.
  - apply Hqp. exact (prefix_app_l q p r H).
Qed.

(** X6: [enable_fs_prefetch] returns normally and leaves all five fields of
    [fs_prefetch] set to its arguments, with [enable] true; nothing apart
    from [fs_prefetch] changes. *)
Theorem enable_fs_prefetch_sets_all (threads_count merging_size bandwidth_rate : Z)
    (prefetch_all : bool) (c : RafsConf) :
  conf_shape c = true ->
  exists c',
    enable_fs_prefetch threads_count merging_size bandwidth_rate prefetch_all c
    = (Ok tt, c')
    /\ get_path (_device_conf c') ["fs_prefetch"; "enable"] = Ok (PBool true)
    /\ get_path (_device_conf c') ["fs_prefetch"; "threads_count"]
       = Ok (PInt threads_count)
    /\ get_path (_device_conf c') ["fs_prefetch"; "merging_size"]
       = Ok (PInt merging_size)
    /\ get_path (_device_conf c') ["fs_prefetch"; "bandwidth_rate"]
       = Ok (PInt bandwidth_rate)
    /\ get_path (_device_conf c') ["fs_prefetch"; "prefetch_all"]
       = Ok (PBool prefetch_all)
    /\ forall p, apart p ["fs_prefetch"] ->
                 get_path (_device_conf c') p = get_path (_device_conf c) p.
Proof.
  intros Hc.
  conf_step "fs_prefetch.enable" (PBool true) c
            "fs_prefetch" ["enable"] Hc c1.
  conf_step "fs_prefetch.threads_count" (PInt threads_count) c1
            "fs_prefetch" ["threads_count"] Hc0 c2.
  conf_step "fs_prefetch.merging_size" (PInt merging_size) c2
            "fs_prefetch" ["merging_size"] Hc1 c3.
  conf_step "fs_prefetch.bandwidth_rate" (PInt bandwidth_rate) c3
            "fs_prefetch" ["bandwidth_rate"] Hc2 c4.
  conf_step "fs_prefetch.prefetch_all" (PBool prefetch_all) c4
            "fs_prefetch" ["prefetch_all"] Hc3 c5.
  exists c5. split.
  { unfold enable_fs_prefetch.
    rewrite (bind_ok _ _ _ _ _ R), (bind_ok _ _ _ _ _ R0), (bind_ok _ _ _ _ _ R1),
      (bind_ok _ _ _ _ _ R2). exact R3. }
  split; [rewrite F3, F2, F1, F0 by apart_paths; exact G|].
  split; [rewrite F3, F2, F1 by apart_paths; exact G0|].
  split; [rewrite F3, F2 by apart_paths; exact G1|].
  split; [rewrite F3 by apart_paths; exact G2|].
  split; [exact G3|].
  intros p Hp.
  rewrite F3, F2, F1, F0, F
    by (apply (apart_below p ["fs_prefetch"] [_]); exact Hp).
  reflexivity.
Qed.

Lemma enable_fs_prefetch_sets_all_witness :
  exists c',
    enable_fs_prefetch 8 131072 0 false conf_v6 = (Ok tt, c')
    /\ get_path (_device_conf c') ["fs_prefetch"; "enable"] = Ok (PBool true)
    /\ get_path (_device_conf c') ["fs_prefetch"; "threads_count"] = Ok (PInt 8)
    /\ get_path (_device_conf c') ["fs_prefetch"; "merging_size"]
       = Ok (PInt 131072)
    /\ get_path (_device_conf c') ["fs_prefetch"; "bandwidth_rate"] = Ok (PInt 0)
    /\ get_path (_device_conf c') ["fs_prefetch"; "prefetch_all"]
       = Ok (PBool false)
    /\ forall p, apart p ["fs_prefetch"] ->
                 get_path (_device_conf c') p = get_path (_device_conf conf_v6) p.
Proof. apply (enable_fs_prefetch_sets_all 8 131072 0 false conf_v6). reflexivity. Defined.

(** X7: the repository given to the registry backend is joined to the
    anchor's namespace with [posixpath.join].  With both of them strings the
    call returns and [repo] holds the joined path; a repository that starts
    with a slash therefore replaces the namespace instead of extending it. *)
Theorem registry_repo_joined (c : RafsConf) (kwargs : gmap string pyval)
    (ns r : string) :
  conf_shape c = true ->
  registry_namespace (anchor c) = PStr ns ->
  kwargs !! "repo" = Some (PStr r) ->
  exists c',
    set_rafs_backend REGISTRY kwargs c = (Ok tt, c')
    /\ get_path (_device_conf c') (backend_field "repo") = Ok (PStr (path_join ns r))
    /\ (starts_with_slash r = true ->
        get_path (_device_conf c') (backend_field "repo") = Ok (PStr r)).
Proof.
  intros Hc Hns Hk.
  conf_step "device.backend.type" (PStr "registry") c
            "device" ["backend"; "type"] Hc c1.
  conf_step "device.backend.config.repo" (PStr (path_join ns r)) c1
            "device" ["backend"; "config"; "repo"] Hc0 c2.
  conf_step "device.backend.config.scheme"
            (match kwargs !! "scheme" with Some s => s | None => PStr "http" end) c2
            "device" ["backend"; "config"; "scheme"] Hc1 c3.
  conf_step "device.backend.config.host" (registry_url (anchor c3)) c3
            "device" ["backend"; "config"; "host"] Hc2 c4.
  conf_step "device.backend.config.auth" (registry_auth (anchor c3)) c4
            "device" ["backend"; "config"; "auth"] Hc3 c5.
  assert (Hrepo : get_path (_device_conf c5) (backend_field "repo")
                  = Ok (PStr (path_join ns r))).
  { unfold backend_field. rewrite F3, F2, F1 by apart_paths. exact G0. }
  exists c5. split; [|split; [exact Hrepo|]].
  - unfold set_rafs_backend. cbn [Backend_eqb Backend_str when].
    rewrite (bind_ok _ _ _ _ _ R). rewrite Hk.
    assert (Hr : (a <- gets anchor ;;
                  j <- lift (posixpath_join (registry_namespace a) (PStr r)) ;;
                  _configure_rafs "device.backend.config.repo" j) c1
                 = (Ok tt, c2)).
    { run_ret. unfold bind, lift. rewrite A, Hns. exact R0. }
    unfold bind at 1. unfold bind at 1. rewrite Hr.
    rewrite (bind_ok _ _ _ _ _ R1). run_ret.
    rewrite (bind_ok _ _ _ _ _ R2). rewrite R3. reflexivity.
  - intros Hslash. rewrite Hrepo. unfold path_join. now rewrite Hslash.
Qed.

Lemma registry_repo_joined_witness :
  exists c',
    set_rafs_backend REGISTRY {[ "repo" := PStr "/library/busybox" ]} conf_v6
    = (Ok tt, c')
    /\ get_path (_device_conf c') (backend_field "repo")
       = Ok (PStr (path_join "nydus" "/library/busybox"))
    /\ (starts_with_slash "/library/busybox" = true ->
        get_path (_device_conf c') (backend_field "repo")
        = Ok (PStr "/library/busybox")).
Proof.
  apply (registry_repo_joined conf_v6 {[ "repo" := PStr "/library/busybox" ]}
           "nydus" "/library/busybox"); reflexivity.
Defined.

(** X8: under a format version other than 6 the cache a caller has
    configured is the cache of the dumped document: [enable_rafs_blobcache]
    followed by [dump_rafs_conf] writes the work directory given (the
    anchor's when none is) and the compression flag, and leaves every other
    path as it was. *)
Theorem dump_keeps_configured_cache (is_compressed : bool) (work_dir : pyval)
    (c : RafsConf) :
  conf_shape c = true ->
  fs_version (anchor c) <> 6%Z ->
  exists c1 c2,
    enable_rafs_blobcache is_compressed work_dir c = (Ok tt, c1)
    /\ dump_rafs_conf c1 = (Ok tt, c2)
    /\ get_path (device_conf c2) ["device"; "cache"]
       = Ok (PObj [("type", PStr "blobcache");
                   ("config",
                    PObj [("work_dir",
                           match work_dir with
                           | PNone => blobcache_dir (anchor c)
                           | _ => work_dir
                           end)]);
                   ("compressed", PBool is_compressed)])
    /\ content (conf_file_wrapper c2) = json_dumps (device_conf c2)
    /\ forall p, apart p ["device"; "cache"] ->
                 get_path (device_conf c2) p = get_path (_device_conf c) p.
Proof.
  intros Hc Hv.
  destruct (set_path_ok ["cache"] (_device_conf c) "device"
              (blobcache_namespace (anchor c) is_compressed work_dir)
              (conf_shape_device c Hc)) as [d Hs].
  exists (with__device_conf d c). eexists.
  split; [unfold enable_rafs_blobcache; now rewrite Hs|].
  split; [exact (dump_rafs_conf_not_v6 (with__device_conf d c) Hv)|].
  unfold dumped; cbn [device_conf conf_file_wrapper content with__device_conf
                      _device_conf].
  split; [exact (get_set_path _ _ _ _ _ Hs)|]. split; [reflexivity|].
  intros p Hp. exact (set_path_frame _ _ _ _ _ _ Hs Hp).
Qed.

Lemma dump_keeps_configured_cache_witness :
  exists c1 c2,
    enable_rafs_blobcache true (PStr "/custom/cache") conf_v5 = (Ok tt, c1)
    /\ dump_rafs_conf c1 = (Ok tt, c2)
    /\ get_path (device_conf c2) ["device"; "cache"]
       = Ok (PObj [("type", PStr "blobcache");
                   ("config", PObj [("work_dir", PStr "/custom/cache")]);
                   ("compressed", PBool true)])
    /\ content (conf_file_wrapper c2) = json_dumps (device_conf c2)
    /\ forall p, apart p ["device"; "cache"] ->
                 get_path (device_conf c2) p = get_path (_device_conf conf_v5) p.
Proof.
  apply (dump_keeps_configured_cache true (PStr "/custom/cache") conf_v5).
  - reflexivity.
  - discriminate.
Defined.

(** * Further properties of [RafsImage] *)

(** [persist_blob], branch by branch. *)
Lemma persist_blob_run (st : ImageState) :
  persist_blob st
  = let i := self st in
    match backend_type i with
    | Some OSS =>
        if bool_decide (oss_uploader i = Some "util") then
          match oss_helper i, blob_abs_path i with
          | Some _, Some p =>
              (Ok tt, with_oss_calls
                        (fun l => (l ++ [OssUpload (PStr p) (blob_id i)])%list) st)
          | _, _ => (Raise AttributeError, st)
          end
        else (Ok tt, st)
    | Some BACKEND_PROXY =>
        match blob_abs_path i with
        | Some src =>
            match posixpath_join (backend_proxy_blobs_dir (image_anchor i))
                                 (blob_id i) with
            | Ok (PStr dst) =>
                if bool_decide (src ∈ files st)
                then (Ok tt, with_files (fun fs => fs ∪ {[dst]}) st)
                else (Raise FileNotFoundError, st)
            | Ok _ => (Raise TypeError, st)
            | Raise e => (Raise e, st)
            end
        | None => (Raise AttributeError, st)
        end
    | Some LOCALFS =>
        match posixpath_join (localfs_workdir (image_anchor i)) (blob_id i) with
        | Ok (PStr p) =>
            (Ok tt, with_self (Img.set_localfs_backing_blob (Some p)) st)
        | Ok _ => (Raise TypeError, st)
        | Raise e => (Raise e, st)
        end
    | _ => (Ok tt, st)
    end.
Proof.
  unfold persist_blob. run_step. cbv zeta.
  destruct (backend_type (self st)) as [[| | |]|]; try reflexivity.
  - unfold when. destruct (bool_decide _); [|reflexivity].
    unfold bind, attr, modify.
    destruct (oss_helper (self st)); [|reflexivity].
    destruct (blob_abs_path (self st)); reflexivity.
  - unfold bind, attr, lift, modify.
    destruct (posixpath_join _ _) as [[]|]; reflexivity.
  - unfold bind, attr, lift, shutil_copy.
    destruct (blob_abs_path (self st)); [|reflexivity].
    destruct (posixpath_join _ _) as [[]|]; reflexivity.
Qed.

Lemma registered_state_eq (st : ImageState) (oss_uploader_arg : string) :
  (put_dustbin (bootstrap_name (self st)) ;;
   try_pass (p <- attr blob_abs_path ;; put_dustbin p) is_AttributeError ;;
   try_pass (p <- attr localfs_backing_blob ;; put_dustbin p) is_AttributeError ;;
   when (String.eqb oss_uploader_arg "util") dump_image_summary) st
  = (Ok tt, registered_state st).
Proof.
  destruct st as [i fs d0 db oc lg].
  unfold registered_state, dustbin_entries, put_dustbin, bind, try_pass, attr,
    modify, when, dump_image_summary, ret, with_dustbin.
  cbn [self dustbin files cwd oss_calls image_logging].
  destruct (blob_abs_path i) as [p|];
    cbn [self dustbin files cwd oss_calls image_logging is_AttributeError
         option_list];
    destruct (localfs_backing_blob i) as [q|];
    cbn [self dustbin files cwd oss_calls image_logging is_AttributeError
         option_list];
    destruct (String.eqb oss_uploader_arg "util");
    cbn [app]; rewrite <- ?app_assoc; reflexivity.
Qed.

(** [create_image], station by station: where it stops and in which
    state. *)
Lemma create_image_run (json_load : string -> res pyval)
    (clear_from_oss_arg : bool) (oss_uploader_arg : string) (run : BuilderRun)
    (st : ImageState) :
  create_image json_load clear_from_oss_arg oss_uploader_arg run st
  = if negb (string_in oss_uploader_arg ["util"; "builder"; "none"]) then
      (Raise AssertionError, launched_state clear_from_oss_arg oss_uploader_arg st)
    else if negb ((returncode run =? 0)%Z
                  && bool_decide (path_join (test_dir (self st))
                                            (bootstrap_name (self st))
                                  ∈ files_after run)) then
      (Raise AssertionError, exited_state clear_from_oss_arg oss_uploader_arg run st)
    else
      let checked := checked_state clear_from_oss_arg oss_uploader_arg run st in
      match json_load (output_json run) with
      | Raise e => (Raise e, checked)
      | Ok doc =>
          match subscript_str doc "blobs" with
          | Raise e => (Raise e, checked)
          | Ok blobs =>
              match subscript_last blobs with
              | Raise e => (Raise e, checked)
              | Ok last_blob =>
                  match persist_blob
                          (recorded_state clear_from_oss_arg oss_uploader_arg
                                          run last_blob st) with
                  | (Ok _, st') => (Ok tt, registered_state st')
                  | (Raise e, st') => (Raise e, st')
                  end
              end
          end
      end.
Proof.
  unfold create_image. do 2 run_step.
  destruct (string_in oss_uploader_arg ["util"; "builder"; "none"]);
    [|run_step; reflexivity].
  do 2 run_step. cbn [negb].
  destruct (returncode run =? 0)%Z; [|run_step; reflexivity].
  do 3 run_step.
  cbn [files with_files with_self self test_dir bootstrap_name
       Img.set_oss_uploader Img.set_clear_from_oss andb].
  destruct (bool_decide _); [|run_step; reflexivity].
  do 2 run_step. cbn [negb]. cbv zeta.
  destruct (json_load (output_json run)) as [doc|e]; run_lift; [|reflexivity].
  destruct (subscript_str doc "blobs") as [blobs|e]; run_lift; [|reflexivity].
  destruct (subscript_last blobs) as [last_blob|e]; run_lift; [|reflexivity].
  unfold image_log. do 4 run_step.
  change (with_self _ (with_image_logging _ (with_self _ (with_self _ _))))
    with (recorded_state clear_from_oss_arg oss_uploader_arg run last_blob st).
  unfold bind at 1.
  destruct (persist_blob _) as [[[]|e] st'] eqn:Hp; [|reflexivity].
  assert (Hbn : bootstrap_name (self st') = bootstrap_name (self st)).
  { rewrite persist_blob_run in Hp. cbv zeta in Hp.
    destruct (backend_type _) as [[| | |]|]; try (injection Hp as <-; reflexivity).
    - destruct (bool_decide _); [|injection Hp as <-; reflexivity].
      destruct (oss_helper _); [|discriminate].
      destruct (blob_abs_path _); [|discriminate]. injection Hp as <-. reflexivity.
    - destruct (posixpath_join _ _) as [[]|]; try discriminate.
      injection Hp as <-. reflexivity.
    - destruct (blob_abs_path _); [|discriminate].
      destruct (posixpath_join _ _) as [[]|]; try discriminate.
      destruct (bool_decide _); [|discriminate]. injection Hp as <-. reflexivity. }
  cbn [bootstrap_name self with_self Img.set_oss_uploader Img.set_clear_from_oss].
  rewrite <- Hbn. apply registered_state_eq.
Qed.

(** What [persist_blob] leaves alone when it returns. *)
Lemma persist_blob_ok_frame (st st' : ImageState) :
  persist_blob st = (Ok tt, st') ->
  created (self st') = created (self st)
  /\ bootstrap_path (self st') = bootstrap_path (self st)
  /\ blob_abs_path (self st') = blob_abs_path (self st)
  /\ bootstrap_name (self st') = bootstrap_name (self st)
  /\ blob_id (self st') = blob_id (self st)
  /\ backend_type (self st') = backend_type (self st)
  /\ dustbin st' = dustbin st.
Proof.
  rewrite persist_blob_run. cbv zeta. intros Hp.
  destruct (backend_type (self st)) as [[| | |]|] eqn:Hb;
    try (injection Hp as <-; rewrite ?Hb; repeat split; reflexivity).
  - destruct (bool_decide _);
      [|injection Hp as <-; rewrite ?Hb; repeat split; reflexivity].
    destruct (oss_helper _); [|discriminate].
    destruct (blob_abs_path _) eqn:Hbl; [|discriminate]. injection Hp as <-.
    cbn. rewrite Hb, Hbl. repeat split; reflexivity.
  - destruct (posixpath_join _ _) as [[]|]; try discriminate.
    injection Hp as <-. cbn. rewrite Hb. repeat split; reflexivity.
  - destruct (blob_abs_path _) eqn:Hbl; [|discriminate].
    destruct (posixpath_join _ _) as [[]|]; try discriminate.
    destruct (bool_decide _); [|discriminate]. injection Hp as <-.
    cbn. rewrite Hb, Hbl. repeat split; reflexivity.
Qed.

(** A build that returned went through every station. *)
Lemma create_image_ok_inv (json_load : string -> res pyval)
    (clear_from_oss_arg : bool) (oss_uploader_arg : string) (run : BuilderRun)
    (st st1 : ImageState) :
  create_image json_load clear_from_oss_arg oss_uploader_arg run st = (Ok tt, st1) ->
  build_checked oss_uploader_arg run st = true
  /\ exists last_blob st',
       last_blob_of json_load run = Ok last_blob
       /\ persist_blob (recorded_state clear_from_oss_arg oss_uploader_arg run
                                       last_blob st) = (Ok tt, st')
       /\ st1 = registered_state st'.
Proof.
  rewrite create_image_run. unfold build_checked, last_blob_of.
  destruct (string_in oss_uploader_arg _); cbn [negb andb]; [|discriminate].
  destruct (_ && _); cbn [negb]; [|discriminate]. cbv zeta.
  destruct (json_load (output_json run)) as [doc|]; [|discriminate].
  destruct (subscript_str doc "blobs") as [blobs|]; [|discriminate].
  destruct (subscript_last blobs) as [last_blob|]; [|discriminate].
  destruct (persist_blob _) as [[[]|] st'] eqn:Hp; [|discriminate].
  intros [= <-]. split; [reflexivity|]. exists last_blob, st'. auto.
Qed.

(** X11: when [create_image] returns, the builder has passed the checks,
    the image is marked created, [blob_id] is the last blob of the output,
    [bootstrap_path] is the absolute path of the bootstrap, and the dustbin
    has grown by exactly the bootstrap name, the blob path and the local
    backing blob, in this order, as far as the image has them. *)
Theorem create_image_returns (json_load : string -> res pyval)
    (clear_from_oss_arg : bool) (oss_uploader_arg : string) (run : BuilderRun)
    (st st1 : ImageState) :
  create_image json_load clear_from_oss_arg oss_uploader_arg run st = (Ok tt, st1) ->
  build_checked oss_uploader_arg run st = true
  /\ created (self st1) = true
  /\ last_blob_of json_load run = Ok (blob_id (self st1))
  /\ bootstrap_path (self st1)
     = Some (abspath (cwd st) (bootstrap_name (self st)))
  /\ blob_abs_path (self st1) = blob_abs_path (self st)
  /\ dustbin st1 = (dustbin st ++ dustbin_entries (self st1))%list.
Proof.
  intros H.
  destruct (create_image_ok_inv _ _ _ _ _ _ H)
    as (Hchk & last_blob & st' & Hlast & Hp & ->).
  destruct (persist_blob_ok_frame _ _ Hp) as (Hc & Hbp & Hbl & _ & Hid & _ & Hd).
  unfold registered_state. cbn [self with_dustbin dustbin].
  split; [exact Hchk|].
  rewrite Hc, Hbp, Hbl, Hid, Hd, Hlast. repeat split; reflexivity.
Qed.

Lemma create_image_returns_witness :
  build_checked "util" builder_ok (image_fresh LOCALFS) = true
  /\ created (self (image_built LOCALFS)) = true
  /\ last_blob_of json_load_fixture builder_ok
     = Ok (blob_id (self (image_built LOCALFS)))
  /\ bootstrap_path (self (image_built LOCALFS))
     = Some (abspath (cwd (image_fresh LOCALFS))
                     (bootstrap_name (self (image_fresh LOCALFS))))
  /\ blob_abs_path (self (image_built LOCALFS))
     = blob_abs_path (self (image_fresh LOCALFS))
  /\ dustbin (image_built LOCALFS)
     = (dustbin (image_fresh LOCALFS)
        ++ dustbin_entries (self (image_built LOCALFS)))%list.
Proof.
  apply (create_image_returns json_load_fixture true "util" builder_ok
           (image_fresh LOCALFS) (image_built LOCALFS)).
  vm_compute. reflexivity.
Defined.

(** The dustbin after the local-directory build of the fixture. *)
Example dustbin_after_localfs_build :
  dustbin (image_built LOCALFS)
  = ["bootstrap"; "/work/blob-tmp"; "/work/localfs/blob-b"].
Proof. vm_compute. reflexivity. Qed.





(** With the object store the fixture build asks for one upload. *)
Example upload_after_oss_build :
  oss_calls (image_built OSS) = [OssUpload (PStr "/work/blob-tmp") (PStr "blob-b")].
Proof. vm_compute. reflexivity. Qed.

(** X13: a builder that passed the checks but whose output yields no blob
    identifier (it does not decode, has no ["blobs"] entry, or the list is
    empty) makes [create_image] raise with the image already marked created:
    no [bootstrap_path] is assigned, [blob_id] is what it was, and nothing
    has been handed to the dustbin. *)
Theorem create_image_without_blob_id (json_load : string -> res pyval)
    (clear_from_oss_arg : bool) (oss_uploader_arg : string) (run : BuilderRun)
    (st : ImageState) (e : exn) :
  build_checked oss_uploader_arg run st = true ->
  last_blob_of json_load run = Raise e ->
  exists st',
    create_image json_load clear_from_oss_arg oss_uploader_arg run st
    = (Raise e, st')
    /\ created (self st') = true
    /\ bootstrap_path (self st') = bootstrap_path (self st)
    /\ blob_id (self st') = blob_id (self st)
    /\ dustbin st' = dustbin st
    /\ files st' = files_after run.
Proof.
  unfold build_checked, last_blob_of. intros Hchk Hlast.
  exists (checked_state clear_from_oss_arg oss_uploader_arg run st).
  split; [|repeat split].
  rewrite create_image_run.
  apply andb_true_iff in Hchk as [Hchk Hboot].
  apply andb_true_iff in Hchk as [Hup Hrc].
  rewrite Hup, Hrc, Hboot. cbn [negb andb]. cbv zeta.
  destruct (json_load (output_json run)) as [doc|]; [|congruence].
  destruct (subscript_str doc "blobs") as [blobs|]; [|congruence].
  destruct (subscript_last blobs); congruence.
Qed.

Lemma create_image_without_blob_id_witness :
  exists st',
    create_image json_load_fixture true "util" builder_no_blob (image_fresh REGISTRY)
    = (Raise IndexError, st')
    /\ created (self st') = true
    /\ bootstrap_path (self st') = bootstrap_path (self (image_fresh REGISTRY))
    /\ blob_id (self st') = blob_id (self (image_fresh REGISTRY))
    /\ dustbin st' = dustbin (image_fresh REGISTRY)
    /\ files st' = files_after builder_no_blob.
Proof.
  apply (create_image_without_blob_id json_load_fixture true "util"
           builder_no_blob (image_fresh REGISTRY) IndexError).
  - vm_compute. reflexivity.
  - vm_compute. reflexivity.
Defined.

(** ** Exceptions of monadic code *)

Section Raising.

Context {S : Type}.

Lemma raises_only_bind {A B} (m : M S A) (k : A -> M S B) h :
  raises_only m h -> (forall a, raises_only (k a) h) -> raises_only (bind m k) h.
Proof.
  intros Hm Hk s e. unfold bind. specialize (Hm s).
  destruct (m s) as [[a|e'] s']; cbn [fst] in *.
  - apply Hk.
  - intros [= <-]. now apply Hm.
Qed.

Lemma raises_only_modify (f : S -> S) h : raises_only (modify f) h.
Proof. intros s e. discriminate. Qed.

Lemma raises_only_ret {A} (a : A) h : raises_only (@ret S A a) h.
Proof. intros s e. discriminate. Qed.

Lemma never_raises_ret {A} (a : A) : never_raises (@ret S A a).
Proof. intros s. now exists a. Qed.

Lemma never_raises_gets {A} (f : S -> A) : never_raises (gets f).
Proof. intros s. now exists (f s). Qed.

Lemma never_raises_bind {A B} (m : M S A) (k : A -> M S B) :
  never_raises m -> (forall a, never_raises (k a)) -> never_raises (bind m k).
Proof.
  intros Hm Hk s. unfold bind. destruct (Hm s) as [a Ha].
  destruct (m s) as [[a'|e] s']; cbn [fst] in Ha; [|discriminate].
  apply Hk.
Qed.

(** A [try] that passes on everything its body can raise always returns. *)
Lemma never_raises_try_pass (m : M S unit) h :
  raises_only m h -> never_raises (try_pass m h).
Proof.
  intros Hm s. unfold try_pass. specialize (Hm s).
  destruct (m s) as [[[]|e] s']; cbn [fst] in *; [now exists tt|].
  rewrite (Hm e eq_refl). now exists tt.
Qed.

Lemma never_raises_eq (m : M S unit) :
  never_raises m -> forall s, m s = (Ok tt, snd (m s)).
Proof.
  intros Hm s. destruct (Hm s) as [[] H].
  destruct (m s) as [r s']. cbn [fst snd] in *. now subst r.
Qed.

End Raising.

Lemma raises_only_os_unlink p h :
  h FileNotFoundError = true -> raises_only (os_unlink p) h.
Proof.
  intros Hh st e. unfold os_unlink. destruct (bool_decide _); [discriminate|].
  now intros [= <-].
Qed.

Lemma raises_only_attr {A} (f : RafsImage -> option A) h :
  h AttributeError = true -> raises_only (attr f) h.
Proof.
  intros Hh st e. unfold attr. destruct (f (self st)); [discriminate|].
  now intros [= <-].
Qed.

(** Everything in [clean_up] after its first two statements is under a
    [try] that passes on what it can raise. *)
Lemma clean_up_guarded_part (i : RafsImage) :
  never_raises
    (match localfs_backing_blob i with
     | Some q => try_pass (os_unlink q) is_FileNotFoundError
     | None => ret tt
     end ;;
     try_pass (q <- attr blob_abs_path ;; os_unlink q)
              (fun e => is_FileNotFoundError e || is_AttributeError e) ;;
     try_pass (q <- attr parent_blob ;; os_unlink q ;;
               r <- attr parent_bootstrap ;; os_unlink r)
              (fun e => is_FileNotFoundError e || is_AttributeError e) ;;
     try_pass
       (when (clear_from_oss i && backend_is (backend_type i) OSS)
          (_ <- attr oss_helper ;;
           modify (with_oss_calls (fun l => (l ++ [OssRm (blob_id i)])%list))))
       is_AttributeError).
Proof.
  repeat first
    [ apply never_raises_bind; [|intros ?]
    | apply never_raises_try_pass
    | apply never_raises_ret
    | apply raises_only_bind; [|intros ?]
    | apply raises_only_os_unlink; reflexivity
    | apply raises_only_attr; reflexivity
    | apply raises_only_modify
    | match goal with
      | |- never_raises (match ?x with _ => _ end) => destruct x
      | |- raises_only (when ?b _) _ =>
          destruct b; [cbn [when]|apply raises_only_ret]
      end ].
Qed.

(** Where every path unlinked is a file, [clean_up] has one statement that
    can make it raise (no image of this module has the attribute
    [oss_blob_abs_path]): the unlink of the bootstrap. *)
Lemma clean_up_first_unlink (st : ImageState) :
  oss_blob_abs_path (self st) = None ->
  fst (clean_up st)
  = match bootstrap_path (self st) with
    | Some p =>
        if bool_decide (p ∈ files st) then Ok tt else Raise FileNotFoundError
    | None => Ok tt
    end.
Proof.
  intros Hoss. unfold clean_up. run_step. rewrite Hoss.
  pose proof (never_raises_eq _ (clean_up_guarded_part (self st))) as Htail.
  destruct (bootstrap_path (self st)) as [p|].
  - unfold bind at 1. unfold os_unlink at 1.
    destruct (bool_decide (p ∈ files st)); [|reflexivity].
    run_step. now rewrite Htail.
  - do 2 run_step. now rewrite Htail.
Qed.

(** X14: a missing attribute never makes [clean_up] fail on an image
    without [oss_blob_abs_path] (no code of this module assigns it): every
    attribute it reads is tested with [hasattr] first or read under a [try]
    that passes on [AttributeError], so the call can be made on an image
    that was never built and whose backend was never set. *)
Theorem clean_up_no_attribute_error (st : ImageState) :
  oss_blob_abs_path (self st) = None ->
  fst (clean_up st) <> Raise AttributeError.
Proof.
  intros Hoss. rewrite (clean_up_first_unlink st Hoss).
  destruct (bootstrap_path (self st)) as [p|]; [|discriminate].
  destruct (bool_decide (p ∈ files st)); discriminate.
Qed.

Lemma clean_up_no_attribute_error_witness :
  fst (clean_up (image_new anchor_v6)) <> Raise AttributeError.
Proof. apply (clean_up_no_attribute_error (image_new anchor_v6)). reflexivity. Defined.

Lemma hoare_bind {S A B} (P Q : S -> Prop) (m : M S A) (k : A -> M S B) :
  preserved P m -> (forall a, hoare P (k a) Q) -> (forall s, P s -> Q s) ->
  hoare P (bind m k) Q.
Proof.
  intros Hm Hk HPQ s Hs. specialize (Hm s Hs). unfold bind.
  destruct (m s) as [[a|e] s']; cbn [snd] in *; [now apply Hk|now apply HPQ].
Qed.

Section RemoteCalls.

Variable l : list OssCall.

Lemma calls_os_unlink p : preserved (fun s => oss_calls s = l) (os_unlink p).
Proof. intros s H. unfold os_unlink. destruct (bool_decide _); exact H. Qed.

Lemma calls_attr {A} (f : RafsImage -> option A) :
  preserved (fun s => oss_calls s = l) (attr f).
Proof. intros s H. unfold attr. destruct (f (self s)); exact H. Qed.

End RemoteCalls.

Ltac calls_tac l :=
  repeat first
    [ apply preserved_bind; [|intros ?]
    | apply preserved_try_pass
    | apply preserved_ret
    | apply (calls_os_unlink l)
    | apply (calls_attr l)
    | match goal with
      | |- preserved _ (match ?x with _ => _ end) => destruct x
      end ].

(** X15: [clean_up] touches the object store at most once: it asks for the
    removal of [blob_id], and only on an image whose [clear_from_oss] is set
    and whose backend is the object store; on every other image it makes no
    call at all. *)
Theorem clean_up_remote_calls (st : ImageState) :
  oss_calls (snd (clean_up st)) = oss_calls st
  \/ (clear_from_oss (self st) = true
      /\ backend_type (self st) = Some OSS
      /\ oss_calls (snd (clean_up st))
         = (oss_calls st ++ [OssRm (blob_id (self st))])%list).
Proof.
  set (l := oss_calls st).
  set (Q := fun s : ImageState =>
              oss_calls s = l
              \/ (clear_from_oss (self st) = true
                  /\ backend_type (self st) = Some OSS
                  /\ oss_calls s = (l ++ [OssRm (blob_id (self st))])%list)).
  change (Q (snd (clean_up st))).
  assert (HPQ : forall s, oss_calls s = l -> Q s) by (intros s H; now left).
  unfold clean_up. run_step.
  apply (fun H : hoare (fun s => oss_calls s = l) _ Q => H st eq_refl).
  apply hoare_bind; [calls_tac l| |exact HPQ]. intros _.
  apply hoare_bind; [calls_tac l| |exact HPQ]. intros _.
  apply hoare_bind; [calls_tac l| |exact HPQ]. intros _.
  apply hoare_bind; [calls_tac l| |exact HPQ]. intros _.
  apply hoare_bind; [calls_tac l| |exact HPQ]. intros _.
  intros s Hs. unfold try_pass, when, bind, attr, modify.
  destruct (clear_from_oss (self st)) eqn:Hclear; cbn [andb];
    [|now apply HPQ].
  destruct (backend_type (self st)) as [[| | |]|] eqn:Hb; cbn [backend_is Backend_eqb];
    try now apply HPQ.
  destruct (oss_helper (self s)); cbn [is_AttributeError snd];
    [|now apply HPQ].
  right. cbn [oss_calls with_oss_calls]. rewrite Hs. auto.
Qed.

(** The calls after building with the object store and cleaning up: the
    upload of the build, then the removal. *)
Example clean_up_oss_calls :
  oss_calls (snd (clean_up (image_built OSS)))
  = [OssUpload (PStr "/work/blob-tmp") (PStr "blob-b"); OssRm (PStr "blob-b")]
  /\ oss_calls (snd (clean_up (image_built REGISTRY))) = [].
Proof. split; vm_compute; reflexivity. Qed.

(** * Properties of [BlobEntryConf] *)

Lemma blob_assign_step k rest v (b : BlobEntry.BlobEntryConf) :
  BlobEntry.shaped (BlobEntry.conf_base b) = true ->
  BlobEntry.keeps_shape (k :: rest) = true ->
  In (removelast (k :: rest)) BlobEntry.shape_paths ->
  exists d,
    BlobEntry.assign k rest v b
    = (Ok tt, BlobEntry.mkBlobEntryConf d (BlobEntry.entry_anchor b))
    /\ BlobEntry.shaped d = true
    /\ get_path d (k :: rest) = Ok v
    /\ forall p, apart p (k :: rest) ->
                 get_path d p = get_path (BlobEntry.conf_base b) p.
Proof.
  unfold BlobEntry.shaped, BlobEntry.keeps_shape. rewrite !forallb_forall.
  intros Hsh Hk Hin.
  destruct (set_path_ok rest (BlobEntry.conf_base b) k v (Hsh _ Hin)) as [d Hs].
  exists d. split; [unfold BlobEntry.assign; now rewrite Hs|].
  split.
  { apply forallb_forall. intros s Hs'.
    apply (obj_at_after_set _ _ _ _ _ _ Hs (Hsh s Hs')).
    specialize (Hk s Hs'). apply negb_true_iff, bool_decide_eq_false in Hk.
    exact Hk. }
  split; [exact (get_set_path _ _ _ _ _ Hs)|].
  intros p Hp. exact (set_path_frame _ _ _ _ _ _ Hs Hp).
Qed.

Ltac blob_step k rest v b d :=
  let R := fresh "R" in
  let Hsh := fresh "Hsh" in
  let G := fresh "G" in
  let F := fresh "F" in
  match goal with
  | H : BlobEntry.shaped (BlobEntry.conf_base b) = true |- _ =>
      destruct (blob_assign_step k rest v b H eq_refl ltac:(simpl; auto 8))
        as (d & R & Hsh & G & F)
  end.

(** The constructor returns, with the template's shape and identifiers. *)
Lemma blob_entry_init (a : NydusAnchor) :
  exists b,
    BlobEntry.init a = (Ok tt, b)
    /\ BlobEntry.shaped (BlobEntry.conf_base b) = true
    /\ BlobEntry.ids_agree (BlobEntry.conf_base b)
    /\ BlobEntry.entry_anchor b = a.
Proof.
  eexists. split; [reflexivity|]. split; [reflexivity|]. split; [|reflexivity].
  exists (PStr BlobEntry.template_id). repeat split.
Qed.

(** One setter call: it returns, keeps the shape and the agreement of the
    identifiers, and leaves the path [keep] alone when the call is not the
    one that writes it. *)
Lemma blob_call_step (call : BlobEntry.Call) (b : BlobEntry.BlobEntryConf) :
  BlobEntry.shaped (BlobEntry.conf_base b) = true ->
  BlobEntry.ids_agree (BlobEntry.conf_base b) ->
  exists b',
    BlobEntry.run_call call b = (Ok tt, b')
    /\ BlobEntry.shaped (BlobEntry.conf_base b') = true
    /\ BlobEntry.ids_agree (BlobEntry.conf_base b')
    /\ BlobEntry.entry_anchor b' = BlobEntry.entry_anchor b
    /\ (call <> BlobEntry.SetBackend ->
        get_path (BlobEntry.conf_base b') ["config"; "backend_config"; "repo"]
        = get_path (BlobEntry.conf_base b) ["config"; "backend_config"; "repo"]).
Proof.
  intros Hsh (v & Hid & Hdom & Hcid).
  destruct call; cbn [BlobEntry.run_call].
  - blob_step "type" (@nil string) t b d.
    eexists. split; [exact R|]. split; [exact Hsh0|].
    split; [|split; [reflexivity|intros _; apply F; apart_paths]].
    exists v. cbn [BlobEntry.conf_base].
    rewrite !F by apart_paths. auto.
  - blob_step "config" ["repo"] repo b d.
    eexists. split; [exact R|]. split; [exact Hsh0|].
    split; [|split; [reflexivity|intros _; apply F; apart_paths]].
    exists v. cbn [BlobEntry.conf_base].
    rewrite !F by apart_paths. auto.
  - blob_step "config" ["metadata_path"] path b d.
    eexists. split; [exact R|]. split; [exact Hsh0|].
    split; [|split; [reflexivity|intros _; apply F; apart_paths]].
    exists v. cbn [BlobEntry.conf_base].
    rewrite !F by apart_paths. auto.
  - blob_step "id" (@nil string) fsid b d1.
    set (b1 := BlobEntry.mkBlobEntryConf d1 (BlobEntry.entry_anchor b)) in *.
    change d1 with (BlobEntry.conf_base b1) in Hsh0.
    blob_step "domain_id" (@nil string) fsid b1 d2.
    set (b2 := BlobEntry.mkBlobEntryConf d2 (BlobEntry.entry_anchor b1)) in *.
    change d2 with (BlobEntry.conf_base b2) in Hsh1.
    blob_step "config" ["id"] fsid b2 d3.
    eexists. split.
    { unfold BlobEntry.set_fsid.
      rewrite (bind_ok _ _ _ _ _ R), (bind_ok _ _ _ _ _ R0). exact R1. }
    split; [exact Hsh2|].
    split; [|split; [reflexivity|]].
    + exists fsid. cbn [BlobEntry.conf_base] in *. repeat split.
      * rewrite F1, F0 by apart_paths. exact G.
      * rewrite F1 by apart_paths. exact G0.
      * exact G1.
    + intros _. cbn [BlobEntry.conf_base] in *.
      rewrite F1, F0, F by apart_paths. reflexivity.
  - blob_step "config" ["backend_config"; "host"]
              (backend_proxy_url (BlobEntry.entry_anchor b)) b d1.
    set (b1 := BlobEntry.mkBlobEntryConf d1 (BlobEntry.entry_anchor b)) in *.
    change d1 with (BlobEntry.conf_base b1) in Hsh0.
    blob_step "config" ["backend_config"; "repo"] (PStr "nydus") b1 d2.
    eexists. split.
    { unfold BlobEntry.set_backend. run_ret.
      rewrite (bind_ok _ _ _ _ _ R). exact R0. }
    split; [exact Hsh1|].
    split; [|split; [reflexivity|intros Hne; now contradiction Hne]].
    exists v. cbn [BlobEntry.conf_base] in *.
    rewrite !F0, !F by apart_paths. auto.
  - blob_step "fs_prefetch" ["enable"] (PBool true) b d1.
    set (b1 := BlobEntry.mkBlobEntryConf d1 (BlobEntry.entry_anchor b)) in *.
    change d1 with (BlobEntry.conf_base b1) in Hsh0.
    blob_step "fs_prefetch" ["prefetch_all"] (PBool true) b1 d2.
    set (b2 := BlobEntry.mkBlobEntryConf d2 (BlobEntry.entry_anchor b1)) in *.
    change d2 with (BlobEntry.conf_base b2) in Hsh1.
    blob_step "fs_prefetch" ["threads_count"] threads_cnt b2 d3.
    eexists. split.
    { unfold BlobEntry.set_prefetch.
      rewrite (bind_ok _ _ _ _ _ R), (bind_ok _ _ _ _ _ R0). exact R1. }
    split; [exact Hsh2|].
    split; [|split; [reflexivity|]].
    + exists v. cbn [BlobEntry.conf_base] in *.
      rewrite !F1, !F0, !F by apart_paths. auto.
    + intros _. cbn [BlobEntry.conf_base] in *.
      rewrite F1, F0, F by apart_paths. reflexivity.
Qed.

Lemma blob_calls_run (calls : list BlobEntry.Call) :
  forall b,
    BlobEntry.shaped (BlobEntry.conf_base b) = true ->
    BlobEntry.ids_agree (BlobEntry.conf_base b) ->
    exists b',
      BlobEntry.run_calls calls b = (Ok tt, b')
      /\ BlobEntry.ids_agree (BlobEntry.conf_base b')
      /\ BlobEntry.entry_anchor b' = BlobEntry.entry_anchor b
      /\ (Forall (fun call => call <> BlobEntry.SetBackend) calls ->
          get_path (BlobEntry.conf_base b') ["config"; "backend_config"; "repo"]
          = get_path (BlobEntry.conf_base b) ["config"; "backend_config"; "repo"]).
Proof.
  induction calls as [|call calls IH]; intros b Hsh Hids.
  - exists b. repeat split; auto.
  - destruct (blob_call_step call b Hsh Hids) as (b1 & R & Hsh1 & Hids1 & Ha & Hrepo).
    destruct (IH b1 Hsh1 Hids1) as (b2 & R2 & Hids2 & Ha2 & Hrepo2).
    exists b2. split.
    { cbn [BlobEntry.run_calls]. rewrite (bind_ok _ _ _ _ _ R). exact R2. }
    split; [exact Hids2|]. split; [congruence|].
    intros Hall. inversion Hall as [|? ? Hne Hrest]; subst.
    rewrite (Hrepo2 Hrest). exact (Hrepo Hne).
Qed.

(** X16: a [BlobEntryConf] is constructed without an exception, no chain of
    its setters raises, and after any such chain the three identifiers of
    the entry ([id], [domain_id] and [config.id]) hold one and the same
    value. *)
Theorem blob_entry_ids_agree (a : NydusAnchor) (calls : list BlobEntry.Call) :
  exists b0 b,
    BlobEntry.init a = (Ok tt, b0)
    /\ BlobEntry.run_calls calls b0 = (Ok tt, b)
    /\ BlobEntry.ids_agree (BlobEntry.conf_base b)
    /\ BlobEntry.entry_anchor b = a.
Proof.
  destruct (blob_entry_init a) as (b0 & Hinit & Hsh & Hids & Ha).
  destruct (blob_calls_run calls b0 Hsh Hids) as (b & R & Hids' & Ha' & _).
  exists b0, b. repeat split; try assumption. congruence.
Qed.

(** X17: [set_repo] does not reach the repository the backend is configured
    with: it writes [config.repo], beside [config.backend_config].  Through
    every chain of setters without [set_backend] the repository in
    [config.backend_config] stays the template's. *)
Theorem blob_entry_backend_repo (a : NydusAnchor) (calls : list BlobEntry.Call) :
  Forall (fun call => call <> BlobEntry.SetBackend) calls ->
  exists b0 b,
    BlobEntry.init a = (Ok tt, b0)
    /\ BlobEntry.run_calls calls b0 = (Ok tt, b)
    /\ get_path (BlobEntry.conf_base b) ["config"; "backend_config"; "repo"]
       = Ok (PStr "gechangwei/java").
Proof.
  intros Hall.
  destruct (blob_entry_init a) as (b0 & Hinit & Hsh & Hids & Ha).
  destruct (blob_calls_run calls b0 Hsh Hids) as (b & R & _ & _ & Hrepo).
  exists b0, b. split; [exact Hinit|]. split; [exact R|].
  rewrite (Hrepo Hall).
  unfold BlobEntry.init in Hinit.
  injection Hinit as <-. reflexivity.
Qed.

Lemma blob_entry_backend_repo_witness :
  exists b0 b,
    BlobEntry.init anchor_v6 = (Ok tt, b0)
    /\ BlobEntry.run_calls entry_calls b0 = (Ok tt, b)
    /\ get_path (BlobEntry.conf_base b) ["config"; "backend_config"; "repo"]
       = Ok (PStr "gechangwei/java").
Proof.
  apply (blob_entry_backend_repo anchor_v6 entry_calls).
  repeat constructor; discriminate.
Defined.

(** After the chain of the fixture the repository given is in
    [config.repo]; [set_backend] then puts ["nydus"] in the backend's. *)
Example entry_calls_repos :
  let b := snd (BlobEntry.run_calls entry_calls (snd (BlobEntry.init anchor_v6))) in
  get_path (BlobEntry.conf_base b) ["config"; "repo"] = Ok (PStr "library/busybox")
  /\ get_path (BlobEntry.conf_base (snd (BlobEntry.set_backend b)))
              ["config"; "backend_config"; "repo"] = Ok (PStr "nydus")
  /\ get_path (BlobEntry.conf_base (snd (BlobEntry.set_backend b)))
              ["config"; "backend_config"; "host"] = Ok (PStr "127.0.0.1:8000").
Proof. repeat split; vm_compute; reflexivity. Qed.

(** * Further properties of [NydusDaemon] *)







(** A daemon made with [with_defaults=False] on which [apisock] was never
    called: [mount] raises before it dumps or launches anything; once the
    socket is named it mounts. *)
Example mount_without_apisock :
  NydusDaemon.script_mount 3 true true (daemon_bare (Some conf_v6) world_ready_at_2)
  = Some (Raise AttributeError, daemon_bare (Some conf_v6) world_ready_at_2)
  /\ fst <$> NydusDaemon.script_mount 3 true true
               (NydusDaemon.apisock Script "api_sock"
                  (daemon_bare (Some conf_v6) world_ready_at_2))
     = Some (Ok tt).
Proof. split; vm_compute; reflexivity. Qed.
